(** * Klipper heater control: a shallow embedding of [klippy/heater.py] and
    [klippy/extras/heater_calibrate.py], with the properties of its
    specification.

    The Python code computes with [float] values.  Its arithmetic and
    comparisons are used through the interface [PyNum]; the instance
    [float_PyNum] is IEEE 754 binary64 (what a CPython float is).
    Control-flow properties are proved for every instance, order properties
    for every instance satisfying [PyNumOrder]; binary64 satisfies these
    laws, and so do the exact rationals [Q_PyNum], a second instance.  Every
    property of the code below therefore holds of the code on binary64. *)

From Stdlib Require Import ZArith QArith Qabs Qfield Lqa Floats Bool List Lia.
From stdpp Require Import base strings gmap.
Import ListNotations.

Set Warnings "-inexact-float".

(** * Exceptions and results *)

(** The Python exceptions the modelled code can raise; [heater_error] is the
    class [error] of heater.py. *)
Inductive exn : Set :=
| ZeroDivisionError
| OverflowError
| IndexError
| KeyError
| ValueError
| heater_error.

(** A computation that reads but does not change its object. *)
Inductive result (A : Type) : Type :=
| Ok (a : A)
| Raise (e : exn).
Arguments Ok {A} a.
Arguments Raise {A} e.

(** A method call on an object of state [S]: it returns, or raises, and in
    both cases leaves a state behind (what it assigned before raising
    stays assigned). *)
Inductive outcome (S A : Type) : Type :=
| Return (a : A) (s : S)
| Raised (e : exn) (s : S).
Arguments Return {S A} a s.
Arguments Raised {S A} e s.

Definition final_state {S A : Type} (o : outcome S A) : S :=
  match o with
  | Return _ s => s
  | Raised _ s => s
  end.

Definition M (S A : Type) : Type := S -> outcome S A.

Definition ret {S A : Type} (a : A) : M S A := fun s => Return a s.

Definition bind {S A B : Type} (m : M S A) (k : A -> M S B) : M S B :=
  fun s =>
    match m s with
    | Return a s' => k a s'
    | Raised e s' => Raised e s'
    end.

Definition try {S A : Type} (r : result A) : M S A :=
  fun s =>
    match r with
    | Ok a => Return a s
    | Raise e => Raised e s
    end.

Definition get {S : Type} : M S S := fun s => Return s s.

Definition modify {S : Type} (f : S -> S) : M S unit := fun s => Return tt (f s).

Definition rbind {A B : Type} (r : result A) (k : A -> result B) : result B :=
  match r with
  | Ok a => k a
  | Raise e => Raise e
  end.

Declare Scope py_monad_scope.
Delimit Scope py_monad_scope with pym.
Notation "'let*' x ':=' m 'in' k" := (bind m (fun x => k))
  (at level 10, x name, m at level 99, k at level 200) : py_monad_scope.
Notation "'let?' x ':=' r 'in' k" := (rbind r (fun x => k))
  (at level 10, x name, r at level 99, k at level 200) : py_monad_scope.
Notation "'do' m ';;' k" := (bind m (fun _ => k))
  (at level 10, m at level 99, k at level 200) : py_monad_scope.

(** * Numbers *)

(** The operations Python applies to its numbers.  [lit q] is the number a
    literal (or an int converted to float) denotes; [fquot] is the quotient by
    a divisor that is not zero (Python raises on a zero divisor, see
    [py_div]). *)
Class PyNum (F : Type) : Type := {
  lit : Q -> F;
  fadd : F -> F -> F;
  fsub : F -> F -> F;
  fmul : F -> F -> F;
  fquot : F -> F -> F;
  fneg : F -> F;
  fabs : F -> F;
  flt : F -> F -> bool;
  fle : F -> F -> bool;
  feq : F -> F -> bool
}.
Arguments lit {F _} q%_Q.

Declare Scope py_scope.
Delimit Scope py_scope with py.
Notation "x + y" := (fadd x y) : py_scope.
Notation "x - y" := (fsub x y) : py_scope.
Notation "x * y" := (fmul x y) : py_scope.
Notation "- x" := (fneg x) : py_scope.
Notation "x <? y" := (flt x y) : py_scope.
Notation "x <=? y" := (fle x y) : py_scope.
Notation "x >? y" := (flt y x) (at level 70, only parsing) : py_scope.
Notation "x >=? y" := (fle y x) (at level 70, only parsing) : py_scope.
Notation "x =? y" := (feq x y) : py_scope.
Notation "x !=? y" := (negb (feq x y)) (at level 70) : py_scope.

(** The external functions of the C library the code calls: [math.exp], and
    the power operator [**] with an int exponent.  Both raise OverflowError
    when the result is out of range. *)
Class PyMath (F : Type) : Type := {
  math_exp : F -> result F;
  pow_int : F -> Z -> result F
}.

Section PythonOperators.
Context {F : Type} `{PyNum F}.
Local Open Scope py_scope.

(** [bool(x)] of a number: it is not zero. *)
Definition truthy (x : F) : bool := x !=? lit 0.

(** [max(a, b)] and [min(a, b)]: the second argument replaces the first
    when it compares strictly greater (smaller). *)
Definition py_max (a b : F) : F := if b >? a then b else a.
Definition py_min (a b : F) : F := if b <? a then b else a.

(** [x / y]. *)
Definition py_div (x y : F) : result F :=
  if y =? lit 0 then Raise ZeroDivisionError else Ok (fquot x y).

(** [sum(l)]: the items added from the left, starting from the int 0 (the
    built-in of Python 2, the language of this code). *)
Definition py_sum (l : list F) : F := fold_left fadd l (lit 0).

(** [float(n)] for the length of a list. *)
Definition of_nat (n : nat) : F := lit (inject_Z (Z.of_nat n)).

(** [a > b] on pairs: the first components that differ decide (components
    compared with [==]; CPython also takes one and the same object for
    equal, which makes no difference for a number other than NaN). *)
Definition pair_gt (a b : F * F) : bool :=
  if fst a =? fst b then
    if snd a =? snd b then false else snd a >? snd b
  else fst a >? fst b.

(** [max(l)] of a list of pairs; ValueError on the empty list. *)
Definition py_max_pairs (l : list (F * F)) : result (F * F) :=
  match l with
  | [] => Raise ValueError
  | x :: rest =>
      Ok (fold_left (fun cur item => if pair_gt item cur then item else cur) rest x)
  end.
End PythonOperators.

(** ** IEEE 754 binary64 *)

Definition Z2F (z : Z) : float := SF2Prim (binary_normalize prec emax z 0 false).

(** The literal is rounded once: numerator and denominator of the reduced
    fraction are exact for every literal of the source but 9.9e99, whose
    denominator is one. *)
Definition float_lit (q : Q) : float :=
  let r := Qred q in PrimFloat.div (Z2F (Qnum r)) (Z2F (Zpos (Qden r))).

#[export] Instance float_PyNum : PyNum float := {|
  lit := float_lit;
  fadd := PrimFloat.add;
  fsub := PrimFloat.sub;
  fmul := PrimFloat.mul;
  fquot := PrimFloat.div;
  fneg := PrimFloat.opp;
  fabs := PrimFloat.abs;
  flt := PrimFloat.ltb;
  fle := PrimFloat.leb;
  feq := PrimFloat.eqb
|}.

(** ** Exact rationals *)

Definition Qlt_bool (x y : Q) : bool := negb (Qle_bool y x).

#[export] Instance Q_PyNum : PyNum Q := {|
  lit := fun q => q;
  fadd := Qplus;
  fsub := Qminus;
  fmul := Qmult;
  fquot := Qdiv;
  fneg := Qopp;
  fabs := Qabs;
  flt := Qlt_bool;
  fle := Qle_bool;
  feq := Qeq_bool
|}.

(** A number is ordered when it compares with itself: every rational is,
    every float but NaN.  The laws below are the order properties the proofs
    use; they hold of both instances. *)
Class PyNumOrder (F : Type) `{PyNum F} : Prop := {
  flt_fle : forall x y : F, flt x y = true -> fle x y = true;
  fle_ordered : forall x y : F, fle x y = true -> fle x x = true /\ fle y y = true;
  fle_trans : forall x y z : F, fle x y = true -> fle y z = true -> fle x z = true;
  flt_fle_trans : forall x y z : F, flt x y = true -> fle y z = true -> flt x z = true;
  fle_total : forall x y : F,
    fle x x = true -> fle y y = true -> flt x y = false -> fle y x = true;
  fle_not_flt : forall x y : F, fle x y = true -> flt y x = false;
  feq_fle : forall x y : F, feq x y = true -> fle x y = true /\ fle y x = true;
  flt_not_feq : forall x y : F, flt x y = true -> feq x y = false /\ feq y x = false;
  zero_ordered : fle (lit 0) (lit 0) = true
}.

(** * heater.py: class Heater *)

Module Heater.
Section Heater.
Context {F : Type} `{PyNum F}.
Local Open Scope py_scope.

Definition KELVIN_TO_CELCIUS : F := lit (-273.15).
Definition MAX_HEAT_TIME : F := lit 5.0.
Definition AMBIENT_TEMP : F := lit 25.
Definition PID_PARAM_BASE : F := lit 255.

(** The heater's own attributes.  [mcu_pwm] is the PWM output object, seen
    as the commands (pwm_time, value) it was sent, the latest first.
    [pwm_calls] is not in the source: it records the arguments
    (read_time, value) of every call of [set_pwm], the latest first, so
    that properties of what the control algorithms pass can be stated.  The
    attribute [control] is held by [HeaterObj.t] below, the algorithms being
    defined after the heater they drive. *)
Record t : Type := mk {
  min_temp : F;
  max_temp : F;
  pwm_delay : F;
  min_extrude_temp : F;
  max_power : F;
  last_temp : F;
  last_temp_time : F;
  target_temp : F;
  can_extrude : bool;
  next_pwm_time : F;
  last_pwm_value : F;
  mcu_pwm : list (F * F);
  pwm_calls : list (F * F)
}.

(** [__init__]: the configuration values are read and validated by the
    config layer (min_temp >= KELVIN_TO_CELCIUS, max_temp > min_temp,
    0 < max_power <= 1, ...); [report_time_delta] is what the sensor's
    [get_report_time_delta] returns. *)
Definition init (min_temp max_temp report_time_delta min_extrude_temp max_power : F)
    (is_fileoutput : bool) : t :=
  {| min_temp := min_temp; max_temp := max_temp;
     pwm_delay := report_time_delta;
     min_extrude_temp := min_extrude_temp; max_power := max_power;
     last_temp := lit 0; last_temp_time := lit 0; target_temp := lit 0;
     can_extrude := (min_extrude_temp <=? lit 0) || is_fileoutput;
     next_pwm_time := lit 0; last_pwm_value := lit 0;
     mcu_pwm := []; pwm_calls := [] |}.

Definition with_target_temp (v : F) (h : t) : t :=
  {| min_temp := min_temp h; max_temp := max_temp h; pwm_delay := pwm_delay h;
     min_extrude_temp := min_extrude_temp h; max_power := max_power h;
     last_temp := last_temp h; last_temp_time := last_temp_time h;
     target_temp := v;
     can_extrude := can_extrude h;
     next_pwm_time := next_pwm_time h; last_pwm_value := last_pwm_value h;
     mcu_pwm := mcu_pwm h; pwm_calls := pwm_calls h |}.

Definition with_pwm_call (c : F * F) (h : t) : t :=
  {| min_temp := min_temp h; max_temp := max_temp h; pwm_delay := pwm_delay h;
     min_extrude_temp := min_extrude_temp h; max_power := max_power h;
     last_temp := last_temp h; last_temp_time := last_temp_time h;
     target_temp := target_temp h;
     can_extrude := can_extrude h;
     next_pwm_time := next_pwm_time h; last_pwm_value := last_pwm_value h;
     mcu_pwm := mcu_pwm h; pwm_calls := c :: pwm_calls h |}.

(** Lines 69-75 of [set_pwm]: the cache is renewed and the driver written. *)
Definition with_pwm_update (pwm_time value : F) (h : t) : t :=
  {| min_temp := min_temp h; max_temp := max_temp h; pwm_delay := pwm_delay h;
     min_extrude_temp := min_extrude_temp h; max_power := max_power h;
     last_temp := last_temp h; last_temp_time := last_temp_time h;
     target_temp := target_temp h;
     can_extrude := can_extrude h;
     next_pwm_time := pwm_time + lit 0.75 * MAX_HEAT_TIME;
     last_pwm_value := value;
     mcu_pwm := (pwm_time, value) :: mcu_pwm h; pwm_calls := pwm_calls h |}.

(** Lines 79-81 of [temperature_callback]. *)
Definition with_sample (read_time temp : F) (h : t) : t :=
  {| min_temp := min_temp h; max_temp := max_temp h; pwm_delay := pwm_delay h;
     min_extrude_temp := min_extrude_temp h; max_power := max_power h;
     last_temp := temp; last_temp_time := read_time;
     target_temp := target_temp h;
     can_extrude := temp >=? min_extrude_temp h;
     next_pwm_time := next_pwm_time h; last_pwm_value := last_pwm_value h;
     mcu_pwm := mcu_pwm h; pwm_calls := pwm_calls h |}.

(** [set_pwm(read_time, value)] returns the pair the source returns and the
    heater after the call. *)
Definition set_pwm (h : t) (read_time value : F) : (F * F) * t :=
  let h := with_pwm_call (read_time, value) h in
  let value := if target_temp h <=? lit 0 then lit 0 else value in
  if ((read_time <? next_pwm_time h) || negb (truthy (last_pwm_value h)))
     && (fabs (value - last_pwm_value h) <? lit 0.05)
  then ((lit 0, last_pwm_value h), h)
  else
    let pwm_time := read_time + pwm_delay h in
    ((pwm_time, value), with_pwm_update pwm_time value h).

(** [set_temp(print_time, degrees)]. *)
Definition set_temp (h : t) (print_time degrees : F) : outcome t unit :=
  if truthy degrees && ((degrees <? min_temp h) || (degrees >? max_temp h))
  then Raised heater_error h
  else Return tt (with_target_temp degrees h).

(** [get_temp(eventtime)]; [estimated_print_time] is the MCU's estimate for
    [eventtime]. *)
Definition get_temp (h : t) (estimated_print_time : F) : F * F :=
  let print_time := estimated_print_time - lit 5 in
  if last_temp_time h <? print_time then (lit 0, target_temp h)
  else (last_temp h, target_temp h).
End Heater.
Arguments t F : clear implicits.
End Heater.

(** * heater.py: the control algorithms *)

(** Every algorithm's [temperature_callback] takes the algorithm object
    [self] and the heater [self.heater] refers to, and gives both back. *)

Module ControlBangBang.
Section ControlBangBang.
Context {F : Type} `{PyNum F}.
Local Open Scope py_scope.

Record t : Type := mk {
  max_delta : F;
  heating : bool
}.

Definition init (max_delta : F) : t :=
  {| max_delta := max_delta; heating := false |}.

Definition with_heating (v : bool) (s : t) : t :=
  {| max_delta := max_delta s; heating := v |}.

Definition temperature_callback (self : t) (h : Heater.t F) (read_time temp : F)
    : t * Heater.t F :=
  let self :=
    if heating self && (temp >=? Heater.target_temp h + max_delta self)
    then with_heating false self
    else if negb (heating self) && (temp <=? Heater.target_temp h - max_delta self)
    then with_heating true self
    else self in
  if heating self
  then (self, snd (Heater.set_pwm h read_time (Heater.max_power h)))
  else (self, snd (Heater.set_pwm h read_time (lit 0))).

Definition check_busy (self : t) (h : Heater.t F) (eventtime : F) : bool :=
  Heater.last_temp h <? Heater.target_temp h - max_delta self.
End ControlBangBang.
Arguments t F : clear implicits.
End ControlBangBang.

Definition PID_SETTLE_DELTA {F : Type} `{PyNum F} : F := lit 1.
Definition PID_SETTLE_SLOPE {F : Type} `{PyNum F} : F := lit 0.1.

Module ControlPID.
Section ControlPID.
Context {F : Type} `{PyNum F}.
Local Open Scope py_scope.
Local Open Scope py_monad_scope.

Record t : Type := mk {
  Kp : F;
  Ki : F;
  Kd : F;
  min_deriv_time : F;
  temp_integ_max : F;
  prev_temp : F;
  prev_temp_time : F;
  prev_temp_deriv : F;
  prev_temp_integ : F
}.

(** [__init__]: the arguments are the values of the options pid_Kp, pid_Ki,
    pid_Kd, pid_deriv_time (above 0, default 2) and pid_integral_max
    (at least 0; [None] when the option is absent). *)
Definition init (heater : Heater.t F) (pid_Kp pid_Ki pid_Kd pid_deriv_time : F)
    (pid_integral_max : option F) : result t :=
  let? Kp := py_div pid_Kp Heater.PID_PARAM_BASE in
  let? Ki := py_div pid_Ki Heater.PID_PARAM_BASE in
  let? Kd := py_div pid_Kd Heater.PID_PARAM_BASE in
  let imax := default (Heater.max_power heater) pid_integral_max in
  let? temp_integ_max := py_div imax Ki in
  Ok {| Kp := Kp; Ki := Ki; Kd := Kd; min_deriv_time := pid_deriv_time;
        temp_integ_max := temp_integ_max;
        prev_temp := Heater.AMBIENT_TEMP; prev_temp_time := lit 0;
        prev_temp_deriv := lit 0; prev_temp_integ := lit 0 |}.

Definition temperature_callback (self : t) (h : Heater.t F) (read_time temp : F)
    : outcome (t * Heater.t F) unit :=
  let time_diff := read_time - prev_temp_time self in
  (* Calculate change of temperature *)
  let temp_diff := temp - prev_temp self in
  match
    (if time_diff >=? min_deriv_time self
     then py_div temp_diff time_diff
     else py_div (prev_temp_deriv self * (min_deriv_time self - time_diff)
                  + temp_diff) (min_deriv_time self))
  with
  | Raise e => Raised e (self, h)
  | Ok temp_deriv =>
      (* Calculate accumulated temperature "error" *)
      let temp_err := Heater.target_temp h - temp in
      let temp_integ := prev_temp_integ self + temp_err * time_diff in
      let temp_integ := py_max (lit 0) (py_min (temp_integ_max self) temp_integ) in
      (* Calculate output *)
      let co := Kp self * temp_err + Ki self * temp_integ - Kd self * temp_deriv in
      let bounded_co := py_max (lit 0) (py_min (Heater.max_power h) co) in
      let h := snd (Heater.set_pwm h read_time bounded_co) in
      (* Store state for next measurement *)
      Return tt
        ({| Kp := Kp self; Ki := Ki self; Kd := Kd self;
            min_deriv_time := min_deriv_time self;
            temp_integ_max := temp_integ_max self;
            prev_temp := temp;
            prev_temp_time := read_time;
            prev_temp_deriv := temp_deriv;
            prev_temp_integ :=
              if co =? bounded_co then temp_integ else prev_temp_integ self |},
         h)
  end.

Definition check_busy (self : t) (h : Heater.t F) (eventtime : F) : bool :=
  let temp_diff := Heater.target_temp h - Heater.last_temp h in
  (fabs temp_diff >? PID_SETTLE_DELTA)
  || (fabs (prev_temp_deriv self) >? PID_SETTLE_SLOPE).
End ControlPID.
Arguments t F : clear implicits.
End ControlPID.

Module ControlFOPDT.
Section ControlFOPDT.
Context {F : Type} `{PyNum F} `{PyMath F}.
Local Open Scope py_scope.
Local Open Scope py_monad_scope.

Definition INV_AMBIENT_SMOOTH : F := fquot (lit 1) (lit 8).
Definition MIN_AMBIENT : F := lit 0.
Definition INV_TEMP_SMOOTH : F := fquot (lit 1) (lit 2).

Record t : Type := mk {
  gain : F;
  inv_gain : F;
  inv_time_constant : F;
  inv_delay : F;
  first_set_temp : bool;
  start_time : F;
  last_pwm_time : F;
  next_pwm_time : F;
  last_model_time : F;
  last_pwm : F;
  next_pwm : F;
  model_temp : F;
  last_model_temp : F;
  model_smooth_temp : F;
  smooth_ambient : F;
  did_fault : bool;
  Kp : F;
  prev_temp : F;
  prev_temp_time : F;
  temp_slope : F
}.

Definition with_first_set_temp (v : bool) (s : t) : t :=
  {| gain := gain s; inv_gain := inv_gain s;
     inv_time_constant := inv_time_constant s; inv_delay := inv_delay s;
     first_set_temp := v; start_time := start_time s;
     last_pwm_time := last_pwm_time s; next_pwm_time := next_pwm_time s;
     last_model_time := last_model_time s; last_pwm := last_pwm s;
     next_pwm := next_pwm s; model_temp := model_temp s;
     last_model_temp := last_model_temp s;
     model_smooth_temp := model_smooth_temp s;
     smooth_ambient := smooth_ambient s; did_fault := did_fault s;
     Kp := Kp s; prev_temp := prev_temp s;
     prev_temp_time := prev_temp_time s; temp_slope := temp_slope s |}.
Definition with_last_pwm_time (v : F) (s : t) : t :=
  {| gain := gain s; inv_gain := inv_gain s;
     inv_time_constant := inv_time_constant s; inv_delay := inv_delay s;
     first_set_temp := first_set_temp s; start_time := start_time s;
     last_pwm_time := v; next_pwm_time := next_pwm_time s;
     last_model_time := last_model_time s; last_pwm := last_pwm s;
     next_pwm := next_pwm s; model_temp := model_temp s;
     last_model_temp := last_model_temp s;
     model_smooth_temp := model_smooth_temp s;
     smooth_ambient := smooth_ambient s; did_fault := did_fault s;
     Kp := Kp s; prev_temp := prev_temp s;
     prev_temp_time := prev_temp_time s; temp_slope := temp_slope s |}.
Definition with_next_pwm_time (v : F) (s : t) : t :=
  {| gain := gain s; inv_gain := inv_gain s;
     inv_time_constant := inv_time_constant s; inv_delay := inv_delay s;
     first_set_temp := first_set_temp s; start_time := start_time s;
     last_pwm_time := last_pwm_time s; next_pwm_time := v;
     last_model_time := last_model_time s; last_pwm := last_pwm s;
     next_pwm := next_pwm s; model_temp := model_temp s;
     last_model_temp := last_model_temp s;
     model_smooth_temp := model_smooth_temp s;
     smooth_ambient := smooth_ambient s; did_fault := did_fault s;
     Kp := Kp s; prev_temp := prev_temp s;
     prev_temp_time := prev_temp_time s; temp_slope := temp_slope s |}.
Definition with_last_model_time (v : F) (s : t) : t :=
  {| gain := gain s; inv_gain := inv_gain s;
     inv_time_constant := inv_time_constant s; inv_delay := inv_delay s;
     first_set_temp := first_set_temp s; start_time := start_time s;
     last_pwm_time := last_pwm_time s; next_pwm_time := next_pwm_time s;
     last_model_time := v; last_pwm := last_pwm s;
     next_pwm := next_pwm s; model_temp := model_temp s;
     last_model_temp := last_model_temp s;
     model_smooth_temp := model_smooth_temp s;
     smooth_ambient := smooth_ambient s; did_fault := did_fault s;
     Kp := Kp s; prev_temp := prev_temp s;
     prev_temp_time := prev_temp_time s; temp_slope := temp_slope s |}.
Definition with_last_pwm (v : F) (s : t) : t :=
  {| gain := gain s; inv_gain := inv_gain s;
     inv_time_constant := inv_time_constant s; inv_delay := inv_delay s;
     first_set_temp := first_set_temp s; start_time := start_time s;
     last_pwm_time := last_pwm_time s; next_pwm_time := next_pwm_time s;
     last_model_time := last_model_time s; last_pwm := v;
     next_pwm := next_pwm s; model_temp := model_temp s;
     last_model_temp := last_model_temp s;
     model_smooth_temp := model_smooth_temp s;
     smooth_ambient := smooth_ambient s; did_fault := did_fault s;
     Kp := Kp s; prev_temp := prev_temp s;
     prev_temp_time := prev_temp_time s; temp_slope := temp_slope s |}.
Definition with_next_pwm (v : F) (s : t) : t :=
  {| gain := gain s; inv_gain := inv_gain s;
     inv_time_constant := inv_time_constant s; inv_delay := inv_delay s;
     first_set_temp := first_set_temp s; start_time := start_time s;
     last_pwm_time := last_pwm_time s; next_pwm_time := next_pwm_time s;
     last_model_time := last_model_time s; last_pwm := last_pwm s;
     next_pwm := v; model_temp := model_temp s;
     last_model_temp := last_model_temp s;
     model_smooth_temp := model_smooth_temp s;
     smooth_ambient := smooth_ambient s; did_fault := did_fault s;
     Kp := Kp s; prev_temp := prev_temp s;
     prev_temp_time := prev_temp_time s; temp_slope := temp_slope s |}.
Definition with_model_temp (v : F) (s : t) : t :=
  {| gain := gain s; inv_gain := inv_gain s;
     inv_time_constant := inv_time_constant s; inv_delay := inv_delay s;
     first_set_temp := first_set_temp s; start_time := start_time s;
     last_pwm_time := last_pwm_time s; next_pwm_time := next_pwm_time s;
     last_model_time := last_model_time s; last_pwm := last_pwm s;
     next_pwm := next_pwm s; model_temp := v;
     last_model_temp := last_model_temp s;
     model_smooth_temp := model_smooth_temp s;
     smooth_ambient := smooth_ambient s; did_fault := did_fault s;
     Kp := Kp s; prev_temp := prev_temp s;
     prev_temp_time := prev_temp_time s; temp_slope := temp_slope s |}.
Definition with_last_model_temp (v : F) (s : t) : t :=
  {| gain := gain s; inv_gain := inv_gain s;
     inv_time_constant := inv_time_constant s; inv_delay := inv_delay s;
     first_set_temp := first_set_temp s; start_time := start_time s;
     last_pwm_time := last_pwm_time s; next_pwm_time := next_pwm_time s;
     last_model_time := last_model_time s; last_pwm := last_pwm s;
     next_pwm := next_pwm s; model_temp := model_temp s;
     last_model_temp := v; model_smooth_temp := model_smooth_temp s;
     smooth_ambient := smooth_ambient s; did_fault := did_fault s;
     Kp := Kp s; prev_temp := prev_temp s;
     prev_temp_time := prev_temp_time s; temp_slope := temp_slope s |}.
Definition with_model_smooth_temp (v : F) (s : t) : t :=
  {| gain := gain s; inv_gain := inv_gain s;
     inv_time_constant := inv_time_constant s; inv_delay := inv_delay s;
     first_set_temp := first_set_temp s; start_time := start_time s;
     last_pwm_time := last_pwm_time s; next_pwm_time := next_pwm_time s;
     last_model_time := last_model_time s; last_pwm := last_pwm s;
     next_pwm := next_pwm s; model_temp := model_temp s;
     last_model_temp := last_model_temp s; model_smooth_temp := v;
     smooth_ambient := smooth_ambient s; did_fault := did_fault s;
     Kp := Kp s; prev_temp := prev_temp s;
     prev_temp_time := prev_temp_time s; temp_slope := temp_slope s |}.
Definition with_smooth_ambient (v : F) (s : t) : t :=
  {| gain := gain s; inv_gain := inv_gain s;
     inv_time_constant := inv_time_constant s; inv_delay := inv_delay s;
     first_set_temp := first_set_temp s; start_time := start_time s;
     last_pwm_time := last_pwm_time s; next_pwm_time := next_pwm_time s;
     last_model_time := last_model_time s; last_pwm := last_pwm s;
     next_pwm := next_pwm s; model_temp := model_temp s;
     last_model_temp := last_model_temp s;
     model_smooth_temp := model_smooth_temp s; smooth_ambient := v;
     did_fault := did_fault s; Kp := Kp s; prev_temp := prev_temp s;
     prev_temp_time := prev_temp_time s; temp_slope := temp_slope s |}.
Definition with_did_fault (v : bool) (s : t) : t :=
  {| gain := gain s; inv_gain := inv_gain s;
     inv_time_constant := inv_time_constant s; inv_delay := inv_delay s;
     first_set_temp := first_set_temp s; start_time := start_time s;
     last_pwm_time := last_pwm_time s; next_pwm_time := next_pwm_time s;
     last_model_time := last_model_time s; last_pwm := last_pwm s;
     next_pwm := next_pwm s; model_temp := model_temp s;
     last_model_temp := last_model_temp s;
     model_smooth_temp := model_smooth_temp s;
     smooth_ambient := smooth_ambient s; did_fault := v; Kp := Kp s;
     prev_temp := prev_temp s; prev_temp_time := prev_temp_time s;
     temp_slope := temp_slope s |}.
Definition with_prev_temp (v : F) (s : t) : t :=
  {| gain := gain s; inv_gain := inv_gain s;
     inv_time_constant := inv_time_constant s; inv_delay := inv_delay s;
     first_set_temp := first_set_temp s; start_time := start_time s;
     last_pwm_time := last_pwm_time s; next_pwm_time := next_pwm_time s;
     last_model_time := last_model_time s; last_pwm := last_pwm s;
     next_pwm := next_pwm s; model_temp := model_temp s;
     last_model_temp := last_model_temp s;
     model_smooth_temp := model_smooth_temp s;
     smooth_ambient := smooth_ambient s; did_fault := did_fault s;
     Kp := Kp s; prev_temp := v; prev_temp_time := prev_temp_time s;
     temp_slope := temp_slope s |}.
Definition with_temp_slope (v : F) (s : t) : t :=
  {| gain := gain s; inv_gain := inv_gain s;
     inv_time_constant := inv_time_constant s; inv_delay := inv_delay s;
     first_set_temp := first_set_temp s; start_time := start_time s;
     last_pwm_time := last_pwm_time s; next_pwm_time := next_pwm_time s;
     last_model_time := last_model_time s; last_pwm := last_pwm s;
     next_pwm := next_pwm s; model_temp := model_temp s;
     last_model_temp := last_model_temp s;
     model_smooth_temp := model_smooth_temp s;
     smooth_ambient := smooth_ambient s; did_fault := did_fault s;
     Kp := Kp s; prev_temp := prev_temp s;
     prev_temp_time := prev_temp_time s; temp_slope := v |}.

(** [__init__]: gain, time_constant and delay_time are the options of these
    names (each above 0); [curtime] is what the reactor's [monotonic]
    returns. *)
Definition init (gain time_constant delay curtime : F) : result t :=
  let? inv_gain := py_div (lit 1) gain in
  let? inv_time_constant := py_div (lit 1) time_constant in
  let? inv_delay := py_div (lit 1) delay in
  Ok {| gain := gain; inv_gain := inv_gain;
        inv_time_constant := inv_time_constant; inv_delay := inv_delay;
        first_set_temp := true; start_time := curtime;
        last_pwm_time := lit 0; next_pwm_time := lit 0;
        last_model_time := lit 0;
        last_pwm := lit 0; next_pwm := lit 0;
        model_temp := lit 0; last_model_temp := lit 0;
        model_smooth_temp := lit 0;
        smooth_ambient := Heater.AMBIENT_TEMP; did_fault := false;
        Kp := lit 0.7 * time_constant * inv_gain;
        prev_temp := Heater.AMBIENT_TEMP; prev_temp_time := lit 0;
        temp_slope := lit 0 |}.

(** The methods run on the algorithm object and its heater. *)
Definition St : Type := (t * Heater.t F)%type.
Definition self_ : M St t := fun s => Return (fst s) s.
Definition heater_ : M St (Heater.t F) := fun s => Return (snd s) s.
Definition assign (f : t -> t) : M St unit := modify (fun s => (f (fst s), snd s)).
Definition heater_set_pwm (read_time value : F) : M St (F * F) :=
  fun s => let '(r, h) := Heater.set_pwm (snd s) read_time value in Return r (fst s, h).

(* Model updating *)
Definition calc_model_temp (read_time : F) : M St F :=
  let* self := self_ in
  let time_diff := read_time - last_pwm_time self in
  let* tc_factor := try (math_exp (- time_diff * inv_time_constant self)) in
  ret (model_temp self * tc_factor
       + gain self * last_pwm self * (lit 1 - tc_factor)).

Definition note_temperature (read_time temp : F) : M St unit :=
  let* self := self_ in
  (* Update internal model (based solely on history of PWM output) *)
  do (if (last_pwm self !=? next_pwm self) && (read_time >? next_pwm_time self)
      then
        let* v := calc_model_temp (next_pwm_time self) in
        do assign (with_model_temp v) ;;
        do assign (with_last_pwm (next_pwm self)) ;;
        assign (with_last_pwm_time (next_pwm_time self))
      else ret tt) ;;
  let* model_temp := calc_model_temp read_time in
  do assign (with_last_model_temp model_temp) ;;
  let* self := self_ in
  let time_diff := read_time - last_model_time self in
  do assign (with_last_model_time read_time) ;;
  let* e := try (math_exp (- time_diff * inv_delay self)) in
  let smooth_factor := lit 1 - e in
  do assign (fun self =>
       with_model_smooth_temp
         (model_smooth_temp self
          + (model_temp - model_smooth_temp self) * smooth_factor) self) ;;
  (* Determine the ambient temperature that would make the model match *)
  let* self := self_ in
  let ambient := temp - model_smooth_temp self in
  let* e := try (math_exp (- time_diff * INV_AMBIENT_SMOOTH)) in
  let ambient_factor := lit 1 - e in
  do assign (fun self =>
       with_smooth_ambient
         (smooth_ambient self + (ambient - smooth_ambient self) * ambient_factor)
         self) ;;
  (* Validate calculated ambient is sane *)
  let* self := self_ in
  let* h := heater_ in
  if (smooth_ambient self <? MIN_AMBIENT) && negb (did_fault self)
     && (temp <=? Heater.target_temp h)
  then assign (with_did_fault true)
  else ret tt.

Definition set_pwm (read_time value : F) : M St unit :=
  let* r := heater_set_pwm read_time value in
  let pwm_time := fst r in
  let value := snd r in
  let* self := self_ in
  do (if last_pwm self !=? next_pwm self
      then
        let* v := calc_model_temp (next_pwm_time self) in
        do assign (with_model_temp v) ;;
        do assign (with_last_pwm (next_pwm self)) ;;
        assign (with_last_pwm_time (next_pwm_time self))
      else ret tt) ;;
  do assign (with_next_pwm_time pwm_time) ;;
  assign (with_next_pwm value).

(** [curtime] is what the reactor's [monotonic] returns. *)
Definition note_first_temp (curtime : F) : M St unit :=
  do assign (with_first_set_temp false) ;;
  let* self := self_ in
  let* limit := try (py_div (lit 5) (inv_time_constant self)) in
  if curtime >=? start_time self + limit then ret tt
  else
    (* Assume excess ambient temperature is from previous session *)
    let delta := smooth_ambient self - Heater.AMBIENT_TEMP in
    if delta <=? lit 0 then ret tt
    else
      do assign (fun self => with_model_temp (model_temp self + delta) self) ;;
      do assign (fun self =>
           with_model_smooth_temp (model_smooth_temp self + delta) self) ;;
      do assign (fun self => with_smooth_ambient (smooth_ambient self - delta) self) ;;
      assign (fun self => with_last_pwm_time (last_model_time self) self).

(* Control callbacks *)
Definition temperature_callback (curtime read_time temp : F) : M St unit :=
  let* self := self_ in
  let* h := heater_ in
  do (if truthy (Heater.target_temp h) && first_set_temp self
      then note_first_temp curtime
      else ret tt) ;;
  do note_temperature read_time temp ;;
  (* Calculate temperature slope *)
  let* self := self_ in
  let time_diff := read_time - prev_temp_time self in
  let temp_diff := temp - prev_temp self in
  do assign (with_prev_temp temp) ;;
  let* e := try (math_exp (- time_diff * INV_TEMP_SMOOTH)) in
  let smooth_factor := lit 1 - e in
  do assign (fun self =>
       with_temp_slope
         (temp_slope self + (temp_diff - temp_slope self) * smooth_factor) self) ;;
  (* Calculate new output *)
  let* self := self_ in
  let* h := heater_ in
  let target_temp := Heater.target_temp h - smooth_ambient self in
  let bias := target_temp * inv_gain self in
  let temp_err := target_temp - last_model_temp self in
  let bounded_co :=
    py_max (lit 0) (py_min (Heater.max_power h) (bias + Kp self * temp_err)) in
  set_pwm read_time bounded_co.

Definition check_busy (self : t) (h : Heater.t F) (eventtime : F) : bool :=
  let temp_diff := Heater.target_temp h - Heater.last_temp h in
  (fabs temp_diff >? PID_SETTLE_DELTA)
  || (fabs (temp_slope self) >? PID_SETTLE_SLOPE).
End ControlFOPDT.
Arguments t F : clear implicits.
End ControlFOPDT.

(** * heater_calibrate.py: class ControlBumpTest *)

(** [l[0]], [l[1]] and [l[-1]] of a list, [d[k]] of a dict. *)
Definition py_index {A : Type} (l : list A) (i : nat) : result A :=
  match nth_error l i with
  | Some x => Ok x
  | None => Raise IndexError
  end.

Definition py_last {A : Type} (l : list A) : result A :=
  match last l with
  | Some x => Ok x
  | None => Raise IndexError
  end.

Definition py_getitem {A : Type} (d : gmap string A) (k : string) : result A :=
  match d !! k with
  | Some x => Ok x
  | None => Raise KeyError
  end.

Module ControlBumpTest.
Section ControlBumpTest.
Context {F : Type} `{PyNum F} `{PyMath F}.
Local Open Scope py_scope.
Local Open Scope py_monad_scope.

Record t : Type := mk {
  state : Z;
  done_temperature : F;
  last_pwm : F;
  pwm_samples : list (F * F);
  temp_samples : list (F * F);
  ambient_temp : F
}.

Definition with_state (v : Z) (s : t) : t :=
  {| state := v; done_temperature := done_temperature s;
     last_pwm := last_pwm s; pwm_samples := pwm_samples s;
     temp_samples := temp_samples s; ambient_temp := ambient_temp s |}.
Definition with_done_temperature (v : F) (s : t) : t :=
  {| state := state s; done_temperature := v; last_pwm := last_pwm s;
     pwm_samples := pwm_samples s; temp_samples := temp_samples s;
     ambient_temp := ambient_temp s |}.
Definition with_last_pwm (v : F) (s : t) : t :=
  {| state := state s; done_temperature := done_temperature s;
     last_pwm := v; pwm_samples := pwm_samples s;
     temp_samples := temp_samples s; ambient_temp := ambient_temp s |}.
Definition with_pwm_samples (v : list (F * F)) (s : t) : t :=
  {| state := state s; done_temperature := done_temperature s;
     last_pwm := last_pwm s; pwm_samples := v;
     temp_samples := temp_samples s; ambient_temp := ambient_temp s |}.
Definition with_temp_samples (v : list (F * F)) (s : t) : t :=
  {| state := state s; done_temperature := done_temperature s;
     last_pwm := last_pwm s; pwm_samples := pwm_samples s;
     temp_samples := v; ambient_temp := ambient_temp s |}.
Definition with_ambient_temp (v : F) (s : t) : t :=
  {| state := state s; done_temperature := done_temperature s;
     last_pwm := last_pwm s; pwm_samples := pwm_samples s;
     temp_samples := temp_samples s; ambient_temp := v |}.

Definition init : t :=
  {| state := 0; done_temperature := lit 0; last_pwm := lit 0;
     pwm_samples := []; temp_samples := []; ambient_temp := lit 0 |}.

(* Heater control *)
Definition set_pwm (self : t) (h : Heater.t F) (read_time value : F)
    : t * Heater.t F :=
  let self :=
    if value !=? last_pwm self
    then with_last_pwm value
           (with_pwm_samples
              (pwm_samples self ++ [(read_time + Heater.pwm_delay h, value)]) self)
    else self in
  (self, snd (Heater.set_pwm h read_time value)).

(** [temp_samples[0]] is read after the append, so the list is not empty:
    [hd] never uses its default. *)
Definition temperature_callback (self : t) (h : Heater.t F) (read_time temp : F)
    : t * Heater.t F :=
  let self := with_temp_samples (temp_samples self ++ [(read_time, temp)]) self in
  if (state self =? 0)%Z then
    let '(self, h) := set_pwm self h read_time (lit 0) in
    if (20 <=? length (temp_samples self))%nat
    then (with_state (state self + 1)%Z self, h)
    else (self, h)
  else if (state self =? 1)%Z then
    if temp <? Heater.target_temp h
    then set_pwm self h read_time (Heater.max_power h)
    else
      let '(self, h) := set_pwm self h read_time (lit 0) in
      let start_temp := snd (hd (read_time, temp) (temp_samples self)) in
      let self :=
        with_done_temperature
          (start_temp + (Heater.target_temp h - start_temp) * lit 0.35) self in
      let h := Heater.with_target_temp (done_temperature self) h in
      (with_state (state self + 1)%Z self, h)
  else if (state self =? 2)%Z then
    let '(self, h) := set_pwm self h read_time (lit 0) in
    if temp <=? done_temperature self
    then (with_state (state self + 1)%Z self, h)
    else (self, h)
  else (self, h).

Definition check_busy (self : t) (eventtime : F) : bool :=
  if (state self <? 3)%Z then true else false.

(* First Order Plus Delay Time calculation *)

(** The loop of [model_smoothed_fopdt], with its variables [smooth_temp] and
    [last_time]; the result is the list [out]. *)
Fixpoint model_loop (heater_on_time heater_off_time gain ambient_temp
    inv_time_constant inv_delay peak_temp : F) (samples : list (F * F))
    (smooth_temp last_time : F) : result (list F) :=
  match samples with
  | [] => Ok []
  | (time, measured_temp) :: samples =>
      let? rel_temp :=
        (if time >? heater_off_time then
           let cool_time := time - heater_off_time in
           let? e := math_exp (- cool_time * inv_time_constant) in
           Ok (peak_temp * e)
         else if time >? heater_on_time then
           let heat_time := time - heater_on_time in
           let? e := math_exp (- heat_time * inv_time_constant) in
           Ok (gain * (lit 1 - e))
         else Ok (lit 0)) in
      let time_diff := time - last_time in
      let last_time := time in
      let? e := math_exp (- time_diff * inv_delay) in
      let smooth_factor := lit 1 - e in
      let smooth_temp := smooth_temp + (rel_temp - smooth_temp) * smooth_factor in
      let? out :=
        model_loop heater_on_time heater_off_time gain ambient_temp
          inv_time_constant inv_delay peak_temp samples smooth_temp last_time in
      Ok ((ambient_temp + smooth_temp) :: out)
  end.

Definition model_smoothed_fopdt (self : t) (gain time_constant delay : F)
    : result (list F) :=
  let? on := py_index (pwm_samples self) 0 in
  let heater_on_time := fst on in
  let? off := py_index (pwm_samples self) 1 in
  let heater_off_time := fst off in
  let gain := gain * snd on in
  let ambient_temp := ambient_temp self in
  let? inv_time_constant := py_div (lit 1) time_constant in
  let? inv_delay := py_div (lit 1) delay in
  let heat_time := heater_off_time - heater_on_time in
  let? e := math_exp (- heat_time * inv_time_constant) in
  let peak_temp := gain * (lit 1 - e) in
  model_loop heater_on_time heater_off_time gain ambient_temp
    inv_time_constant inv_delay peak_temp (temp_samples self) (lit 0) (lit 0).

(** The loop of [least_squares_error] over [zip(temp_samples, model)]. *)
Fixpoint squares_loop (samples : list (F * F)) (model : list F) (err : F)
    : result F :=
  match samples, model with
  | (time, measured_temp) :: samples, model_temp :: model =>
      let? sq := pow_int (measured_temp - model_temp) 2 in
      squares_loop samples model (err + sq)
  | _, _ => Ok err
  end.

(** [least_squares_error(params)].  The call [reactor.pause] before the
    return lets other tasks run and changes nothing here. *)
Definition least_squares_error (self : t) (params : gmap string F) : result F :=
  let? gain := py_getitem params "gain" in
  let? time_constant := py_getitem params "time_constant" in
  let? delay := py_getitem params "delay" in
  if (gain <=? lit 0) || (time_constant <=? lit 0) || (delay <=? lit 0)
  then Ok (lit 9.9e99)
  else
    let? model := model_smoothed_fopdt self gain time_constant delay in
    squares_loop (temp_samples self) model (lit 0).

Section Fit.
(** [mathutil.coordinate_descent(adj_params, params, error_func)], of
    mathutil.py: the minimiser, used as it is given. *)
Variable coordinate_descent :
  list string -> gmap string F -> (gmap string F -> result F) ->
  result (gmap string F).

Definition calc_fopdt : M t (F * F * F) :=
  let* self := get in
  (* Determine the ambient temperature *)
  let* first := try (py_index (pwm_samples self) 0) in
  let heater_on_time := fst first in
  let pre_heat :=
    map snd (List.filter (fun s => fst s <=? heater_on_time) (temp_samples self)) in
  let* mean := try (py_div (py_sum pre_heat) (of_nat (length pre_heat))) in
  do modify (with_ambient_temp mean) ;;
  (* Initial fopdt guesses *)
  let* m := try (py_max_pairs (map (fun s => (snd s, fst s)) (temp_samples self))) in
  let maxtemp := fst m in
  let maxtemptime := snd m in
  let* final := try (py_last (temp_samples self)) in
  let params : gmap string F :=
    <["delay" := lit 10]>
      (<["time_constant" := fst final - maxtemptime]>
         (<["gain" := maxtemp * lit 2]> ∅)) in
  (* Fit smoothed fopdt model to measured temperatures *)
  let* self := get in
  let* new_params :=
    try (coordinate_descent ["gain"; "time_constant"; "delay"] params
           (least_squares_error self)) in
  let* gain := try (py_getitem new_params "gain") in
  let* time_constant := try (py_getitem new_params "time_constant") in
  let* delay := try (py_getitem new_params "delay") in
  ret (gain, time_constant, delay).
End Fit.
End ControlBumpTest.
Arguments t F : clear implicits.
End ControlBumpTest.

(** * The heater and its active algorithm *)

Inductive Control (F : Type) : Type :=
| CBangBang (c : ControlBangBang.t F)
| CPID (c : ControlPID.t F)
| CFOPDT (c : ControlFOPDT.t F)
| CBumpTest (c : ControlBumpTest.t F).
Arguments CBangBang {F} c.
Arguments CPID {F} c.
Arguments CFOPDT {F} c.
Arguments CBumpTest {F} c.

(** What reaches a heater: a sample from its sensor ([curtime] is the
    reactor's clock when the callback runs), or a [set_temp] command. *)
Inductive event (F : Type) : Type :=
| Sample (curtime read_time temp : F)
| SetTemp (print_time degrees : F).
Arguments Sample {F} curtime read_time temp.
Arguments SetTemp {F} print_time degrees.

Module HeaterObj.
Section HeaterObj.
Context {F : Type} `{PyNum F} `{PyMath F}.
Local Open Scope py_scope.

(** A [Heater] object: its own attributes and its attribute [control]. *)
Record t : Type := mk {
  heater : Heater.t F;
  control : Control F
}.

Definition box {C : Type} (wrap : C -> Control F) (s : C * Heater.t F) : t :=
  {| heater := snd s; control := wrap (fst s) |}.

(** [Heater.temperature_callback]; the lock makes the call atomic. *)
Definition temperature_callback (o : t) (curtime read_time temp : F)
    : outcome t unit :=
  let h := Heater.with_sample read_time temp (heater o) in
  match control o with
  | CBangBang c =>
      Return tt (box CBangBang (ControlBangBang.temperature_callback c h read_time temp))
  | CPID c =>
      match ControlPID.temperature_callback c h read_time temp with
      | Return a s => Return a (box CPID s)
      | Raised e s => Raised e (box CPID s)
      end
  | CFOPDT c =>
      match ControlFOPDT.temperature_callback curtime read_time temp (c, h) with
      | Return a s => Return a (box CFOPDT s)
      | Raised e s => Raised e (box CFOPDT s)
      end
  | CBumpTest c =>
      Return tt (box CBumpTest (ControlBumpTest.temperature_callback c h read_time temp))
  end.

(** [Heater.set_temp]. *)
Definition set_temp (o : t) (print_time degrees : F) : outcome t unit :=
  match Heater.set_temp (heater o) print_time degrees with
  | Return a h => Return a {| heater := h; control := control o |}
  | Raised e h => Raised e {| heater := h; control := control o |}
  end.

(** [Heater.check_busy]. *)
Definition check_busy (o : t) (eventtime : F) : bool :=
  match control o with
  | CBangBang c => ControlBangBang.check_busy c (heater o) eventtime
  | CPID c => ControlPID.check_busy c (heater o) eventtime
  | CFOPDT c => ControlFOPDT.check_busy c (heater o) eventtime
  | CBumpTest c => ControlBumpTest.check_busy c eventtime
  end.

(** [Heater.set_control]: the old algorithm is returned. *)
Definition set_control (o : t) (control' : Control F) : Control F * t :=
  (control o,
   {| heater := Heater.with_target_temp (lit 0) (heater o); control := control' |}).

(** Lines 27-33 of [cmd_HEATER_CALIBRATE]: the bump test is installed and
    the target set; when [set_temp] raises, the old algorithm is put back
    and the error passed on. *)
Definition start_calibrate (o : t) (print_time target : F) : outcome t (Control F) :=
  let calibrate := ControlBumpTest.init in
  let '(old_control, o) := set_control o (CBumpTest calibrate) in
  match set_temp o print_time target with
  | Return _ o => Return old_control o
  | Raised e o => Raised e (snd (set_control o old_control))
  end.

(** The events of a list, in order.  An exception that leaves
    [temperature_callback] ends the run; one that leaves [set_temp] is
    reported to the sender of the command, and the run goes on. *)
Fixpoint run (o : t) (evs : list (event F)) : outcome t unit :=
  match evs with
  | [] => Return tt o
  | Sample curtime read_time temp :: evs =>
      match temperature_callback o curtime read_time temp with
      | Return _ o => run o evs
      | Raised e o => Raised e o
      end
  | SetTemp print_time degrees :: evs =>
      run (final_state (set_temp o print_time degrees)) evs
  end.
End HeaterObj.
Arguments t F : clear implicits.
End HeaterObj.

(** * heater.py: class PrinterHeaters *)

(** The registry of sensor factories and heaters.  What it calls and does
    not define is taken as given: the config section ([get_name], [get]),
    the printer's [try_load_module], the sensor factories and the heater's
    constructor.  Each of them may change the printer, the registry included
    (a loaded module registers its sensors with [add_sensor]), and may
    raise; [World] is the rest of the printer. *)
Module PrinterHeaters.

(** [config.error] and [self.printer.config_error], each with its message,
    and the exceptions of the code above. *)
Inductive failure : Type :=
| config_error (msg : string)
| printer_config_error (msg : string)
| python (e : exn).

Section PrinterHeaters.
Variables Config Sensor Factory HeaterT World : Type.

Record t : Type := mk {
  sensors : gmap string Factory;
  heaters : gmap string HeaterT
}.

Definition init : t := {| sensors := ∅; heaters := ∅ |}.

(** A method: from the registry and the rest of the printer to both after
    the call, with the exception raised or the value returned. *)
Definition P (A : Type) : Type := t * World -> (t * World) * (failure + A).

Definition pret {A : Type} (a : A) : P A := fun s => (s, inr a).

Definition praise {A : Type} (e : failure) : P A := fun s => (s, inl e).

Definition pbind {A B : Type} (m : P A) (k : A -> P B) : P B :=
  fun s =>
    match m s with
    | (s, inr a) => k a s
    | (s, inl e) => (s, inl e)
    end.

Definition self_ : P t := fun s => (s, inr (fst s)).

Definition add_sensor (self : t) (sensor_type : string) (sensor_factory : Factory)
    : t :=
  {| sensors := <[sensor_type := sensor_factory]> (sensors self);
     heaters := heaters self |}.

Variable get_name : Config -> string.
Variable config_get : Config -> string -> P string.
Variable try_load_module : Config -> string -> P unit.
Variable call_factory : Factory -> Config -> P Sensor.
Variable new_heater : Config -> Sensor -> P HeaterT.

Definition setup_heater (config : Config) : P HeaterT :=
  let heater_name := get_name config in
  let heater_name :=
    if String.eqb heater_name "extruder" then "extruder0" else heater_name in
  pbind self_ (fun self =>
  if decide (is_Some (heaters self !! heater_name))
  then praise (config_error ("Heater " ++ heater_name ++ " already registered"))
  else
    (* Setup sensor *)
    pbind (try_load_module config "thermistor") (fun _ =>
    pbind (try_load_module config "adc_temperature") (fun _ =>
    pbind (config_get config "sensor_type") (fun sensor_type =>
    pbind self_ (fun self =>
    match sensors self !! sensor_type with
    | None =>
        praise (printer_config_error
                  ("Unknown temperature sensor '" ++ sensor_type ++ "'"))
    | Some sensor_factory =>
        pbind (call_factory sensor_factory config) (fun sensor =>
        (* Create heater *)
        pbind (new_heater config sensor) (fun heater =>
        fun s =>
          (({| sensors := sensors (fst s);
               heaters := <[heater_name := heater]> (heaters (fst s)) |}, snd s),
           inr heater)))
    end))))).

Definition lookup_heater (self : t) (heater_name : string) : failure + HeaterT :=
  let heater_name :=
    if String.eqb heater_name "extruder" then "extruder0" else heater_name in
  match heaters self !! heater_name with
  | None => inl (printer_config_error ("Unknown heater '" ++ heater_name ++ "'"))
  | Some heater => inr heater
  end.
End PrinterHeaters.
Arguments sensors {Factory HeaterT} _.
Arguments heaters {Factory HeaterT} _.
Arguments init {Factory HeaterT}.
Arguments add_sensor {Factory HeaterT} self sensor_type sensor_factory.
Arguments lookup_heater {Factory HeaterT} self heater_name.
Arguments setup_heater {Config Sensor Factory HeaterT World} get_name config_get
  try_load_module call_factory new_heater config _.
End PrinterHeaters.

(** * Executable instances for the examples *)

(** A stand-in for the C library on binary64, for running the examples: the
    exponential by scaling and squaring of a Taylor polynomial (the infinite
    arguments apart), the power by repeated multiplication.  They approximate
    [math.exp] and [**]; no theorem depends on them, all being proved for
    every [PyMath]. *)
Definition float_exp (x : float) : result float :=
  if PrimFloat.eqb x PrimFloat.infinity then Ok PrimFloat.infinity
  else if PrimFloat.eqb x PrimFloat.neg_infinity then Ok (float_lit 0)
  else if PrimFloat.ltb (float_lit 709.78) x then Raise OverflowError
  else
    let y := PrimFloat.div x (float_lit 1024) in
    let horner :=
      fold_right
        (fun k acc =>
           PrimFloat.add (float_lit 1)
             (PrimFloat.mul (PrimFloat.div y (float_lit (inject_Z k))) acc))
        (float_lit 1) [1; 2; 3; 4; 5; 6; 7; 8; 9; 10; 11; 12]%Z in
    Ok (Nat.iter 10 (fun a => PrimFloat.mul a a) horner).

Definition float_pow_int (x : float) (n : Z) : result float :=
  let r := Z.iter n (fun a => PrimFloat.mul a x) (float_lit 1) in
  if PrimFloat.eqb (PrimFloat.abs r) PrimFloat.infinity
     && negb (PrimFloat.eqb (PrimFloat.abs x) PrimFloat.infinity)
  then Raise OverflowError
  else Ok r.

#[export] Instance float_PyMath : PyMath float := {|
  math_exp := float_exp;
  pow_int := float_pow_int
|}.

(** ** A heater and its algorithms, for the examples *)

(** min_temp 0, max_temp 300, a sensor reporting every 0.3 s,
    min_extrude_temp 170, max_power 1. *)
Definition demo_heater : Heater.t float :=
  Heater.init (lit 0) (lit 300) (lit 0.3) (lit 170) (lit 1) false.

(** Samples at the times 1, 2, ... with the temperatures of the list. *)
Definition demo_samples (temps : list Q) : list (float * float) :=
  map (fun p => (lit (inject_Z (Z.of_nat (fst p))), lit (snd p)))
    (combine (seq 1 (length temps)) temps).

Definition demo_events (target : Q) (temps : list Q) : list (event float) :=
  SetTemp (lit 0) (lit target)
  :: map (fun x => Sample (fst x) (fst x) (snd x)) (demo_samples temps).

Definition demo_bangbang : HeaterObj.t float :=
  {| HeaterObj.heater := demo_heater;
     HeaterObj.control := CBangBang (ControlBangBang.init (lit 2)) |}.

(** pid_Kp 22.2, pid_Ki 1.08, pid_Kd 114, the defaults for the rest. *)
Definition demo_pid_control : ControlPID.t float :=
  {| ControlPID.Kp := fquot (lit 22.2) (lit 255);
     ControlPID.Ki := fquot (lit 1.08) (lit 255);
     ControlPID.Kd := fquot (lit 114) (lit 255);
     ControlPID.min_deriv_time := lit 2;
     ControlPID.temp_integ_max := fquot (lit 1) (fquot (lit 1.08) (lit 255));
     ControlPID.prev_temp := lit 25;
     ControlPID.prev_temp_time := lit 0;
     ControlPID.prev_temp_deriv := lit 0;
     ControlPID.prev_temp_integ := lit 0 |}.

Definition demo_pid : HeaterObj.t float :=
  {| HeaterObj.heater := demo_heater; HeaterObj.control := CPID demo_pid_control |}.

(** gain 50, time_constant 60, delay_time 5, created at time 0. *)
Definition demo_fopdt_control : ControlFOPDT.t float :=
  {| ControlFOPDT.gain := lit 50;
     ControlFOPDT.inv_gain := fquot (lit 1) (lit 50);
     ControlFOPDT.inv_time_constant := fquot (lit 1) (lit 60);
     ControlFOPDT.inv_delay := fquot (lit 1) (lit 5);
     ControlFOPDT.first_set_temp := true;
     ControlFOPDT.start_time := lit 0;
     ControlFOPDT.last_pwm_time := lit 0;
     ControlFOPDT.next_pwm_time := lit 0;
     ControlFOPDT.last_model_time := lit 0;
     ControlFOPDT.last_pwm := lit 0;
     ControlFOPDT.next_pwm := lit 0;
     ControlFOPDT.model_temp := lit 0;
     ControlFOPDT.last_model_temp := lit 0;
     ControlFOPDT.model_smooth_temp := lit 0;
     ControlFOPDT.smooth_ambient := lit 25;
     ControlFOPDT.did_fault := false;
     ControlFOPDT.Kp := fmul (fmul (lit 0.7) (lit 60)) (fquot (lit 1) (lit 50));
     ControlFOPDT.prev_temp := lit 25;
     ControlFOPDT.prev_temp_time := lit 0;
     ControlFOPDT.temp_slope := lit 0 |}.

Definition demo_fopdt : HeaterObj.t float :=
  {| HeaterObj.heater := demo_heater; HeaterObj.control := CFOPDT demo_fopdt_control |}.

(** The heater after [set_temp] to 200 and two updates: power 0.5 at time 1,
    then power 0 at time 10. *)
Definition demo_heater_switched_off : Heater.t float :=
  let h := final_state (Heater.set_temp demo_heater (lit 0) (lit 200)) in
  let h := snd (Heater.set_pwm h (lit 1) (lit 0.5)) in
  snd (Heater.set_pwm h (lit 10) (lit 0)).

(** The heater running at power 0.5 whose target was then set to 0. *)
Definition demo_heater_target_zero : Heater.t float :=
  let h := final_state (Heater.set_temp demo_heater (lit 0) (lit 200)) in
  let h := snd (Heater.set_pwm h (lit 1) (lit 0.5)) in
  final_state (Heater.set_temp h (lit 2) (lit 0)).

(** A bump test to the target 200: the heater when [start_calibrate] is
    done, and twenty samples in Idle, the first at 20 degrees and the others
    at 30. *)
Definition demo_bump_heater : Heater.t float :=
  HeaterObj.heater (final_state (HeaterObj.start_calibrate demo_bangbang (lit 0) (lit 200))).

Definition demo_idle_samples : list (float * float) :=
  demo_samples (20 :: repeat 30 19)%Q.

(** A whole bump test to the target 60: Idle at 25 degrees, RampUp through
    30 and 45 to 61, Cooling through 50 and 40 to 37. *)
Definition demo_bump_done : ControlBumpTest.t float :=
  let h :=
    HeaterObj.heater
      (final_state (HeaterObj.start_calibrate demo_bangbang (lit 0) (lit 60))) in
  fst (fold_left
         (fun s x => ControlBumpTest.temperature_callback (fst s) (snd s) (fst x) (snd x))
         (demo_samples (repeat 25 20 ++ [30; 45; 61; 50; 40; 37])%Q)
         (ControlBumpTest.init, h)).

(** A minimiser that evaluates its starting point and returns it. *)
Definition demo_minimiser (adj_params : list string) (params : gmap string float)
    (error_func : gmap string float -> result float) : result (gmap string float) :=
  match error_func params with
  | Ok _ => Ok params
  | Raise e => Raise e
  end.

(** ** A registry, for the examples *)

(** A config section is its name and its option sensor_type; loading the
    module thermistor registers the sensor "NTC 100K"; a sensor is the name
    of its type and a heater the name of its section. *)
Definition demo_get_name (config : string * string) : string := fst config.

Definition demo_config_get (config : string * string) (option : string)
    : PrinterHeaters.P unit string unit string :=
  PrinterHeaters.pret _ _ _ (snd config).

Definition demo_try_load_module (config : string * string) (module : string)
    : PrinterHeaters.P unit string unit unit :=
  fun s =>
    if String.eqb module "thermistor"
    then ((PrinterHeaters.add_sensor (fst s) "NTC 100K" tt, snd s), inr tt)
    else (s, inr tt).

Definition demo_call_factory (factory : unit) (config : string * string)
    : PrinterHeaters.P unit string unit string :=
  PrinterHeaters.pret _ _ _ (snd config).

Definition demo_new_heater (config : string * string) (sensor : string)
    : PrinterHeaters.P unit string unit string :=
  PrinterHeaters.pret _ _ _ (fst config).

Definition demo_setup_heater (config : string * string)
    : PrinterHeaters.P unit string unit string :=
  PrinterHeaters.setup_heater demo_get_name demo_config_get demo_try_load_module
    demo_call_factory demo_new_heater config.

(** * Properties *)

(** ** The literals of the source, as binary64 *)

Example float_literals :
  (lit 0 : float) = 0%float /\
  (lit 0.05 : float) = 0.05%float /\
  (lit 0.75 : float) = 0.75%float /\
  (lit 5.0 : float) = 5.0%float /\
  (lit 0.35 : float) = 0.35%float /\
  (lit 0.1 : float) = 0.1%float /\
  (lit 0.7 : float) = 0.7%float /\
  (lit 255 : float) = 255%float /\
  (lit 9.9e99 : float) = 9.9e99%float /\
  (lit (-273.15) : float) = (-273.15)%float /\
  (lit 25 : float) = 25%float /\
  (lit 10 : float) = 10%float /\
  (fquot (lit 1) (lit 8) : float) = 0.125%float /\
  (fquot (lit 1) (lit 2) : float) = 0.5%float.
Proof. vm_compute. repeat split. Qed.

(** ** The order laws of the two instances *)

Ltac sf_cmp :=
  repeat match goal with
  | |- context [PosDef.Pos.compare_cont Eq ?a ?b] =>
      change (PosDef.Pos.compare_cont Eq a b) with (Pos.compare a b) in *
  | H : context [PosDef.Pos.compare_cont Eq ?a ?b] |- _ =>
      change (PosDef.Pos.compare_cont Eq a b) with (Pos.compare a b) in *
  | |- context [Z.compare ?a ?b] => destruct (Z.compare_spec a b)
  | H : context [Z.compare ?a ?b] |- _ => destruct (Z.compare_spec a b)
  | |- context [Pos.compare ?a ?b] => destruct (Pos.compare_spec a b)
  | H : context [Pos.compare ?a ?b] |- _ => destruct (Pos.compare_spec a b)
  end; simpl in *; try congruence; try lia.

(** Case analysis on two or three floats in their specification form. *)
Ltac sf_cases2 x y :=
  unfold SFleb, SFltb, SFeqb, SFcompare;
  destruct x as [[]|[]| |[] ? ?], y as [[]|[]| |[] ? ?];
  try congruence; try reflexivity; try (split; congruence);
  intros; try split; subst; sf_cmp.

Ltac sf_cases3 x y z :=
  unfold SFleb, SFltb, SFeqb, SFcompare;
  destruct x as [[]|[]| |[] ? ?], y as [[]|[]| |[] ? ?], z as [[]|[]| |[] ? ?];
  try congruence; try reflexivity;
  intros; subst; sf_cmp.

Lemma SFltb_SFleb (x y : spec_float) : SFltb x y = true -> SFleb x y = true.
Proof. sf_cases2 x y. Qed.

Lemma SFleb_ordered (x y : spec_float) :
  SFleb x y = true -> SFleb x x = true /\ SFleb y y = true.
Proof. sf_cases2 x y. Qed.

Lemma SFleb_trans (x y z : spec_float) :
  SFleb x y = true -> SFleb y z = true -> SFleb x z = true.
Proof. sf_cases3 x y z. Qed.

Lemma SFltb_SFleb_trans (x y z : spec_float) :
  SFltb x y = true -> SFleb y z = true -> SFltb x z = true.
Proof. sf_cases3 x y z. Qed.

Lemma SFleb_total (x y : spec_float) :
  SFleb x x = true -> SFleb y y = true -> SFltb x y = false -> SFleb y x = true.
Proof. sf_cases2 x y. Qed.

Lemma SFleb_not_SFltb (x y : spec_float) : SFleb x y = true -> SFltb y x = false.
Proof. sf_cases2 x y. Qed.

Lemma SFeqb_SFleb (x y : spec_float) :
  SFeqb x y = true -> SFleb x y = true /\ SFleb y x = true.
Proof. sf_cases2 x y. Qed.

Lemma SFltb_not_SFeqb (x y : spec_float) :
  SFltb x y = true -> SFeqb x y = false /\ SFeqb y x = false.
Proof. sf_cases2 x y. Qed.

#[export] Instance float_PyNumOrder : PyNumOrder float.
Proof.
  split; simpl; intros *;
    rewrite ?FloatAxioms.ltb_spec, ?FloatAxioms.leb_spec, ?FloatAxioms.eqb_spec.
  - apply SFltb_SFleb.
  - apply SFleb_ordered.
  - apply SFleb_trans.
  - apply SFltb_SFleb_trans.
  - apply SFleb_total.
  - apply SFleb_not_SFltb.
  - apply SFeqb_SFleb.
  - apply SFltb_not_SFeqb.
  - reflexivity.
Qed.

Lemma Qlt_bool_iff (x y : Q) : Qlt_bool x y = true <-> (x < y)%Q.
Proof.
  unfold Qlt_bool. rewrite negb_true_iff, <- not_true_iff_false, Qle_bool_iff.
  split; [apply Qnot_le_lt | apply Qlt_not_le].
Qed.

Lemma Qlt_bool_false_iff (x y : Q) : Qlt_bool x y = false <-> (y <= x)%Q.
Proof.
  unfold Qlt_bool. rewrite negb_false_iff. apply Qle_bool_iff.
Qed.

#[export] Instance Q_PyNumOrder : PyNumOrder Q.
Proof.
  split; simpl; intros *;
    rewrite ?Qlt_bool_iff, ?Qlt_bool_false_iff, ?Qle_bool_iff, ?Qeq_bool_iff,
      <- ?not_true_iff_false, ?Qeq_bool_iff.
  - apply Qlt_le_weak.
  - split; apply Qle_refl.
  - apply Qle_trans.
  - apply Qlt_le_trans.
  - auto.
  - auto.
  - intros ->. split; apply Qle_refl.
  - intros Hlt. split; intros Heq; rewrite Heq in Hlt; exact (Qlt_irrefl _ Hlt).
  - apply Qle_refl.
Qed.

(** ** Clamping *)

Section Clamp.
Context {F : Type} {num : PyNum F} {ord : PyNumOrder F}.
Local Open Scope py_scope.

(** [lo <= v <= hi]. *)
Definition within (lo hi v : F) : Prop :=
  (lo <=? v) = true /\ (v <=? hi) = true.

Lemma py_min_case (a b : F) :
  ((b <? a) = true /\ py_min a b = b) \/ ((b <? a) = false /\ py_min a b = a).
Proof. unfold py_min. destruct (b <? a); auto. Qed.

Lemma py_max_case (a b : F) :
  ((a <? b) = true /\ py_max a b = b) \/ ((a <? b) = false /\ py_max a b = a).
Proof. unfold py_max. destruct (a <? b); auto. Qed.

(** [max(0., min(hi, x))] lies in [0, hi] for every [x], NaN included. *)
Lemma py_clamp_within (hi x : F) :
  (lit 0 <=? hi) = true -> within (lit 0) hi (py_max (lit 0) (py_min hi x)).
Proof using Type*.
  intros Hhi. destruct (fle_ordered _ _ Hhi) as [Hz Hh].
  destruct (py_max_case (lit 0) (py_min hi x)) as [[Hlt ->]|[_ ->]].
  - destruct (py_min_case hi x) as [[Hx Hm]|[_ Hm]]; rewrite Hm in *.
    + split; apply flt_fle; assumption.
    + split; assumption.
  - split; assumption.
Qed.

Lemma within_zero (hi : F) : (lit 0 <=? hi) = true -> within (lit 0) hi (lit 0).
Proof using Type*.
  intros Hhi. split; [apply (fle_ordered _ _ Hhi) | exact Hhi].
Qed.

Lemma within_top (hi : F) : (lit 0 <=? hi) = true -> within (lit 0) hi hi.
Proof using Type*.
  intros Hhi. split; [exact Hhi | apply (fle_ordered _ _ Hhi)].
Qed.
End Clamp.

(** ** What the algorithms pass to [Heater.set_pwm] *)

Section PowerBounds.
Context {F : Type} {num : PyNum F} {ord : PyNumOrder F} {libm : PyMath F}.
Local Open Scope py_scope.

(** The calls made since the log was [log0] passed values in
    [0, max_power], and max_power is still [mp]. *)
Definition calls_within (mp : F) (log0 : list (F * F)) (h : Heater.t F) : Prop :=
  Heater.max_power h = mp /\
  exists calls, Heater.pwm_calls h = calls ++ log0 /\
                Forall (fun c => within (lit 0) mp (snd c)) calls.

Lemma calls_within_start (h : Heater.t F) :
  calls_within (Heater.max_power h) (Heater.pwm_calls h) h.
Proof. split; [reflexivity | exists []; split; [reflexivity | constructor]]. Qed.

Lemma set_pwm_fields (h : Heater.t F) (read_time value : F) :
  let h' := snd (Heater.set_pwm h read_time value) in
  Heater.max_power h' = Heater.max_power h /\
  Heater.pwm_calls h' = (read_time, value) :: Heater.pwm_calls h /\
  Heater.target_temp h' = Heater.target_temp h /\
  Heater.pwm_delay h' = Heater.pwm_delay h.
Proof.
  unfold Heater.set_pwm. simpl.
  destruct (_ && _); simpl; auto.
Qed.

Lemma set_pwm_calls_within (mp : F) (log0 : list (F * F)) (h : Heater.t F)
    (read_time value : F) :
  within (lit 0) mp value -> calls_within mp log0 h ->
  calls_within mp log0 (snd (Heater.set_pwm h read_time value)).
Proof.
  intros Hv [Hmp (calls & Hlog & Hall)].
  destruct (set_pwm_fields h read_time value) as (Hm & Hc & _).
  split; [congruence |].
  exists ((read_time, value) :: calls). split.
  - rewrite Hc, Hlog. reflexivity.
  - constructor; assumption.
Qed.

Lemma with_sample_calls_within (mp : F) (log0 : list (F * F)) (h : Heater.t F)
    (read_time temp : F) :
  calls_within mp log0 h -> calls_within mp log0 (Heater.with_sample read_time temp h).
Proof. intros Hc. exact Hc. Qed.

Lemma bangbang_calls_within (mp : F) (log0 : list (F * F))
    (self : ControlBangBang.t F) (h : Heater.t F) (read_time temp : F) :
  (lit 0 <=? mp) = true -> calls_within mp log0 h ->
  calls_within mp log0
    (snd (ControlBangBang.temperature_callback self h read_time temp)).
Proof using Type*.
  intros Hmp Hc. unfold ControlBangBang.temperature_callback.
  destruct (ControlBangBang.heating _); simpl;
    apply set_pwm_calls_within; try assumption.
  - destruct Hc as [-> _]. apply within_top, Hmp.
  - apply within_zero, Hmp.
Qed.

Lemma pid_calls_within (mp : F) (log0 : list (F * F))
    (self : ControlPID.t F) (h : Heater.t F) (read_time temp : F) :
  (lit 0 <=? mp) = true -> calls_within mp log0 h ->
  calls_within mp log0
    (snd (final_state (ControlPID.temperature_callback self h read_time temp))).
Proof using Type*.
  intros Hmp Hc. unfold ControlPID.temperature_callback.
  destruct (if _ : bool then _ else _); simpl; [| assumption].
  apply set_pwm_calls_within; [| assumption].
  destruct Hc as [-> _]. apply py_clamp_within, Hmp.
Qed.

Lemma bump_set_pwm_calls_within (mp : F) (log0 : list (F * F))
    (self : ControlBumpTest.t F) (h : Heater.t F) (read_time value : F) :
  within (lit 0) mp value -> calls_within mp log0 h ->
  calls_within mp log0 (snd (ControlBumpTest.set_pwm self h read_time value)).
Proof.
  intros Hv Hc. unfold ControlBumpTest.set_pwm. simpl.
  apply set_pwm_calls_within; assumption.
Qed.

Lemma bump_calls_within (mp : F) (log0 : list (F * F))
    (self : ControlBumpTest.t F) (h : Heater.t F) (read_time temp : F) :
  (lit 0 <=? mp) = true -> calls_within mp log0 h ->
  calls_within mp log0
    (snd (ControlBumpTest.temperature_callback self h read_time temp)).
Proof using Type*.
  intros Hmp Hc. unfold ControlBumpTest.temperature_callback.
  pose proof (within_zero mp Hmp) as Hz.
  repeat match goal with
  | |- context [if ?b then _ else _] => destruct b
  | |- context [let '(_, _) := ?p in _] =>
      let E := fresh "E" in
      destruct p eqn:E;
      match type of E with
      | ControlBumpTest.set_pwm ?s ?h0 ?rt ?v = _ =>
          let K := fresh "K" in
          assert (K := bump_set_pwm_calls_within mp log0 s h0 rt v);
          rewrite E in K; simpl in K
      end
  end; simpl; auto.
  apply set_pwm_calls_within; [| assumption].
  destruct Hc as [-> _]. apply within_top, Hmp.
Qed.
End PowerBounds.

(** ** Invariants of the heater through the methods of [ControlFOPDT] *)

Section Keeps.
Context {F : Type} {num : PyNum F} {libm : PyMath F}.
Local Open Scope py_scope.
Local Open Scope py_monad_scope.

(** [m] leaves a heater that satisfies [Inv], whether it returns or raises. *)
Definition keeps (Inv : Heater.t F -> Prop) {A : Type}
    (m : M (ControlFOPDT.St (F := F)) A) : Prop :=
  forall s, Inv (snd s) -> Inv (snd (final_state (m s))).

Variable Inv : Heater.t F -> Prop.

Lemma keeps_ret {A : Type} (a : A) : keeps Inv (ret a).
Proof. intros s Hs. exact Hs. Qed.

Lemma keeps_bind {A B : Type} (m : M ControlFOPDT.St A)
    (k : A -> M ControlFOPDT.St B) :
  keeps Inv m -> (forall a, keeps Inv (k a)) -> keeps Inv (bind m k).
Proof.
  intros Hm Hk s Hs. unfold bind. specialize (Hm s Hs).
  destruct (m s) as [a s'|e s']; simpl in *; [apply Hk, Hm | exact Hm].
Qed.

Lemma keeps_try {A : Type} (r : result A) : keeps Inv (try r).
Proof. intros s Hs. unfold try. destruct r; exact Hs. Qed.

Lemma keeps_assign (f : ControlFOPDT.t F -> ControlFOPDT.t F) :
  keeps Inv (ControlFOPDT.assign f).
Proof. intros s Hs. exact Hs. Qed.

Lemma keeps_self {B : Type} (k : ControlFOPDT.t F -> M ControlFOPDT.St B) :
  (forall self, keeps Inv (k self)) -> keeps Inv (bind ControlFOPDT.self_ k).
Proof. intros Hk s Hs. unfold bind. simpl. apply Hk, Hs. Qed.

(** The heater read satisfies the invariant. *)
Lemma keeps_heater {B : Type} (k : Heater.t F -> M ControlFOPDT.St B) :
  (forall h, Inv h -> keeps Inv (k h)) -> keeps Inv (bind ControlFOPDT.heater_ k).
Proof. intros Hk s Hs. unfold bind. simpl. apply Hk; exact Hs. Qed.

Lemma keeps_if {A : Type} (b : bool) (m1 m2 : M ControlFOPDT.St A) :
  keeps Inv m1 -> keeps Inv m2 -> keeps Inv (if b then m1 else m2).
Proof. destruct b; auto. Qed.

Lemma keeps_heater_set_pwm (read_time value : F) :
  (forall h, Inv h -> Inv (snd (Heater.set_pwm h read_time value))) ->
  keeps Inv (ControlFOPDT.heater_set_pwm read_time value).
Proof.
  intros Hset s Hs. unfold ControlFOPDT.heater_set_pwm.
  specialize (Hset _ Hs). destruct (Heater.set_pwm _ _ _). exact Hset.
Qed.

Ltac keeps_step :=
  first
    [ apply keeps_ret | apply keeps_try | apply keeps_assign
    | apply keeps_self; intros ? | apply keeps_if
    | apply keeps_bind; [| intros ?] ].

Lemma keeps_calc_model_temp (read_time : F) :
  keeps Inv (ControlFOPDT.calc_model_temp read_time).
Proof. unfold ControlFOPDT.calc_model_temp. repeat keeps_step. Qed.

Lemma keeps_note_temperature (read_time temp : F) :
  keeps Inv (ControlFOPDT.note_temperature read_time temp).
Proof.
  unfold ControlFOPDT.note_temperature.
  repeat first
    [ apply keeps_calc_model_temp | apply keeps_heater; intros ? _ | keeps_step ].
Qed.

Lemma keeps_note_first_temp (curtime : F) :
  keeps Inv (ControlFOPDT.note_first_temp curtime).
Proof. unfold ControlFOPDT.note_first_temp. repeat keeps_step. Qed.

Lemma keeps_set_pwm (read_time value : F) :
  (forall h, Inv h -> Inv (snd (Heater.set_pwm h read_time value))) ->
  keeps Inv (ControlFOPDT.set_pwm read_time value).
Proof.
  intros Hset. unfold ControlFOPDT.set_pwm.
  apply keeps_bind; [apply keeps_heater_set_pwm, Hset | intros r].
  repeat first [ apply keeps_calc_model_temp | keeps_step ].
Qed.

(** The callback keeps an invariant that every call of [Heater.set_pwm]
    keeps whose value is clamped to [0, max_power], max_power being read
    from a heater that satisfies the invariant. *)
Lemma keeps_temperature_callback (curtime read_time temp : F) :
  (forall h h' x, Inv h -> Inv h' ->
     Inv (snd (Heater.set_pwm h read_time
               (py_max (lit 0) (py_min (Heater.max_power h') x))))) ->
  keeps Inv (ControlFOPDT.temperature_callback curtime read_time temp).
Proof.
  intros Hset. unfold ControlFOPDT.temperature_callback.
  apply keeps_self; intros self0. apply keeps_heater; intros h0 _.
  apply keeps_bind; [apply keeps_if; [apply keeps_note_first_temp | apply keeps_ret] |].
  intros _. apply keeps_bind; [apply keeps_note_temperature |].
  intros _. apply keeps_self; intros self1.
  apply keeps_bind; [apply keeps_assign |]. intros _.
  apply keeps_bind; [apply keeps_try |]. intros e.
  apply keeps_bind; [apply keeps_assign |]. intros _.
  apply keeps_self; intros self2. apply keeps_heater; intros h2 Hh2.
  apply keeps_set_pwm. intros h Hh. apply Hset; assumption.
Qed.
End Keeps.

(** ** C1: the commanded power lies in [0, max_power] *)

Section CommandedPower.
Context {F : Type} {num : PyNum F} {ord : PyNumOrder F} {libm : PyMath F}.
Local Open Scope py_scope.

Lemma fopdt_calls_within (mp : F) (log0 : list (F * F))
    (self : ControlFOPDT.t F) (h : Heater.t F) (curtime read_time temp : F) :
  (lit 0 <=? mp) = true -> calls_within mp log0 h ->
  calls_within mp log0
    (snd (final_state
            (ControlFOPDT.temperature_callback curtime read_time temp (self, h)))).
Proof using Type*.
  intros Hmp Hc.
  apply (keeps_temperature_callback (calls_within mp log0)); [| exact Hc].
  intros h1 h2 x H1 H2. apply set_pwm_calls_within; [| exact H1].
  destruct H2 as [-> _]. apply py_clamp_within, Hmp.
Qed.

Lemma callback_calls_within (mp : F) (log0 : list (F * F))
    (o : HeaterObj.t F) (curtime read_time temp : F) :
  (lit 0 <=? mp) = true -> calls_within mp log0 (HeaterObj.heater o) ->
  calls_within mp log0
    (HeaterObj.heater
       (final_state (HeaterObj.temperature_callback o curtime read_time temp))).
Proof using Type*.
  intros Hmp Hc. unfold HeaterObj.temperature_callback.
  pose proof (with_sample_calls_within mp log0 _ read_time temp Hc) as Hs.
  destruct (HeaterObj.control o) as [c|c|c|c].
  - apply (bangbang_calls_within mp log0 c _ read_time temp Hmp Hs).
  - pose proof (pid_calls_within mp log0 c _ read_time temp Hmp Hs) as Hp.
    destruct (ControlPID.temperature_callback _ _ _ _); exact Hp.
  - pose proof (fopdt_calls_within mp log0 c _ curtime read_time temp Hmp Hs) as Hp.
    destruct (ControlFOPDT.temperature_callback _ _ _ _); exact Hp.
  - apply (bump_calls_within mp log0 c _ read_time temp Hmp Hs).
Qed.

Lemma set_temp_calls_within (mp : F) (log0 : list (F * F))
    (o : HeaterObj.t F) (print_time degrees : F) :
  calls_within mp log0 (HeaterObj.heater o) ->
  calls_within mp log0
    (HeaterObj.heater (final_state (HeaterObj.set_temp o print_time degrees))).
Proof.
  intros Hc. unfold HeaterObj.set_temp, Heater.set_temp.
  destruct (_ && _); exact Hc.
Qed.

Lemma run_calls_within (mp : F) (log0 : list (F * F)) (evs : list (event F)) :
  (lit 0 <=? mp) = true ->
  forall o : HeaterObj.t F,
    calls_within mp log0 (HeaterObj.heater o) ->
    calls_within mp log0 (HeaterObj.heater (final_state (HeaterObj.run o evs))).
Proof using Type*.
  intros Hmp. induction evs as [|[curtime read_time temp|print_time degrees] evs IH];
    intros o Hc; simpl.
  - exact Hc.
  - pose proof (callback_calls_within mp log0 o curtime read_time temp Hmp Hc) as Hs.
    destruct (HeaterObj.temperature_callback o curtime read_time temp) as [a o'|e o'].
    + apply IH, Hs.
    + exact Hs.
  - apply IH, set_temp_calls_within, Hc.
Qed.

(** C1.  Whatever algorithm drives the heater (BangBang, PID, FOPDT, and the
    bump test as well), and whatever samples and [set_temp] commands reach
    it, every value the algorithm passes to [Heater.set_pwm] lies between 0
    and max_power: the calls made during the run are the new entries of
    [pwm_calls], and each holds such a value.  This is so also for the
    calls made before a callback raises.  max_power is at least 0 (the
    config layer accepts 0 < max_power <= 1). *)
Theorem commanded_power_within_bounds (o : HeaterObj.t F) (evs : list (event F)) :
  (lit 0 <=? Heater.max_power (HeaterObj.heater o)) = true ->
  exists calls : list (F * F),
    Heater.pwm_calls (HeaterObj.heater (final_state (HeaterObj.run o evs)))
    = calls ++ Heater.pwm_calls (HeaterObj.heater o)
    /\ Forall
         (fun c => (lit 0 <=? snd c) = true
                   /\ (snd c <=? Heater.max_power (HeaterObj.heater o)) = true)
         calls.
Proof using Type*.
  intros Hmp.
  destruct (run_calls_within _ _ evs Hmp o (calls_within_start _)) as [_ Hcalls].
  exact Hcalls.
Qed.
End CommandedPower.

(** ** [Heater.set_pwm] *)

Section SetPwm.
Context {F : Type} {num : PyNum F}.
Local Open Scope py_scope.

(** The value [set_pwm] works with after its first two lines. *)
Definition commanded (h : Heater.t F) (value : F) : F :=
  if Heater.target_temp h <=? lit 0 then lit 0 else value.

(** The call changed nothing but the record of the call itself. *)
Definition suppressed (h h' : Heater.t F) : Prop :=
  Heater.mcu_pwm h' = Heater.mcu_pwm h /\
  Heater.next_pwm_time h' = Heater.next_pwm_time h /\
  Heater.last_pwm_value h' = Heater.last_pwm_value h.

(** The call wrote [value] to the driver for [pwm_time] and renewed the
    cache. *)
Definition updated (h h' : Heater.t F) (pwm_time value : F) : Prop :=
  Heater.mcu_pwm h' = (pwm_time, value) :: Heater.mcu_pwm h /\
  Heater.next_pwm_time h' = pwm_time + lit 0.75 * lit 5.0 /\
  Heater.last_pwm_value h' = value.

(** The debounce test as the code makes it: the change is small, and the
    time is before [next_pwm_time] or the last commanded value is zero. *)
Definition debounce (h : Heater.t F) (read_time value : F) : bool :=
  (fabs (commanded h value - Heater.last_pwm_value h) <? lit 0.05)
  && ((read_time <? Heater.next_pwm_time h) || (Heater.last_pwm_value h =? lit 0)).

(** The debounce test as the specification words it: the change is small,
    and the time is before [next_pwm_time] or no update has ever been sent. *)
Definition debounce_as_specified (h : Heater.t F) (read_time value : F) : bool :=
  (fabs (commanded h value - Heater.last_pwm_value h) <? lit 0.05)
  && ((read_time <? Heater.next_pwm_time h)
      || match Heater.mcu_pwm h with [] => true | _ :: _ => false end).

Lemma set_pwm_cases (h : Heater.t F) (read_time value : F) :
  (debounce h read_time value = true /\
   Heater.set_pwm h read_time value
   = ((lit 0, Heater.last_pwm_value h), Heater.with_pwm_call (read_time, value) h))
  \/
  (debounce h read_time value = false /\
   Heater.set_pwm h read_time value
   = ((read_time + Heater.pwm_delay h, commanded h value),
      Heater.with_pwm_update (read_time + Heater.pwm_delay h) (commanded h value)
        (Heater.with_pwm_call (read_time, value) h))).
Proof.
  unfold Heater.set_pwm, debounce, commanded, truthy. simpl.
  rewrite negb_involutive.
  rewrite (andb_comm (_ || _)).
  destruct (_ && _); [left | right]; split; reflexivity.
Qed.

Lemma cons_neq {A : Type} (x : A) (l : list A) : x :: l <> l.
Proof.
  intros E. apply (f_equal (@length A)) in E. simpl in E. lia.
Qed.

(** C10.  Every call of [set_pwm] goes one of two ways.  Suppressed: it
    returns (0., last_pwm_value), makes no call to the PWM driver, and leaves
    next_pwm_time and last_pwm_value as they were.  Not suppressed: it returns
    (read_time + pwm_delay, commanded value), having written that pair to the
    driver.  The two ways exclude each other. *)
Theorem set_pwm_frame (h : Heater.t F) (read_time value : F) :
  let r := fst (Heater.set_pwm h read_time value) in
  let h' := snd (Heater.set_pwm h read_time value) in
  (r = (lit 0, Heater.last_pwm_value h) /\ suppressed h h'
   /\ debounce h read_time value = true)
  \/
  (r = (read_time + Heater.pwm_delay h, commanded h value)
   /\ updated h h' (read_time + Heater.pwm_delay h) (commanded h value)
   /\ ~ suppressed h h'
   /\ debounce h read_time value = false).
Proof.
  destruct (set_pwm_cases h read_time value) as [[Hd ->]|[Hd ->]]; simpl.
  - left. repeat split; assumption.
  - right. repeat split; try assumption.
    intros (Hm & _). simpl in Hm. exact (cons_neq _ _ Hm).
Qed.

(** C4, as the code has it.  [set_pwm] is a no-op (no driver write, the
    answer (0., last_pwm_value)) if and only if the commanded value differs
    from the last one by less than 0.05 and either read_time is before
    next_pwm_time or the last commanded value is zero (as it is before any
    update, and after an update that switched the heater off); otherwise it
    writes the driver at read_time + pwm_delay and sets next_pwm_time to
    that time + 0.75 * 5.0. *)
Theorem set_pwm_debounce (h : Heater.t F) (read_time value : F) :
  let r := fst (Heater.set_pwm h read_time value) in
  let h' := snd (Heater.set_pwm h read_time value) in
  (Heater.mcu_pwm h' = Heater.mcu_pwm h <-> debounce h read_time value = true)
  /\ (debounce h read_time value = true ->
      r = (lit 0, Heater.last_pwm_value h) /\ suppressed h h')
  /\ (debounce h read_time value = false ->
      Heater.mcu_pwm h'
      = (read_time + Heater.pwm_delay h, commanded h value) :: Heater.mcu_pwm h
      /\ Heater.next_pwm_time h' = read_time + Heater.pwm_delay h + lit 0.75 * lit 5.0
      /\ Heater.last_pwm_value h' = commanded h value).
Proof.
  destruct (set_pwm_cases h read_time value) as [[Hd ->]|[Hd ->]]; simpl;
    rewrite Hd; repeat split; try congruence; try reflexivity.
  intros Hm. exfalso. exact (cons_neq _ _ Hm).
Qed.

(** C2, as the code has it.  With target_temp <= 0 at the call, [set_pwm]
    works with 0 in place of its argument, and debounces the call like any
    other.  When 0 is within 0.05 of the cached last_pwm_value, and
    read_time is before next_pwm_time or the cached value is zero, the call
    forwards nothing to the driver and the cache keeps its value, which
    need not be 0.  Otherwise it forwards 0 to the driver, for
    read_time + pwm_delay, and caches 0.  Either way the cached value is
    then 0 or within 0.05 of 0, and the argument has no influence on the
    driver, the cache or the answer. *)
Theorem set_pwm_target_off (h : Heater.t F) (read_time value : F) :
  (Heater.target_temp h <=? lit 0) = true ->
  let near_zero := fabs (lit 0 - Heater.last_pwm_value h) <? lit 0.05 in
  let in_window :=
    (read_time <? Heater.next_pwm_time h) || (Heater.last_pwm_value h =? lit 0) in
  let r := fst (Heater.set_pwm h read_time value) in
  let h' := snd (Heater.set_pwm h read_time value) in
  (near_zero && in_window = true ->
   r = (lit 0, Heater.last_pwm_value h)
   /\ Heater.mcu_pwm h' = Heater.mcu_pwm h
   /\ Heater.last_pwm_value h' = Heater.last_pwm_value h
   /\ Heater.next_pwm_time h' = Heater.next_pwm_time h)
  /\ (near_zero && in_window = false ->
      r = (read_time + Heater.pwm_delay h, lit 0)
      /\ Heater.mcu_pwm h' = (read_time + Heater.pwm_delay h, lit 0) :: Heater.mcu_pwm h
      /\ Heater.last_pwm_value h' = lit 0
      /\ Heater.next_pwm_time h' = read_time + Heater.pwm_delay h + lit 0.75 * lit 5.0)
  /\ (Heater.last_pwm_value h' = lit 0
      \/ (fabs (lit 0 - Heater.last_pwm_value h') <? lit 0.05) = true)
  /\ forall value' : F,
       let h'' := snd (Heater.set_pwm h read_time value') in
       fst (Heater.set_pwm h read_time value') = r
       /\ Heater.mcu_pwm h'' = Heater.mcu_pwm h'
       /\ Heater.last_pwm_value h'' = Heater.last_pwm_value h'
       /\ Heater.next_pwm_time h'' = Heater.next_pwm_time h'.
Proof.
  intros Ht near_zero in_window r h'.
  assert (Hc : forall v, commanded h v = lit 0)
    by (intros v; unfold commanded; rewrite Ht; reflexivity).
  assert (Hd : forall v, debounce h read_time v = near_zero && in_window)
    by (intros v; unfold debounce; rewrite Hc; reflexivity).
  assert (Hv : forall v,
             (near_zero && in_window = true /\
              Heater.set_pwm h read_time v
              = ((lit 0, Heater.last_pwm_value h), Heater.with_pwm_call (read_time, v) h))
             \/
             (near_zero && in_window = false /\
              Heater.set_pwm h read_time v
              = ((read_time + Heater.pwm_delay h, lit 0),
                 Heater.with_pwm_update (read_time + Heater.pwm_delay h) (lit 0)
                   (Heater.with_pwm_call (read_time, v) h)))).
  { intros v. destruct (set_pwm_cases h read_time v) as [[E ->]|[E ->]];
      rewrite Hd in E; rewrite ?Hc; [left | right]; split; auto. }
  subst r h'.
  destruct (Hv value) as [[E ->]|[E ->]]; simpl; rewrite E.
  - split; [intros _; repeat split |]. split; [discriminate |].
    split; [right; apply andb_true_iff in E; apply E |].
    intros value'. destruct (Hv value') as [[E' ->]|[E' ->]]; [| congruence].
    simpl. repeat split.
  - split; [discriminate |]. split; [intros _; repeat split |].
    split; [left; reflexivity |].
    intros value'. destruct (Hv value') as [[E' ->]|[E' ->]]; [congruence |].
    simpl. repeat split.
Qed.
End SetPwm.

(** ** [Heater.set_temp] *)

Section SetTemp.
Context {F : Type} {num : PyNum F}.
Local Open Scope py_scope.

(** C6.  [set_temp] raises the out-of-range error if and only if degrees is
    not zero and is below min_temp or above max_temp; degrees = 0 always
    succeeds; on success target_temp is degrees and nothing else changed; on
    error the heater is as it was. *)
Theorem set_temp_range (h : Heater.t F) (print_time degrees : F) :
  (Heater.set_temp h print_time degrees = Raised heater_error h
   <-> (degrees =? lit 0) = false
       /\ ((degrees <? Heater.min_temp h) = true
           \/ (Heater.max_temp h <? degrees) = true))
  /\ ((degrees =? lit 0) = true ->
      Heater.set_temp h print_time degrees
      = Return tt (Heater.with_target_temp degrees h))
  /\ (forall a h', Heater.set_temp h print_time degrees = Return a h' ->
      h' = Heater.with_target_temp degrees h /\ Heater.target_temp h' = degrees)
  /\ (forall e h', Heater.set_temp h print_time degrees = Raised e h' ->
      e = heater_error /\ h' = h).
Proof.
  unfold Heater.set_temp, truthy.
  destruct (degrees =? lit 0); simpl;
    [| destruct (degrees <? Heater.min_temp h); simpl;
       [| destruct (Heater.max_temp h <? degrees); simpl]];
    (split; [split; [intros Hr | intros [Hz Hc]]
            | split; [intros Hz
                     | split; [intros a h' Hr | intros e h' Hr]]]);
    try congruence; try tauto;
    try (injection Hr as <-; split; reflexivity);
    try (injection Hr as <- <-; split; reflexivity).
  destruct Hc; congruence.
Qed.
End SetTemp.

(** ** The bump test *)

Section BumpTest.
Context {F : Type} {num : PyNum F} {libm : PyMath F}.
Local Open Scope py_scope.

(** A session: the callbacks of a list of samples (read_time, temp), in
    order, on the algorithm object and its heater. *)
Definition feed (s : ControlBumpTest.t F * Heater.t F) (samples : list (F * F))
    : ControlBumpTest.t F * Heater.t F :=
  fold_left
    (fun s x => ControlBumpTest.temperature_callback (fst s) (snd s) (fst x) (snd x))
    samples s.

(** The values of [state] after each callback of a session. *)
Fixpoint states (s : ControlBumpTest.t F * Heater.t F) (samples : list (F * F))
    : list Z :=
  match samples with
  | [] => []
  | x :: samples =>
      let s' := ControlBumpTest.temperature_callback (fst s) (snd s) (fst x) (snd x) in
      ControlBumpTest.state (fst s') :: states s' samples
  end.

(** Each value of the list is the one before it, or one more. *)
Fixpoint climbs (a : Z) (l : list Z) : Prop :=
  match l with
  | [] => True
  | b :: l => (a <= b <= a + 1)%Z /\ climbs b l
  end.

(** The temperature recorded at the entry into RampUp, as the specification
    has it: that of the sample whose callback left the state at 1, coming
    from 0. *)
Fixpoint rampup_entry_temp (s : ControlBumpTest.t F * Heater.t F)
    (samples : list (F * F)) : option F :=
  match samples with
  | [] => None
  | x :: samples =>
      let s' := ControlBumpTest.temperature_callback (fst s) (snd s) (fst x) (snd x) in
      if (ControlBumpTest.state (fst s) =? 0)%Z && (ControlBumpTest.state (fst s') =? 1)%Z
      then Some (snd x)
      else rampup_entry_temp s' samples
  end.

Lemma bump_set_pwm_fields (self : ControlBumpTest.t F) (h : Heater.t F)
    (read_time value : F) :
  let s' := ControlBumpTest.set_pwm self h read_time value in
  ControlBumpTest.state (fst s') = ControlBumpTest.state self
  /\ ControlBumpTest.temp_samples (fst s') = ControlBumpTest.temp_samples self
  /\ ControlBumpTest.done_temperature (fst s') = ControlBumpTest.done_temperature self
  /\ Heater.target_temp (snd s') = Heater.target_temp h
  /\ Heater.pwm_calls (snd s') = (read_time, value) :: Heater.pwm_calls h.
Proof.
  unfold ControlBumpTest.set_pwm. simpl.
  destruct (set_pwm_fields h read_time value) as (_ & Hc & Ht & _).
  destruct (negb _); simpl; auto.
Qed.

(** The two facts of a callback that the properties below rest on: what it
    does to [state], and that it appends its sample. *)
Lemma bump_callback_state (self : ControlBumpTest.t F) (h : Heater.t F)
    (read_time temp : F) :
  let self' := fst (ControlBumpTest.temperature_callback self h read_time temp) in
  ((ControlBumpTest.state self <= ControlBumpTest.state self'
    <= ControlBumpTest.state self + 1)%Z
   /\ ((0 <= ControlBumpTest.state self <= 3)%Z ->
       (0 <= ControlBumpTest.state self' <= 3)%Z))
  /\ ControlBumpTest.temp_samples self'
     = ControlBumpTest.temp_samples self ++ [(read_time, temp)].
Proof.
  unfold ControlBumpTest.temperature_callback.
  set (self1 := ControlBumpTest.with_temp_samples _ self).
  change (ControlBumpTest.state self) with (ControlBumpTest.state self1).
  change (ControlBumpTest.temp_samples self ++ [(read_time, temp)])
    with (ControlBumpTest.temp_samples self1).
  generalize self1; clear self1; intros self1.
  repeat match goal with
  | |- context [(?a =? ?b)%Z] => destruct (Z.eqb_spec a b)
  | |- context [let '(_, _) := ControlBumpTest.set_pwm ?s ?h0 ?rt ?v in _] =>
      let K := fresh "K" in
      pose proof (bump_set_pwm_fields s h0 rt v) as K;
      destruct (ControlBumpTest.set_pwm s h0 rt v); simpl in K;
      destruct K as (? & ? & ? & ? & ?)
  | |- context [if ?b then _ else _] => destruct b
  end;
  try match goal with
  | |- context [ControlBumpTest.set_pwm ?s ?h0 ?rt ?v] =>
      let K := fresh "K" in
      pose proof (bump_set_pwm_fields s h0 rt v) as K;
      destruct (ControlBumpTest.set_pwm s h0 rt v); simpl in K;
      destruct K as (? & ? & ? & ? & ?)
  end; simpl; (split; [lia | congruence]).
Qed.

Lemma states_climb (samples : list (F * F)) :
  forall s : ControlBumpTest.t F * Heater.t F,
    (0 <= ControlBumpTest.state (fst s) <= 3)%Z ->
    climbs (ControlBumpTest.state (fst s)) (states s samples)
    /\ Forall (fun z => (0 <= z <= 3)%Z) (states s samples).
Proof.
  induction samples as [|x samples IH]; intros s Hs; simpl.
  - split; constructor.
  - destruct (bump_callback_state (fst s) (snd s) (fst x) (snd x)) as [[Hstep Hin] _].
    specialize (Hin Hs). destruct (IH _ Hin) as [Hc Hall].
    repeat split; try lia; try assumption. constructor; assumption.
Qed.

(** C7.  In a session (started by the constructor, fed any samples, on any
    heater) the values of [state] over time, the initial 0 first, never
    decrease, stay within 0..3 and advance by at most one per callback; and
    [check_busy] is true if and only if state < 3. *)
Theorem bump_state_monotone (h : Heater.t F) (samples : list (F * F)) :
  let trace := states (ControlBumpTest.init, h) samples in
  ControlBumpTest.state (ControlBumpTest.init (F := F)) = 0%Z
  /\ climbs 0 trace
  /\ Forall (fun z => (0 <= z <= 3)%Z) trace
  /\ forall (self : ControlBumpTest.t F) (eventtime : F),
       ControlBumpTest.check_busy self eventtime = true
       <-> (ControlBumpTest.state self < 3)%Z.
Proof.
  simpl. split; [reflexivity |].
  destruct (states_climb samples (ControlBumpTest.init, h)) as [Hc Hall];
    [simpl; lia |].
  repeat split; try assumption.
  - unfold ControlBumpTest.check_busy.
    destruct (Z.ltb_spec (ControlBumpTest.state self) 3); [lia | discriminate].
  - unfold ControlBumpTest.check_busy. intros Hlt.
    destruct (Z.ltb_spec (ControlBumpTest.state self) 3); [reflexivity | lia].
Qed.

Lemma feed_snoc (s : ControlBumpTest.t F * Heater.t F) (samples : list (F * F))
    (x : F * F) :
  feed s (samples ++ [x])
  = ControlBumpTest.temperature_callback (fst (feed s samples)) (snd (feed s samples))
      (fst x) (snd x).
Proof. unfold feed. rewrite fold_left_app. reflexivity. Qed.

(** A session records its samples, in order. *)
Lemma feed_temp_samples (samples : list (F * F)) :
  forall s : ControlBumpTest.t F * Heater.t F,
    ControlBumpTest.temp_samples (fst (feed s samples))
    = ControlBumpTest.temp_samples (fst s) ++ samples.
Proof.
  induction samples as [|x samples IH]; intros s; simpl.
  - rewrite app_nil_r. reflexivity.
  - change (feed s (x :: samples))
      with (feed (ControlBumpTest.temperature_callback (fst s) (snd s) (fst x) (snd x))
              samples).
    rewrite IH.
    destruct (bump_callback_state (fst s) (snd s) (fst x) (snd x)) as [_ ->].
    destruct x. rewrite <- app_assoc. reflexivity.
Qed.
End BumpTest.

Section BumpRampUp.
Context {F : Type} {num : PyNum F} {ord : PyNumOrder F} {libm : PyMath F}.
Local Open Scope py_scope.

(** Up to and including RampUp the callback leaves the target alone. *)
Lemma bump_callback_target (self : ControlBumpTest.t F) (h : Heater.t F)
    (read_time temp : F) :
  let s' := ControlBumpTest.temperature_callback self h read_time temp in
  (ControlBumpTest.state (fst s') <= 1)%Z ->
  Heater.target_temp (snd s') = Heater.target_temp h.
Proof.
  unfold ControlBumpTest.temperature_callback.
  set (self1 := ControlBumpTest.with_temp_samples _ self).
  generalize self1; clear self1; intros self1.
  repeat match goal with
  | |- context [(?a =? ?b)%Z] => destruct (Z.eqb_spec a b)
  | |- context [let '(_, _) := ControlBumpTest.set_pwm ?s ?h0 ?rt ?v in _] =>
      let K := fresh "K" in
      pose proof (bump_set_pwm_fields s h0 rt v) as K;
      destruct (ControlBumpTest.set_pwm s h0 rt v); simpl in K;
      destruct K as (? & ? & ? & ? & ?)
  | |- context [if ?b then _ else _] => destruct b
  end;
  try match goal with
  | |- context [ControlBumpTest.set_pwm ?s ?h0 ?rt ?v] =>
      let K := fresh "K" in
      pose proof (bump_set_pwm_fields s h0 rt v) as K;
      destruct (ControlBumpTest.set_pwm s h0 rt v); simpl in K;
      destruct K as (? & ? & ? & ? & ?)
  end; simpl; intros; try congruence; lia.
Qed.

Lemma feed_state_le (samples : list (F * F)) :
  forall s : ControlBumpTest.t F * Heater.t F,
    (ControlBumpTest.state (fst s) <= ControlBumpTest.state (fst (feed s samples)))%Z.
Proof.
  induction samples as [|x samples IH]; intros s; simpl; [lia |].
  destruct (bump_callback_state (fst s) (snd s) (fst x) (snd x)) as [[Hstep _] _].
  etransitivity; [| apply IH]. simpl in Hstep. lia.
Qed.

(** The target set at the start of the session stands until RampUp ends. *)
Lemma feed_target_temp (samples : list (F * F)) :
  forall s : ControlBumpTest.t F * Heater.t F,
    (ControlBumpTest.state (fst (feed s samples)) <= 1)%Z ->
    Heater.target_temp (snd (feed s samples)) = Heater.target_temp (snd s).
Proof.
  induction samples as [|x samples IH]; intros s Hle; simpl in *; [reflexivity |].
  rewrite (IH _ Hle). apply bump_callback_target.
  etransitivity; [apply feed_state_le | exact Hle].
Qed.

(** C3, as the code has it.  A session is in RampUp after [samples]; the
    next sample has temp >= the target the session was started with.  Then
    the callback cuts the power (it calls [set_pwm] with 0), sets
    done_temperature to start_temp + (target - start_temp) * 0.35 where
    start_temp is the temperature of the first sample of the session
    (temp_samples[0], recorded in Idle), overwrites the heater's target with
    done_temperature, and moves to state 2 (Cooling). *)
Theorem bump_done_temperature (h : Heater.t F) (samples : list (F * F))
    (read_time temp : F) :
  let s1 := feed (ControlBumpTest.init, h) samples in
  let s2 := ControlBumpTest.temperature_callback (fst s1) (snd s1) read_time temp in
  let start_temp := snd (hd (read_time, temp) samples) in
  ControlBumpTest.state (fst s1) = 1%Z ->
  (Heater.target_temp h <=? temp) = true ->
  ControlBumpTest.done_temperature (fst s2)
  = start_temp + (Heater.target_temp h - start_temp) * lit 0.35
  /\ Heater.target_temp (snd s2) = ControlBumpTest.done_temperature (fst s2)
  /\ ControlBumpTest.state (fst s2) = 2%Z
  /\ Heater.pwm_calls (snd s2) = (read_time, lit 0) :: Heater.pwm_calls (snd s1).
Proof using Type*.
  intros s1 s2 start_temp Hst Hge.
  assert (Htgt : Heater.target_temp (snd s1) = Heater.target_temp h)
    by (apply (feed_target_temp samples (ControlBumpTest.init, h)); fold s1; lia).
  assert (Hsam : ControlBumpTest.temp_samples (fst s1) = samples)
    by (apply (feed_temp_samples samples (ControlBumpTest.init, h))).
  apply fle_not_flt in Hge.
  subst s2 start_temp. revert Hst Htgt Hsam.
  generalize (fst s1) (snd s1). intros self1 h1 Hst Htgt Hsam.
  unfold ControlBumpTest.temperature_callback.
  set (selfA := ControlBumpTest.with_temp_samples _ self1).
  assert (HA1 : ControlBumpTest.state selfA = 1%Z) by exact Hst.
  assert (HA2 : ControlBumpTest.temp_samples selfA = samples ++ [(read_time, temp)])
    by (simpl; rewrite Hsam; reflexivity).
  clearbody selfA. cbv zeta. rewrite HA1.
  change (1 =? 0)%Z with false. change (1 =? 1)%Z with true. cbv iota.
  rewrite Htgt, Hge.
  pose proof (bump_set_pwm_fields selfA h1 read_time (lit 0)) as K.
  destruct (ControlBumpTest.set_pwm selfA h1 read_time (lit 0)) as [self2 h2].
  simpl in K. destruct K as (K1 & K2 & K3 & K4 & K5). simpl.
  rewrite K2, K4, K1, HA1, HA2, Htgt.
  repeat split; try assumption.
  destruct samples; reflexivity.
Qed.
End BumpRampUp.

(** ** The PID algorithm *)

Section PID.
Context {F : Type} {num : PyNum F} {ord : PyNumOrder F}.
Local Open Scope py_scope.

Lemma positive_not_zero (x : F) : (lit 0 <? x) = true -> (x =? lit 0) = false.
Proof using Type*. intros Hx. apply (flt_not_feq _ _ Hx). Qed.

(** With min_deriv_time above zero (the config layer sees to it) no division
    of the callback has a zero divisor. *)
Lemma pid_temp_deriv_defined (self : ControlPID.t F) (time_diff temp_diff : F) :
  (lit 0 <? ControlPID.min_deriv_time self) = true ->
  exists temp_deriv,
    (if ControlPID.min_deriv_time self <=? time_diff
     then py_div temp_diff time_diff
     else py_div (ControlPID.prev_temp_deriv self
                  * (ControlPID.min_deriv_time self - time_diff) + temp_diff)
            (ControlPID.min_deriv_time self))
    = Ok temp_deriv.
Proof using Type*.
  intros Hm. unfold py_div.
  destruct (ControlPID.min_deriv_time self <=? time_diff) eqn:Hle.
  - rewrite (positive_not_zero _ (flt_fle_trans _ _ _ Hm Hle)). eexists; reflexivity.
  - rewrite (positive_not_zero _ Hm). eexists; reflexivity.
Qed.

(** The derivative the callback stores, as the code computes it (on
    binary64 each operation rounds). *)
Lemma pid_derivative_code (self : ControlPID.t F) (h : Heater.t F)
    (read_time temp : F) (self' : ControlPID.t F) (h' : Heater.t F) :
  ControlPID.temperature_callback self h read_time temp = Return tt (self', h') ->
  let time_diff := read_time - ControlPID.prev_temp_time self in
  let temp_diff := temp - ControlPID.prev_temp self in
  ControlPID.prev_temp_deriv self'
  = if ControlPID.min_deriv_time self <=? time_diff
    then fquot temp_diff time_diff
    else fquot (ControlPID.prev_temp_deriv self
                * (ControlPID.min_deriv_time self - time_diff) + temp_diff)
           (ControlPID.min_deriv_time self).
Proof.
  unfold ControlPID.temperature_callback, py_div.
  destruct (ControlPID.min_deriv_time self <=? read_time - ControlPID.prev_temp_time self);
    destruct (_ =? lit 0); try discriminate; intros [= <- _]; reflexivity.
Qed.

(** C5.  The constructor sets temp_integ_max to the configured integral
    maximum divided by Ki.  In the callback the integral accumulator is
    clamped to [0, temp_integ_max]; the output Kp*err + Ki*integ - Kd*deriv
    clamped to [0, max_power] is what [set_pwm] gets; and the new integral
    is stored if and only if the unclamped output equals the clamped one:
    while the output is saturated the stored integral does not change. *)
Theorem pid_integral_antiwindup (self : ControlPID.t F) (h : Heater.t F)
    (read_time temp : F) :
  (lit 0 <? ControlPID.min_deriv_time self) = true ->
  (lit 0 <=? ControlPID.temp_integ_max self) = true ->
  (forall heater pid_Kp pid_Ki pid_Kd pid_deriv_time pid_integral_max c,
     ControlPID.init heater pid_Kp pid_Ki pid_Kd pid_deriv_time (Some pid_integral_max)
     = Ok c ->
     ControlPID.temp_integ_max c = fquot pid_integral_max (ControlPID.Ki c))
  /\ exists self' h',
       ControlPID.temperature_callback self h read_time temp = Return tt (self', h')
       /\ let temp_err := Heater.target_temp h - temp in
          let temp_integ :=
            py_max (lit 0)
              (py_min (ControlPID.temp_integ_max self)
                 (ControlPID.prev_temp_integ self
                  + temp_err * (read_time - ControlPID.prev_temp_time self))) in
          let co :=
            ControlPID.Kp self * temp_err + ControlPID.Ki self * temp_integ
            - ControlPID.Kd self * ControlPID.prev_temp_deriv self' in
          let bounded_co := py_max (lit 0) (py_min (Heater.max_power h) co) in
          within (lit 0) (ControlPID.temp_integ_max self) temp_integ
          /\ Heater.pwm_calls h' = (read_time, bounded_co) :: Heater.pwm_calls h
          /\ ((co =? bounded_co) = true -> ControlPID.prev_temp_integ self' = temp_integ)
          /\ ((co =? bounded_co) = false ->
              ControlPID.prev_temp_integ self' = ControlPID.prev_temp_integ self).
Proof using Type*.
  intros Hm Himax. split.
  - intros heater pid_Kp pid_Ki pid_Kd pid_deriv_time pid_integral_max c.
    unfold ControlPID.init, rbind. simpl.
    destruct (py_div pid_Kp _); [| discriminate].
    destruct (py_div pid_Ki _) as [ki|]; [| discriminate].
    destruct (py_div pid_Kd _); [| discriminate].
    unfold py_div. destruct (ki =? lit 0); [discriminate |].
    intros [= <-]. reflexivity.
  - unfold ControlPID.temperature_callback.
    destruct (pid_temp_deriv_defined self
                (read_time - ControlPID.prev_temp_time self)
                (temp - ControlPID.prev_temp self) Hm) as [temp_deriv ->].
    eexists _, _. split; [reflexivity |]. simpl.
    destruct (set_pwm_fields h read_time
                (py_max (lit 0)
                   (py_min (Heater.max_power h)
                      (ControlPID.Kp self * (Heater.target_temp h - temp)
                       + ControlPID.Ki self
                         * py_max (lit 0)
                             (py_min (ControlPID.temp_integ_max self)
                                (ControlPID.prev_temp_integ self
                                 + (Heater.target_temp h - temp)
                                   * (read_time - ControlPID.prev_temp_time self)))
                       - ControlPID.Kd self * temp_deriv)))) as (_ & Hc & _).
    repeat split.
    + apply py_clamp_within, Himax.
    + apply py_clamp_within, Himax.
    + exact Hc.
    + intros ->. reflexivity.
    + intros ->. reflexivity.
Qed.

End PID.

(** ** The PID derivative *)

Section PIDDerivative.
Context {F : Type} {num : PyNum F} {ord : PyNumOrder F}.
Local Open Scope py_scope.

(** The specification's words: [prev] low-pass-filtered toward [raw] with
    weight [w]. *)
Definition low_pass_as_specified (prev raw w : F) : F := prev + (raw - prev) * w.

(** C9, as the code has it.  With min_deriv_time above zero the callback
    returns.  When the sample interval time_diff is not at least
    min_deriv_time (so when it is shorter), the stored derivative is
    (prev_temp_deriv * (min_deriv_time - time_diff) + temp_diff)
    / min_deriv_time, computed in this order; the raw estimate
    temp_diff / time_diff is not computed, and time_diff may be zero.  When
    time_diff >= min_deriv_time the stored derivative is
    temp_diff / time_diff. *)
Theorem pid_derivative_filter (self : ControlPID.t F) (h : Heater.t F)
    (read_time temp : F) :
  let time_diff := read_time - ControlPID.prev_temp_time self in
  let temp_diff := temp - ControlPID.prev_temp self in
  (lit 0 <? ControlPID.min_deriv_time self) = true ->
  exists self' h',
    ControlPID.temperature_callback self h read_time temp = Return tt (self', h')
    /\ ((time_diff >=? ControlPID.min_deriv_time self) = false ->
        ControlPID.prev_temp_deriv self'
        = fquot (ControlPID.prev_temp_deriv self
                 * (ControlPID.min_deriv_time self - time_diff) + temp_diff)
            (ControlPID.min_deriv_time self))
    /\ ((time_diff <? ControlPID.min_deriv_time self) = true ->
        (time_diff >=? ControlPID.min_deriv_time self) = false)
    /\ ((time_diff >=? ControlPID.min_deriv_time self) = true ->
        ControlPID.prev_temp_deriv self' = fquot temp_diff time_diff)
    /\ ControlPID.prev_temp self' = temp
    /\ ControlPID.prev_temp_time self' = read_time.
Proof using Type*.
  intros time_diff temp_diff Hm.
  assert (Hret : exists self' h',
             ControlPID.temperature_callback self h read_time temp
             = Return tt (self', h')
             /\ ControlPID.prev_temp self' = temp
             /\ ControlPID.prev_temp_time self' = read_time).
  { unfold ControlPID.temperature_callback.
    destruct (pid_temp_deriv_defined self time_diff temp_diff Hm) as [d Hd].
    fold time_diff temp_diff. rewrite Hd.
    eexists _, _. split; [reflexivity |]. split; reflexivity. }
  destruct Hret as (self' & h' & Hcb & Hp & Hpt).
  exists self', h'. split; [exact Hcb |].
  pose proof (pid_derivative_code self h read_time temp self' h' Hcb) as Hcode.
  cbv zeta in Hcode. fold time_diff temp_diff in Hcode.
  split; [intros Hlt; rewrite Hlt in Hcode; exact Hcode |].
  split.
  - intros Hlt.
    destruct (ControlPID.min_deriv_time self <=? time_diff) eqn:E; [| reflexivity].
    rewrite (fle_not_flt _ _ E) in Hlt. discriminate Hlt.
  - split; [intros Hge; rewrite Hge in Hcode; exact Hcode |].
    split; assumption.
Qed.
End PIDDerivative.

Section PIDDerivativeExact.
Local Open Scope Q_scope.

(** Why the specification speaks of a low-pass filter: as rational numbers,
    and when neither time_diff nor min_deriv_time is zero, the quotient the
    code computes and the low-pass form are the same number.  On binary64
    they are computed by different roundings. *)
Lemma low_pass_exact (prev temp_diff time_diff min_deriv_time : Q) :
  ~ time_diff == 0 -> ~ min_deriv_time == 0 ->
  (prev * (min_deriv_time - time_diff) + temp_diff) / min_deriv_time
  == low_pass_as_specified prev (temp_diff / time_diff) (time_diff / min_deriv_time).
Proof.
  intros Ht Hm. unfold low_pass_as_specified. simpl. field. split; assumption.
Qed.
End PIDDerivativeExact.

(** ** The fit *)

Section FitProperties.
Context {F : Type} {num : PyNum F} {ord : PyNumOrder F} {libm : PyMath F}.
Local Open Scope py_scope.





End FitProperties.

(** * Further properties *)

(** ** Invariants of the heater through every algorithm *)

Section RunInvariant.
Context {F : Type} {num : PyNum F} {libm : PyMath F}.
Local Open Scope py_scope.

(** What an algorithm passes to [Heater.set_pwm]: 0, max_power, or a value
    clamped to them. *)
Definition passed (h : Heater.t F) (v : F) : Prop :=
  v = lit 0 \/ v = Heater.max_power h
  \/ exists x, v = py_max (lit 0) (py_min (Heater.max_power h) x).

Variable Inv : Heater.t F -> Prop.

(** [set_pwm] keeps the invariant for such a value, max_power being read
    from a heater that satisfies the invariant. *)
Hypothesis Hset :
  forall h h' read_time v,
    Inv h -> Inv h' -> passed h' v -> Inv (snd (Heater.set_pwm h read_time v)).

Lemma bangbang_keeps (self : ControlBangBang.t F) (h : Heater.t F)
    (read_time temp : F) :
  Inv h -> Inv (snd (ControlBangBang.temperature_callback self h read_time temp)).
Proof using Hset.
  intros Hh. unfold ControlBangBang.temperature_callback.
  destruct (ControlBangBang.heating _); simpl; apply (Hset h h); try assumption.
  - right. left. reflexivity.
  - left. reflexivity.
Qed.

Lemma pid_keeps (self : ControlPID.t F) (h : Heater.t F) (read_time temp : F) :
  Inv h ->
  Inv (snd (final_state (ControlPID.temperature_callback self h read_time temp))).
Proof using Hset.
  intros Hh. unfold ControlPID.temperature_callback.
  destruct (if _ : bool then _ else _); simpl; [| assumption].
  apply (Hset h h); try assumption. right. right. eexists. reflexivity.
Qed.

Lemma fopdt_keeps (self : ControlFOPDT.t F) (h : Heater.t F)
    (curtime read_time temp : F) :
  Inv h ->
  Inv (snd (final_state
              (ControlFOPDT.temperature_callback curtime read_time temp (self, h)))).
Proof using Hset.
  intros Hh. apply (keeps_temperature_callback Inv); [| exact Hh].
  intros h1 h2 x H1 H2. apply (Hset h1 h2); try assumption.
  right. right. eexists. reflexivity.
Qed.

Lemma bump_set_pwm_keeps (self : ControlBumpTest.t F) (h h' : Heater.t F)
    (read_time v : F) :
  Inv h -> Inv h' -> passed h' v ->
  Inv (snd (ControlBumpTest.set_pwm self h read_time v)).
Proof using Hset.
  intros Hh Hh' Hv. unfold ControlBumpTest.set_pwm. simpl.
  apply (Hset h h'); assumption.
Qed.

(** The bump test also writes the target. *)
Hypothesis Htarget : forall h v, Inv h -> Inv (Heater.with_target_temp v h).

Lemma bump_keeps (self : ControlBumpTest.t F) (h : Heater.t F) (read_time temp : F) :
  Inv h -> Inv (snd (ControlBumpTest.temperature_callback self h read_time temp)).
Proof using Hset Htarget.
  intros Hh. unfold ControlBumpTest.temperature_callback.
  assert (Hz : forall s, Inv (snd (ControlBumpTest.set_pwm s h read_time (lit 0))))
    by (intros s; apply (bump_set_pwm_keeps s h h); try assumption; left; reflexivity).
  repeat match goal with
  | |- context [let '(_, _) := ControlBumpTest.set_pwm ?s h read_time (lit 0) in _] =>
      let K := fresh "K" in
      pose proof (Hz s) as K;
      destruct (ControlBumpTest.set_pwm s h read_time (lit 0)); simpl in K
  | |- context [if ?b then _ else _] => destruct b
  end; simpl; auto.
  apply (Hset h h); try assumption. right. left. reflexivity.
Qed.

Lemma dispatch_keeps (o : HeaterObj.t F) (curtime read_time temp : F) :
  Inv (Heater.with_sample read_time temp (HeaterObj.heater o)) ->
  Inv (HeaterObj.heater
         (final_state (HeaterObj.temperature_callback o curtime read_time temp))).
Proof using Hset Htarget.
  intros Hs. unfold HeaterObj.temperature_callback.
  destruct (HeaterObj.control o) as [c|c|c|c].
  - apply (bangbang_keeps c _ read_time temp Hs).
  - pose proof (pid_keeps c _ read_time temp Hs) as Hp.
    destruct (ControlPID.temperature_callback _ _ _ _); exact Hp.
  - pose proof (fopdt_keeps c _ curtime read_time temp Hs) as Hp.
    destruct (ControlFOPDT.temperature_callback _ _ _ _); exact Hp.
  - apply (bump_keeps c _ read_time temp Hs).
Qed.

(** The sample is noted. *)
Hypothesis Hsample :
  forall h read_time temp, Inv h -> Inv (Heater.with_sample read_time temp h).

Lemma run_keeps (evs : list (event F)) :
  forall o : HeaterObj.t F,
    Inv (HeaterObj.heater o) -> Inv (HeaterObj.heater (final_state (HeaterObj.run o evs))).
Proof using Hset Htarget Hsample.
  induction evs as [|[curtime read_time temp|print_time degrees] evs IH];
    intros o Ho; simpl.
  - exact Ho.
  - pose proof (dispatch_keeps o curtime read_time temp (Hsample _ _ _ Ho)) as Hs.
    destruct (HeaterObj.temperature_callback o curtime read_time temp) as [a o'|e o'].
    + apply IH, Hs.
    + exact Hs.
  - apply IH. unfold HeaterObj.set_temp, Heater.set_temp.
    destruct (_ && _); simpl; [exact Ho | apply Htarget, Ho].
Qed.
End RunInvariant.

Section HeaterInvariants.
Context {F : Type} {num : PyNum F} {libm : PyMath F}.
Local Open Scope py_scope.

(** All that [set_pwm] leaves as it is. *)
Lemma set_pwm_config (h : Heater.t F) (read_time value : F) :
  let h' := snd (Heater.set_pwm h read_time value) in
  Heater.min_temp h' = Heater.min_temp h
  /\ Heater.max_temp h' = Heater.max_temp h
  /\ Heater.pwm_delay h' = Heater.pwm_delay h
  /\ Heater.min_extrude_temp h' = Heater.min_extrude_temp h
  /\ Heater.max_power h' = Heater.max_power h
  /\ Heater.last_temp h' = Heater.last_temp h
  /\ Heater.last_temp_time h' = Heater.last_temp_time h
  /\ Heater.can_extrude h' = Heater.can_extrude h
  /\ Heater.target_temp h' = Heater.target_temp h.
Proof.
  destruct (set_pwm_cases h read_time value) as [[_ ->]|[_ ->]]; simpl;
    repeat split.
Qed.

(** The bounds and settings of [h0], and histories that extend its own. *)
Definition same_config (h0 h : Heater.t F) : Prop :=
  Heater.min_temp h = Heater.min_temp h0
  /\ Heater.max_temp h = Heater.max_temp h0
  /\ Heater.pwm_delay h = Heater.pwm_delay h0
  /\ Heater.min_extrude_temp h = Heater.min_extrude_temp h0
  /\ Heater.max_power h = Heater.max_power h0
  /\ (exists writes, Heater.mcu_pwm h = writes ++ Heater.mcu_pwm h0)
  /\ (exists calls, Heater.pwm_calls h = calls ++ Heater.pwm_calls h0).

Lemma same_config_set_pwm (h0 h : Heater.t F) (read_time value : F) :
  same_config h0 h -> same_config h0 (snd (Heater.set_pwm h read_time value)).
Proof.
  intros (H1 & H2 & H3 & H4 & H5 & [writes Hw] & [calls Hc]).
  destruct (set_pwm_config h read_time value) as (K1 & K2 & K3 & K4 & K5 & _).
  unfold same_config. rewrite K1, K2, K3, K4, K5.
  repeat split; try assumption.
  - destruct (set_pwm_cases h read_time value) as [[_ ->]|[_ ->]]; simpl.
    + exists writes. exact Hw.
    + eexists (_ :: writes). rewrite Hw. reflexivity.
  - destruct (set_pwm_fields h read_time value) as (_ & -> & _).
    exists ((read_time, value) :: calls). rewrite Hc. reflexivity.
Qed.

(** X3.  Whatever reaches a heater, and whichever algorithm drives it, its bounds
    and settings (min_temp, max_temp, pwm_delay, min_extrude_temp, max_power)
    stay what they were, and the history of the driver and of the calls of
    [set_pwm] is only added to, never rewritten. *)
Theorem run_keeps_config (o : HeaterObj.t F) (evs : list (event F)) :
  let h := HeaterObj.heater o in
  let h' := HeaterObj.heater (final_state (HeaterObj.run o evs)) in
  Heater.min_temp h' = Heater.min_temp h
  /\ Heater.max_temp h' = Heater.max_temp h
  /\ Heater.pwm_delay h' = Heater.pwm_delay h
  /\ Heater.min_extrude_temp h' = Heater.min_extrude_temp h
  /\ Heater.max_power h' = Heater.max_power h
  /\ (exists writes, Heater.mcu_pwm h' = writes ++ Heater.mcu_pwm h)
  /\ (exists calls, Heater.pwm_calls h' = calls ++ Heater.pwm_calls h).
Proof.
  apply (run_keeps (same_config (HeaterObj.heater o))).
  - intros h h' read_time v Hh _ _. apply same_config_set_pwm, Hh.
  - intros h v Hh. exact Hh.
  - intros h read_time temp Hh. exact Hh.
  - unfold same_config. repeat split; exists []; reflexivity.
Qed.

(** The cache of [set_pwm] agrees with the driver: last_pwm_value is the
    value last written and next_pwm_time its time + 0.75 * 5.0, and both are
    0 while nothing was written. *)
Definition cache_consistent (h : Heater.t F) : Prop :=
  match Heater.mcu_pwm h with
  | [] => Heater.last_pwm_value h = lit 0 /\ Heater.next_pwm_time h = lit 0
  | (pwm_time, value) :: _ =>
      Heater.last_pwm_value h = value
      /\ Heater.next_pwm_time h = pwm_time + lit 0.75 * lit 5.0
  end.

Lemma cache_consistent_set_pwm (h : Heater.t F) (read_time value : F) :
  cache_consistent h -> cache_consistent (snd (Heater.set_pwm h read_time value)).
Proof.
  intros Hh.
  destruct (set_pwm_cases h read_time value) as [[_ ->]|[_ ->]]; simpl.
  - exact Hh.
  - split; reflexivity.
Qed.

(** X2.  A heater fresh from its constructor has a consistent cache, and every run
    keeps it so: through samples, commands, debounced calls and exceptions,
    last_pwm_value is the value the PWM driver was last sent. *)
Theorem run_keeps_cache_consistent (o : HeaterObj.t F) (evs : list (event F)) :
  cache_consistent (HeaterObj.heater o) ->
  cache_consistent (HeaterObj.heater (final_state (HeaterObj.run o evs))).
Proof.
  apply (run_keeps cache_consistent).
  - intros h h' read_time v Hh _ _. apply cache_consistent_set_pwm, Hh.
  - intros h v Hh. exact Hh.
  - intros h read_time temp Hh. exact Hh.
Qed.

Lemma init_cache_consistent
    (min_temp max_temp report_time_delta min_extrude_temp max_power : F)
    (is_fileoutput : bool) :
  cache_consistent
    (Heater.init min_temp max_temp report_time_delta min_extrude_temp max_power
       is_fileoutput).
Proof. split; reflexivity. Qed.

(** X4.  [temperature_callback] notes the sample before the algorithm runs, and
    no algorithm undoes it: whether the callback returns or raises, last_temp
    and last_temp_time are the sample's, and can_extrude tells whether the
    temperature has reached min_extrude_temp. *)
Theorem callback_notes_sample (o : HeaterObj.t F) (curtime read_time temp : F) :
  let h' :=
    HeaterObj.heater
      (final_state (HeaterObj.temperature_callback o curtime read_time temp)) in
  Heater.last_temp h' = temp
  /\ Heater.last_temp_time h' = read_time
  /\ Heater.can_extrude h' = (Heater.min_extrude_temp (HeaterObj.heater o) <=? temp).
Proof.
  apply (dispatch_keeps
           (fun h => Heater.last_temp h = temp /\ Heater.last_temp_time h = read_time
                     /\ Heater.can_extrude h
                        = (Heater.min_extrude_temp (HeaterObj.heater o) <=? temp))).
  - intros h h' rt v (H1 & H2 & H3) _ _.
    destruct (set_pwm_config h rt v) as (_ & _ & _ & _ & _ & K1 & K2 & K3 & _).
    rewrite K1, K2, K3. repeat split; assumption.
  - intros h v Hh. exact Hh.
  - repeat split.
Qed.

(** X5.  [get_temp] after a sample: the sample's temperature as long as the
    estimated print time is at most 5 s past the time of the sample, and 0
    once it is later than that; the target in both cases. *)
Theorem get_temp_after_sample (o : HeaterObj.t F)
    (curtime read_time temp estimated_print_time : F) :
  let h' :=
    HeaterObj.heater
      (final_state (HeaterObj.temperature_callback o curtime read_time temp)) in
  ((read_time <? estimated_print_time - lit 5) = false ->
   Heater.get_temp h' estimated_print_time = (temp, Heater.target_temp h'))
  /\ ((read_time <? estimated_print_time - lit 5) = true ->
      Heater.get_temp h' estimated_print_time = (lit 0, Heater.target_temp h')).
Proof.
  destruct (dispatch_keeps
              (fun h => Heater.last_temp h = temp /\ Heater.last_temp_time h = read_time)
              ltac:(intros h h' rt v (H1 & H2) _ _;
                    destruct (set_pwm_config h rt v)
                      as (_ & _ & _ & _ & _ & K1 & K2 & _);
                    rewrite K1, K2; split; assumption)
              ltac:(intros h v Hh; exact Hh)
              o curtime read_time temp ltac:(split; reflexivity)) as [H1 H2].
  simpl. unfold Heater.get_temp. rewrite H1, H2.
  split; intros ->; reflexivity.
Qed.
End HeaterInvariants.

Section DriverBounds.
Context {F : Type} {num : PyNum F} {ord : PyNumOrder F} {libm : PyMath F}.
Local Open Scope py_scope.

(** The writes made since the driver's history was [old] carry values in
    [0, mp], and max_power is [mp]. *)
Definition writes_within (mp : F) (old : list (F * F)) (h : Heater.t F) : Prop :=
  Heater.max_power h = mp
  /\ exists writes, Heater.mcu_pwm h = writes ++ old
                    /\ Forall (fun w => within (lit 0) mp (snd w)) writes.

Lemma passed_within (mp : F) (h : Heater.t F) (v : F) :
  (lit 0 <=? mp) = true -> Heater.max_power h = mp -> passed h v ->
  within (lit 0) mp v.
Proof using Type*.
  intros Hmp <- [->|[->|[x ->]]].
  - apply within_zero, Hmp.
  - apply within_top, Hmp.
  - apply py_clamp_within, Hmp.
Qed.

(** X1.  The power the PWM driver is told never leaves [0, max_power]: over any
    run, with any algorithm, every value written to the driver is between 0
    and max_power (max_power is at least 0). *)
Theorem driver_power_within_bounds (o : HeaterObj.t F) (evs : list (event F)) :
  (lit 0 <=? Heater.max_power (HeaterObj.heater o)) = true ->
  exists writes : list (F * F),
    Heater.mcu_pwm (HeaterObj.heater (final_state (HeaterObj.run o evs)))
    = writes ++ Heater.mcu_pwm (HeaterObj.heater o)
    /\ Forall
         (fun w => (lit 0 <=? snd w) = true
                   /\ (snd w <=? Heater.max_power (HeaterObj.heater o)) = true)
         writes.
Proof using Type*.
  intros Hmp.
  set (mp := Heater.max_power (HeaterObj.heater o)) in *.
  set (old := Heater.mcu_pwm (HeaterObj.heater o)).
  assert (Hrun : writes_within mp old
                   (HeaterObj.heater (final_state (HeaterObj.run o evs)))).
  { apply (run_keeps (writes_within mp old)).
    - intros h h' read_time v [Hm (writes & Hw & Hall)] [Hm' _] Hv.
      destruct (set_pwm_config h read_time v) as (_ & _ & _ & _ & K & _).
      split; [congruence |].
      destruct (set_pwm_cases h read_time v) as [[_ ->]|[_ ->]]; simpl.
      + exists writes. split; assumption.
      + eexists (_ :: writes). split; [rewrite Hw; reflexivity |].
        constructor; [| exact Hall]. simpl. unfold commanded.
        destruct (Heater.target_temp h <=? lit 0).
        * apply within_zero, Hmp.
        * apply (passed_within mp h'); assumption.
    - intros h v Hh. exact Hh.
    - intros h read_time temp Hh. exact Hh.
    - split; [reflexivity |]. exists []. split; [reflexivity | constructor]. }
  exact (proj2 Hrun).
Qed.
End DriverBounds.

(** ** The target is the user's *)

Section TargetFrame.
Context {F : Type} {num : PyNum F} {libm : PyMath F}.
Local Open Scope py_scope.

Definition is_bump (c : Control F) : bool :=
  match c with
  | CBumpTest _ => true
  | _ => false
  end.

(** [set_temp] refuses [degrees] on a heater with these bounds. *)
Definition refused (min_temp max_temp degrees : F) : bool :=
  truthy degrees && ((degrees <? min_temp) || (degrees >? max_temp)).

Lemma callback_control_kind (o : HeaterObj.t F) (curtime read_time temp : F) :
  is_bump
    (HeaterObj.control
       (final_state (HeaterObj.temperature_callback o curtime read_time temp)))
  = is_bump (HeaterObj.control o).
Proof.
  unfold HeaterObj.temperature_callback.
  destruct (HeaterObj.control o) as [c|c|c|c]; simpl; try reflexivity.
  - destruct (ControlPID.temperature_callback _ _ _ _); reflexivity.
  - destruct (ControlFOPDT.temperature_callback _ _ _ _); reflexivity.
Qed.

(** With one of the three control algorithms, a callback keeps every
    property of the heater that [set_pwm] keeps. *)
Lemma standard_callback_keeps (Inv : Heater.t F -> Prop) (o : HeaterObj.t F)
    (curtime read_time temp : F) :
  (forall h read_time v, Inv h -> Inv (snd (Heater.set_pwm h read_time v))) ->
  is_bump (HeaterObj.control o) = false ->
  Inv (Heater.with_sample read_time temp (HeaterObj.heater o)) ->
  Inv (HeaterObj.heater
         (final_state (HeaterObj.temperature_callback o curtime read_time temp))).
Proof.
  intros Hset Hk Hs. unfold HeaterObj.temperature_callback.
  assert (Hset' : forall h h' rt v, Inv h -> Inv h' -> passed h' v ->
                                    Inv (snd (Heater.set_pwm h rt v)))
    by (intros h h' rt v Hh _ _; apply Hset, Hh).
  destruct (HeaterObj.control o) as [c|c|c|c]; [| | | discriminate].
  - apply (bangbang_keeps Inv Hset' c _ read_time temp Hs).
  - pose proof (pid_keeps Inv Hset' c _ read_time temp Hs) as Hp.
    destruct (ControlPID.temperature_callback _ _ _ _); exact Hp.
  - pose proof (fopdt_keeps Inv Hset' c _ curtime read_time temp Hs) as Hp.
    destruct (ControlFOPDT.temperature_callback _ _ _ _); exact Hp.
Qed.

Lemma standard_callback_frame (o : HeaterObj.t F) (curtime read_time temp : F) :
  is_bump (HeaterObj.control o) = false ->
  let h' :=
    HeaterObj.heater
      (final_state (HeaterObj.temperature_callback o curtime read_time temp)) in
  Heater.target_temp h' = Heater.target_temp (HeaterObj.heater o)
  /\ Heater.min_temp h' = Heater.min_temp (HeaterObj.heater o)
  /\ Heater.max_temp h' = Heater.max_temp (HeaterObj.heater o).
Proof.
  intros Hk.
  apply (standard_callback_keeps
           (fun h => Heater.target_temp h = Heater.target_temp (HeaterObj.heater o)
                     /\ Heater.min_temp h = Heater.min_temp (HeaterObj.heater o)
                     /\ Heater.max_temp h = Heater.max_temp (HeaterObj.heater o)));
    [| exact Hk | repeat split].
  intros h rt v (H1 & H2 & H3).
  destruct (set_pwm_config h rt v) as (K1 & K2 & _ & _ & _ & _ & _ & _ & K3).
  rewrite K1, K2, K3. repeat split; assumption.
Qed.

Lemma run_target (evs : list (event F)) :
  forall o : HeaterObj.t F,
    is_bump (HeaterObj.control o) = false ->
    let h' := HeaterObj.heater (final_state (HeaterObj.run o evs)) in
    Heater.target_temp h' = Heater.target_temp (HeaterObj.heater o)
    \/ exists print_time degrees,
         In (SetTemp print_time degrees) evs
         /\ Heater.target_temp h' = degrees
         /\ refused (Heater.min_temp (HeaterObj.heater o))
              (Heater.max_temp (HeaterObj.heater o)) degrees = false.
Proof.
  induction evs as [|[curtime read_time temp|print_time degrees] evs IH];
    intros o Hk; simpl.
  - left. reflexivity.
  - pose proof (standard_callback_frame o curtime read_time temp Hk) as (H1 & H2 & H3).
    pose proof (callback_control_kind o curtime read_time temp) as Hk'.
    destruct (HeaterObj.temperature_callback o curtime read_time temp) as [a o'|e o'];
      simpl in *.
    + rewrite Hk in Hk'. destruct (IH o' Hk') as [Ht|(pt & d & Hin & Ht & Hr)].
      * left. congruence.
      * right. exists pt, d. rewrite H2, H3 in Hr. auto.
    + left. exact H1.
  - unfold HeaterObj.set_temp, Heater.set_temp.
    fold (refused (Heater.min_temp (HeaterObj.heater o))
            (Heater.max_temp (HeaterObj.heater o)) degrees).
    destruct (refused _ _ degrees) eqn:Hr; simpl.
    + destruct (IH {| HeaterObj.heater := HeaterObj.heater o;
                      HeaterObj.control := HeaterObj.control o |} Hk)
        as [Ht|(pt & d & Hin & Ht & Hr')].
      * left. exact Ht.
      * right. exists pt, d. auto.
    + destruct (IH {| HeaterObj.heater :=
                        Heater.with_target_temp degrees (HeaterObj.heater o);
                      HeaterObj.control := HeaterObj.control o |} Hk)
        as [Ht|(pt & d & Hin & Ht & Hr')].
      * right. exists print_time, degrees. auto.
      * right. exists pt, d. auto.
Qed.

(** X6.  Under BangBang, PID or FOPDT control nothing but [set_temp] writes the
    target: after any run it is the target of the start, or the degrees of
    one of the run's [set_temp] commands, which [set_temp] did not refuse
    (0, or within min_temp..max_temp).  The bump test is the one algorithm
    that overwrites the target itself. *)
Theorem target_written_by_set_temp_only (o : HeaterObj.t F) (evs : list (event F)) :
  is_bump (HeaterObj.control o) = false ->
  let h' := HeaterObj.heater (final_state (HeaterObj.run o evs)) in
  Heater.target_temp h' = Heater.target_temp (HeaterObj.heater o)
  \/ exists print_time degrees,
       In (SetTemp print_time degrees) evs
       /\ Heater.target_temp h' = degrees
       /\ refused (Heater.min_temp (HeaterObj.heater o))
            (Heater.max_temp (HeaterObj.heater o)) degrees = false.
Proof. intros Hk. apply run_target, Hk. Qed.
End TargetFrame.

(** ** BangBang: the hysteresis band *)

Section BangBangBand.
Context {F : Type} {num : PyNum F} {libm : PyMath F}.
Local Open Scope py_scope.

(** [temp] is strictly inside target - max_delta .. target + max_delta. *)
Definition in_band (target max_delta temp : F) : Prop :=
  (temp >=? target + max_delta) = false /\ (temp <=? target - max_delta) = false.

Definition as_events (samples : list (F * F)) : list (event F) :=
  map (fun x => Sample (fst x) (fst x) (snd x)) samples.

Lemma bangbang_band_step (c : ControlBangBang.t F) (h : Heater.t F)
    (read_time temp : F) :
  in_band (Heater.target_temp h) (ControlBangBang.max_delta c) temp ->
  ControlBangBang.temperature_callback c (Heater.with_sample read_time temp h)
    read_time temp
  = (c, snd (Heater.set_pwm (Heater.with_sample read_time temp h) read_time
               (if ControlBangBang.heating c then Heater.max_power h else lit 0))).
Proof.
  intros [Hhi Hlo]. unfold ControlBangBang.temperature_callback. simpl.
  rewrite Hhi, Hlo. rewrite !andb_false_r.
  destruct (ControlBangBang.heating c); reflexivity.
Qed.

(** X7.  While the temperature stays strictly inside the band around the target,
    a BangBang heater does not switch: the algorithm is left as it was, and
    every callback asks for the same power, max_power when it was heating
    and 0 when it was not. *)
Theorem bangbang_latch (c : ControlBangBang.t F) (samples : list (F * F)) :
  forall h : Heater.t F,
    Forall (fun x => in_band (Heater.target_temp h) (ControlBangBang.max_delta c)
                       (snd x)) samples ->
    let o' :=
      final_state
        (HeaterObj.run {| HeaterObj.heater := h; HeaterObj.control := CBangBang c |}
           (as_events samples)) in
    HeaterObj.control o' = CBangBang c
    /\ Heater.pwm_calls (HeaterObj.heater o')
       = map (fun x => (fst x, if ControlBangBang.heating c
                               then Heater.max_power h else lit 0))
           (rev samples)
         ++ Heater.pwm_calls h.
Proof.
  induction samples as [|[read_time temp] samples IH]; intros h Hall; simpl.
  - split; reflexivity.
  - inversion Hall as [|x l Hx Hrest]; subst. simpl in Hx.
    unfold HeaterObj.temperature_callback. simpl.
    rewrite (bangbang_band_step c h read_time temp Hx).
    unfold HeaterObj.box. simpl.
    set (v := if ControlBangBang.heating c then Heater.max_power h else lit 0).
    set (h1 := snd (Heater.set_pwm (Heater.with_sample read_time temp h) read_time v)).
    destruct (set_pwm_config (Heater.with_sample read_time temp h) read_time v)
      as (_ & _ & _ & _ & Kmp & _ & _ & _ & Kt).
    destruct (set_pwm_fields (Heater.with_sample read_time temp h) read_time v)
      as (_ & Kc & _).
    fold h1 in Kmp, Kt, Kc. simpl in Kmp, Kt, Kc.
    assert (Hall1 : Forall (fun x => in_band (Heater.target_temp h1)
                                       (ControlBangBang.max_delta c) (snd x)) samples)
      by (rewrite Kt; exact Hrest).
    destruct (IH h1 Hall1) as [Hc Hlog]. split; [exact Hc |].
    rewrite Hlog, Kc, Kmp. rewrite map_app. simpl. rewrite <- app_assoc. reflexivity.
Qed.
End BangBangBand.

Section BangBangBusy.
Context {F : Type} {num : PyNum F} {ord : PyNumOrder F}.
Local Open Scope py_scope.

(** X8.  Whenever a BangBang heater reports busy after a sample (the
    temperature is below target - max_delta), it is heating, and the
    callback of that sample asked for max_power.  The band is not inverted:
    target - max_delta <= target + max_delta, as the floats compute them. *)
Theorem bangbang_busy_heats (c : ControlBangBang.t F) (h : Heater.t F)
    (read_time temp eventtime : F) :
  (Heater.target_temp h - ControlBangBang.max_delta c
   <=? Heater.target_temp h + ControlBangBang.max_delta c) = true ->
  let s' :=
    ControlBangBang.temperature_callback c (Heater.with_sample read_time temp h)
      read_time temp in
  ControlBangBang.check_busy (fst s') (snd s') eventtime = true ->
  ControlBangBang.heating (fst s') = true
  /\ hd_error (Heater.pwm_calls (snd s')) = Some (read_time, Heater.max_power h).
Proof using Type*.
  intros Hband s'. subst s'. unfold ControlBangBang.check_busy.
  unfold ControlBangBang.temperature_callback.
  set (hs := Heater.with_sample read_time temp h).
  assert (Hcalls : forall v, Heater.pwm_calls (snd (Heater.set_pwm hs read_time v))
                             = (read_time, v) :: Heater.pwm_calls hs)
    by (intros v; apply set_pwm_fields).
  assert (Hlast : forall v, Heater.last_temp (snd (Heater.set_pwm hs read_time v)) = temp)
    by (intros v; destruct (set_pwm_config hs read_time v)
                    as (_ & _ & _ & _ & _ & K & _); exact K).
  assert (Htgt : forall v, Heater.target_temp (snd (Heater.set_pwm hs read_time v))
                           = Heater.target_temp h)
    by (intros v; destruct (set_pwm_config hs read_time v)
                    as (_ & _ & _ & _ & _ & _ & _ & _ & K); exact K).
  change (Heater.target_temp hs) with (Heater.target_temp h).
  change (Heater.max_power hs) with (Heater.max_power h).
  assert (Hfar : (temp <? Heater.target_temp h - ControlBangBang.max_delta c) = true ->
                 (temp >=? Heater.target_temp h + ControlBangBang.max_delta c) = false
                 /\ (temp <=? Heater.target_temp h - ControlBangBang.max_delta c) = true).
  { intros Hlt. split; [| apply flt_fle, Hlt].
    destruct (temp >=? Heater.target_temp h + ControlBangBang.max_delta c) eqn:E;
      [| reflexivity].
    pose proof (fle_not_flt _ _ E) as Hn.
    rewrite (flt_fle_trans _ _ _ Hlt Hband) in Hn. discriminate Hn. }
  destruct (ControlBangBang.heating c) eqn:Hh; simpl.
  - destruct (temp >=? Heater.target_temp h + ControlBangBang.max_delta c) eqn:E;
      simpl; rewrite ?Hh; simpl; rewrite Hlast, Htgt; intros Hbusy.
    + destruct (Hfar Hbusy) as [E' _]. congruence.
    + split; [first [reflexivity | exact Hh] |]. rewrite Hcalls. reflexivity.
  - destruct (temp <=? Heater.target_temp h - ControlBangBang.max_delta c) eqn:E;
      simpl; rewrite ?Hh; simpl; rewrite Hlast, Htgt; intros Hbusy.
    + split; [first [reflexivity | exact Hh] |]. rewrite Hcalls. reflexivity.
    + destruct (Hfar Hbusy) as [_ E']. congruence.
Qed.
End BangBangBusy.

(** ** PID: the constructor and the stored integral *)

Section PIDRun.
Context {F : Type} {num : PyNum F} {ord : PyNumOrder F} {libm : PyMath F}.
Local Open Scope py_scope.

(** X9.  The constructor divides by Ki = pid_Ki / 255.  It raises
    ZeroDivisionError exactly when that quotient is zero (pid_Ki is 0, or so
    small that the quotient rounds to 0); otherwise it returns the algorithm
    with the three gains scaled by 1/255, temp_integ_max = imax / Ki where
    imax is pid_integral_max or, by default, the heater's max_power, and a
    cleared history. *)
Theorem pid_init_zero_Ki (h : Heater.t F) (pid_Kp pid_Ki pid_Kd pid_deriv_time : F)
    (pid_integral_max : option F) :
  (Heater.PID_PARAM_BASE (F := F) =? lit 0) = false ->
  ControlPID.init h pid_Kp pid_Ki pid_Kd pid_deriv_time pid_integral_max
  = if fquot pid_Ki Heater.PID_PARAM_BASE =? lit 0
    then Raise ZeroDivisionError
    else Ok {| ControlPID.Kp := fquot pid_Kp Heater.PID_PARAM_BASE;
               ControlPID.Ki := fquot pid_Ki Heater.PID_PARAM_BASE;
               ControlPID.Kd := fquot pid_Kd Heater.PID_PARAM_BASE;
               ControlPID.min_deriv_time := pid_deriv_time;
               ControlPID.temp_integ_max :=
                 fquot (default (Heater.max_power h) pid_integral_max)
                   (fquot pid_Ki Heater.PID_PARAM_BASE);
               ControlPID.prev_temp := Heater.AMBIENT_TEMP;
               ControlPID.prev_temp_time := lit 0;
               ControlPID.prev_temp_deriv := lit 0;
               ControlPID.prev_temp_integ := lit 0 |}.
Proof.
  intros Hbase. unfold ControlPID.init, py_div. rewrite Hbase. simpl.
  destruct (fquot pid_Ki Heater.PID_PARAM_BASE =? lit 0); reflexivity.
Qed.

(** The settings of [c], and an integral within [0, temp_integ_max]. *)
Definition pid_sound (c c' : ControlPID.t F) : Prop :=
  ControlPID.Kp c' = ControlPID.Kp c
  /\ ControlPID.Ki c' = ControlPID.Ki c
  /\ ControlPID.Kd c' = ControlPID.Kd c
  /\ ControlPID.min_deriv_time c' = ControlPID.min_deriv_time c
  /\ ControlPID.temp_integ_max c' = ControlPID.temp_integ_max c
  /\ within (lit 0) (ControlPID.temp_integ_max c) (ControlPID.prev_temp_integ c').

Lemma pid_callback_sound (c c' : ControlPID.t F) (h : Heater.t F)
    (read_time temp : F) :
  (lit 0 <=? ControlPID.temp_integ_max c) = true ->
  pid_sound c c' ->
  pid_sound c
    (fst (final_state (ControlPID.temperature_callback c' h read_time temp))).
Proof using Type*.
  intros Hmax (H1 & H2 & H3 & H4 & H5 & H6).
  unfold ControlPID.temperature_callback.
  destruct (if _ : bool then _ else _); simpl.
  - unfold pid_sound. simpl. repeat split; try assumption;
      destruct (_ =? _); try apply H6;
      rewrite H5; apply py_clamp_within, Hmax.
  - repeat split; try assumption; apply H6.
Qed.

Lemma pid_run_sound (c : ControlPID.t F) (evs : list (event F)) :
  (lit 0 <=? ControlPID.temp_integ_max c) = true ->
  forall o : HeaterObj.t F,
    (exists c', HeaterObj.control o = CPID c' /\ pid_sound c c') ->
    exists c', HeaterObj.control (final_state (HeaterObj.run o evs)) = CPID c'
               /\ pid_sound c c'.
Proof using Type*.
  intros Hmax.
  induction evs as [|[curtime read_time temp|print_time degrees] evs IH];
    intros o (c' & Hc & Hs); simpl.
  - exists c'. auto.
  - unfold HeaterObj.temperature_callback. rewrite Hc.
    pose proof (pid_callback_sound c c'
                  (Heater.with_sample read_time temp (HeaterObj.heater o))
                  read_time temp Hmax Hs) as Hs'.
    destruct (ControlPID.temperature_callback _ _ _ _) as [a s|e s]; simpl in *.
    + apply IH. exists (fst s). auto.
    + exists (fst s). auto.
  - apply IH. exists c'. split; [| exact Hs].
    unfold HeaterObj.set_temp. destruct (Heater.set_temp _ _ _); exact Hc.
Qed.

(** X10.  Anti-windup holds over whole runs.  A PID heater whose temp_integ_max is
    at least 0 and whose stored integral starts within [0, temp_integ_max]
    (the constructor starts it at 0) still has a PID algorithm with the same
    gains and limits after any samples and [set_temp] commands, and its
    stored integral is within [0, temp_integ_max]. *)
Theorem pid_integral_bounded (c : ControlPID.t F) (h : Heater.t F)
    (evs : list (event F)) :
  (lit 0 <=? ControlPID.temp_integ_max c) = true ->
  (lit 0 <=? ControlPID.prev_temp_integ c) = true ->
  (ControlPID.prev_temp_integ c <=? ControlPID.temp_integ_max c) = true ->
  exists c' : ControlPID.t F,
    HeaterObj.control
      (final_state
         (HeaterObj.run {| HeaterObj.heater := h; HeaterObj.control := CPID c |} evs))
    = CPID c'
    /\ ControlPID.Kp c' = ControlPID.Kp c
    /\ ControlPID.Ki c' = ControlPID.Ki c
    /\ ControlPID.Kd c' = ControlPID.Kd c
    /\ ControlPID.min_deriv_time c' = ControlPID.min_deriv_time c
    /\ ControlPID.temp_integ_max c' = ControlPID.temp_integ_max c
    /\ (lit 0 <=? ControlPID.prev_temp_integ c') = true
    /\ (ControlPID.prev_temp_integ c' <=? ControlPID.temp_integ_max c) = true.
Proof using Type*.
  intros Hmax Hlo Hhi.
  destruct (pid_run_sound c evs Hmax
              {| HeaterObj.heater := h; HeaterObj.control := CPID c |})
    as (c' & Hc & H1 & H2 & H3 & H4 & H5 & H6 & H7).
  - exists c. split; [reflexivity |]. repeat split; assumption.
  - exists c'. repeat split; assumption.
Qed.
End PIDRun.

(** ** FOPDT: what a callback leaves as it is *)

Section FOPDTFrame.
Context {F : Type} {num : PyNum F} {libm : PyMath F}.
Local Open Scope py_scope.
Local Open Scope py_monad_scope.

(** From [c] to [c']: the model's parameters, start_time, Kp and
    prev_temp_time are the same, a fault noted stays noted, and
    first_set_temp, once false, stays false. *)
Definition fopdt_frame (c c' : ControlFOPDT.t F) : Prop :=
  ControlFOPDT.gain c' = ControlFOPDT.gain c
  /\ ControlFOPDT.inv_gain c' = ControlFOPDT.inv_gain c
  /\ ControlFOPDT.inv_time_constant c' = ControlFOPDT.inv_time_constant c
  /\ ControlFOPDT.inv_delay c' = ControlFOPDT.inv_delay c
  /\ ControlFOPDT.start_time c' = ControlFOPDT.start_time c
  /\ ControlFOPDT.Kp c' = ControlFOPDT.Kp c
  /\ ControlFOPDT.prev_temp_time c' = ControlFOPDT.prev_temp_time c
  /\ (ControlFOPDT.did_fault c = true -> ControlFOPDT.did_fault c' = true)
  /\ (ControlFOPDT.first_set_temp c = false -> ControlFOPDT.first_set_temp c' = false).

Lemma fopdt_frame_refl (c : ControlFOPDT.t F) : fopdt_frame c c.
Proof. unfold fopdt_frame. tauto. Qed.

Lemma fopdt_frame_trans (c1 c2 c3 : ControlFOPDT.t F) :
  fopdt_frame c1 c2 -> fopdt_frame c2 c3 -> fopdt_frame c1 c3.
Proof.
  unfold fopdt_frame. intros (A1 & A2 & A3 & A4 & A5 & A6 & A7 & A8 & A9)
    (B1 & B2 & B3 & B4 & B5 & B6 & B7 & B8 & B9).
  repeat split; try congruence; auto.
Qed.

(** [m] changes the algorithm object within the frame, whether it returns or
    raises. *)
Definition framed {A : Type} (m : M (ControlFOPDT.St (F := F)) A) : Prop :=
  forall s, fopdt_frame (fst s) (fst (final_state (m s))).

Lemma framed_ret {A : Type} (a : A) : framed (ret a).
Proof. intros s. apply fopdt_frame_refl. Qed.

Lemma framed_try {A : Type} (r : result A) : framed (try r).
Proof. intros s. unfold try. destruct r; apply fopdt_frame_refl. Qed.

Lemma framed_bind {A B : Type} (m : M ControlFOPDT.St A)
    (k : A -> M ControlFOPDT.St B) :
  framed m -> (forall a, framed (k a)) -> framed (bind m k).
Proof.
  intros Hm Hk s. unfold bind. specialize (Hm s).
  destruct (m s) as [a s'|e s']; simpl in *; [| exact Hm].
  eapply fopdt_frame_trans; [exact Hm | apply Hk].
Qed.

Lemma framed_self {B : Type} (k : ControlFOPDT.t F -> M ControlFOPDT.St B) :
  (forall self, framed (k self)) -> framed (bind ControlFOPDT.self_ k).
Proof. intros Hk s. unfold bind. simpl. apply Hk. Qed.

Lemma framed_heater {B : Type} (k : Heater.t F -> M ControlFOPDT.St B) :
  (forall h, framed (k h)) -> framed (bind ControlFOPDT.heater_ k).
Proof. intros Hk s. unfold bind. simpl. apply Hk. Qed.

Lemma framed_if {A : Type} (b : bool) (m1 m2 : M ControlFOPDT.St A) :
  framed m1 -> framed m2 -> framed (if b then m1 else m2).
Proof. destruct b; auto. Qed.

Lemma framed_assign (f : ControlFOPDT.t F -> ControlFOPDT.t F) :
  (forall c, fopdt_frame c (f c)) -> framed (ControlFOPDT.assign f).
Proof. intros Hf s. apply Hf. Qed.

Lemma framed_heater_set_pwm (read_time value : F) :
  framed (ControlFOPDT.heater_set_pwm read_time value).
Proof.
  intros s. unfold ControlFOPDT.heater_set_pwm.
  destruct (Heater.set_pwm _ _ _). apply fopdt_frame_refl.
Qed.

Ltac framed_setter :=
  apply framed_assign; intros ?; unfold fopdt_frame; simpl; tauto.

Ltac framed_step :=
  first
    [ apply framed_ret | apply framed_try | framed_setter
    | apply framed_heater_set_pwm
    | apply framed_self; intros ? | apply framed_heater; intros ?
    | apply framed_if | apply framed_bind; [| intros ?] ].

Lemma framed_calc_model_temp (read_time : F) :
  framed (ControlFOPDT.calc_model_temp read_time).
Proof. unfold ControlFOPDT.calc_model_temp. repeat framed_step. Qed.

Lemma framed_note_temperature (read_time temp : F) :
  framed (ControlFOPDT.note_temperature read_time temp).
Proof.
  unfold ControlFOPDT.note_temperature.
  repeat first [ apply framed_calc_model_temp | framed_step ].
Qed.

Lemma framed_note_first_temp (curtime : F) :
  framed (ControlFOPDT.note_first_temp curtime).
Proof. unfold ControlFOPDT.note_first_temp. repeat framed_step. Qed.

Lemma framed_set_pwm (read_time value : F) :
  framed (ControlFOPDT.set_pwm read_time value).
Proof.
  unfold ControlFOPDT.set_pwm.
  repeat first [ apply framed_calc_model_temp | framed_step ].
Qed.

Lemma framed_temperature_callback (curtime read_time temp : F) :
  framed (ControlFOPDT.temperature_callback curtime read_time temp).
Proof.
  unfold ControlFOPDT.temperature_callback.
  repeat first
    [ apply framed_note_first_temp | apply framed_note_temperature
    | apply framed_set_pwm | framed_step ].
Qed.

Lemma fopdt_run_framed (c : ControlFOPDT.t F) (evs : list (event F)) :
  forall o : HeaterObj.t F,
    (exists c', HeaterObj.control o = CFOPDT c' /\ fopdt_frame c c') ->
    exists c', HeaterObj.control (final_state (HeaterObj.run o evs)) = CFOPDT c'
               /\ fopdt_frame c c'.
Proof.
  induction evs as [|[curtime read_time temp|print_time degrees] evs IH];
    intros o (c' & Hc & Hf); simpl.
  - exists c'. auto.
  - unfold HeaterObj.temperature_callback. rewrite Hc.
    pose proof (framed_temperature_callback curtime read_time temp
                  (c', Heater.with_sample read_time temp (HeaterObj.heater o)))
      as Hs.
    destruct (ControlFOPDT.temperature_callback _ _ _ _) as [a s|e s]; simpl in *.
    + apply IH. exists (fst s). split; [reflexivity |].
      eapply fopdt_frame_trans; eassumption.
    + exists (fst s). split; [reflexivity |].
      eapply fopdt_frame_trans; eassumption.
  - apply IH. exists c'. split; [| exact Hf].
    unfold HeaterObj.set_temp. destruct (Heater.set_temp _ _ _); exact Hc.
Qed.

(** X11.  Over any run of an FOPDT heater, returning or cut short by an exception
    of the model's arithmetic: the algorithm is still FOPDT with the same
    gain, inverse gain, inverse time constant, inverse delay, start time and
    Kp; prev_temp_time is never written (the slope filter takes its time
    difference from the value the constructor set); did_fault, once set, is
    never cleared; and first_set_temp, once cleared, is never set again. *)
Theorem fopdt_frame_run (c : ControlFOPDT.t F) (h : Heater.t F)
    (evs : list (event F)) :
  exists c' : ControlFOPDT.t F,
    HeaterObj.control
      (final_state
         (HeaterObj.run {| HeaterObj.heater := h; HeaterObj.control := CFOPDT c |}
            evs))
    = CFOPDT c'
    /\ ControlFOPDT.gain c' = ControlFOPDT.gain c
    /\ ControlFOPDT.inv_gain c' = ControlFOPDT.inv_gain c
    /\ ControlFOPDT.inv_time_constant c' = ControlFOPDT.inv_time_constant c
    /\ ControlFOPDT.inv_delay c' = ControlFOPDT.inv_delay c
    /\ ControlFOPDT.start_time c' = ControlFOPDT.start_time c
    /\ ControlFOPDT.Kp c' = ControlFOPDT.Kp c
    /\ ControlFOPDT.prev_temp_time c' = ControlFOPDT.prev_temp_time c
    /\ (ControlFOPDT.did_fault c = true -> ControlFOPDT.did_fault c' = true)
    /\ (ControlFOPDT.first_set_temp c = false ->
        ControlFOPDT.first_set_temp c' = false).
Proof.
  apply (fopdt_run_framed c evs
           {| HeaterObj.heater := h; HeaterObj.control := CFOPDT c |}).
  exists c. split; [reflexivity | apply fopdt_frame_refl].
Qed.

(** *** The model's record of the power *)

Lemma bind_return {S A B : Type} (m : M S A) (k : A -> M S B) (s s' : S) (b : B) :
  bind m k s = Return b s' ->
  exists a s1, m s = Return a s1 /\ k a s1 = Return b s'.
Proof.
  unfold bind. destruct (m s) as [a s1|e s1]; [| discriminate].
  intros Hk. exists a, s1. auto.
Qed.

(** The answer of [Heater.set_pwm] carries the cached value. *)
Lemma set_pwm_answer (h : Heater.t F) (read_time value : F) :
  snd (fst (Heater.set_pwm h read_time value))
  = Heater.last_pwm_value (snd (Heater.set_pwm h read_time value)).
Proof.
  destruct (set_pwm_cases h read_time value) as [[_ ->]|[_ ->]]; reflexivity.
Qed.

Lemma fopdt_set_pwm_returns (read_time value : F) (s s' : ControlFOPDT.St)
    (a : unit) :
  ControlFOPDT.set_pwm read_time value s = Return a s' ->
  ControlFOPDT.next_pwm (fst s') = Heater.last_pwm_value (snd s')
  /\ ControlFOPDT.next_pwm_time (fst s')
     = fst (fst (Heater.set_pwm (snd s) read_time value))
  /\ snd s' = snd (Heater.set_pwm (snd s) read_time value).
Proof.
  unfold ControlFOPDT.set_pwm. intros H.
  apply bind_return in H. destruct H as (r & s1 & H1 & H).
  apply bind_return in H. destruct H as (self1 & s1' & Hself & H).
  inversion Hself; subst self1 s1'; clear Hself.
  apply bind_return in H. destruct H as (u & s2 & H2 & H).
  unfold ControlFOPDT.heater_set_pwm in H1.
  pose proof (set_pwm_answer (snd s) read_time value) as Hans.
  destruct (Heater.set_pwm (snd s) read_time value) as [r0 h1] eqn:Eset.
  inversion H1; subst r s1; clear H1. simpl in *.
  assert (Hh2 : snd s2 = h1).
  { assert (K : keeps (fun h => h = h1)
                  (if negb (ControlFOPDT.last_pwm (fst s) =? ControlFOPDT.next_pwm (fst s))
                   then
                     bind (ControlFOPDT.calc_model_temp
                             (ControlFOPDT.next_pwm_time (fst s)))
                       (fun v =>
                          bind (ControlFOPDT.assign (ControlFOPDT.with_model_temp v))
                            (fun _ =>
                               bind (ControlFOPDT.assign
                                       (ControlFOPDT.with_last_pwm
                                          (ControlFOPDT.next_pwm (fst s))))
                                 (fun _ =>
                                    ControlFOPDT.assign
                                      (ControlFOPDT.with_last_pwm_time
                                         (ControlFOPDT.next_pwm_time (fst s))))))
                   else ret tt)).
    { apply keeps_if; [| apply keeps_ret].
      apply keeps_bind; [apply keeps_calc_model_temp | intros v].
      apply keeps_bind; [apply keeps_assign | intros _].
      apply keeps_bind; [apply keeps_assign | intros _]. apply keeps_assign. }
    specialize (K (fst s, h1) eq_refl). rewrite H2 in K. exact K. }
  unfold bind, ControlFOPDT.assign, modify in H. simpl in H.
  inversion H; subst s'; clear H. simpl. rewrite Hh2. auto.
Qed.

(** X12.  When a callback of an FOPDT heater returns, the algorithm's next_pwm is
    the heater's last_pwm_value: the model is fed the power the driver was
    last sent, not the power the callback asked for, also when the call was
    debounced. *)
Theorem fopdt_next_pwm_is_cached (c : ControlFOPDT.t F) (h : Heater.t F)
    (curtime read_time temp : F) (o' : HeaterObj.t F) (a : unit) :
  HeaterObj.temperature_callback
    {| HeaterObj.heater := h; HeaterObj.control := CFOPDT c |} curtime read_time temp
  = Return a o' ->
  exists c' : ControlFOPDT.t F,
    HeaterObj.control o' = CFOPDT c'
    /\ ControlFOPDT.next_pwm c' = Heater.last_pwm_value (HeaterObj.heater o').
Proof.
  unfold HeaterObj.temperature_callback. simpl.
  destruct (ControlFOPDT.temperature_callback _ _ _ _) as [a0 s|e s] eqn:E;
    [| discriminate].
  intros H. inversion H; subst; clear H. exists (fst s). split; [reflexivity |].
  unfold ControlFOPDT.temperature_callback in E.
  do 10 (apply bind_return in E; destruct E as (? & ? & _ & E)).
  apply fopdt_set_pwm_returns in E. apply E.
Qed.
End FOPDTFrame.

(** ** The bump test, phase by phase *)

Section BumpPhases.
Context {F : Type} {num : PyNum F} {libm : PyMath F}.
Local Open Scope py_scope.

(** What [ControlBumpTest.set_pwm] notes of a call with [value]: a value
    that differs from the last one is appended to pwm_samples with its time
    [read_time + pwm_delay] and becomes the last one. *)
Definition noted (self : ControlBumpTest.t F) (h : Heater.t F) (read_time value : F)
    (self' : ControlBumpTest.t F) : Prop :=
  ControlBumpTest.last_pwm self'
  = (if value !=? ControlBumpTest.last_pwm self
     then value else ControlBumpTest.last_pwm self)
  /\ ControlBumpTest.pwm_samples self'
     = (if value !=? ControlBumpTest.last_pwm self
        then ControlBumpTest.pwm_samples self
             ++ [(read_time + Heater.pwm_delay h, value)]
        else ControlBumpTest.pwm_samples self).

(** What every callback keeps, and what one that calls [set_pwm] with
    [value] does besides moving [state]. *)
Definition bump_called (self : ControlBumpTest.t F) (h : Heater.t F)
    (read_time value : F) (s' : ControlBumpTest.t F * Heater.t F) : Prop :=
  noted self h read_time value (fst s')
  /\ Heater.pwm_calls (snd s') = (read_time, value) :: Heater.pwm_calls h
  /\ Heater.max_power (snd s') = Heater.max_power h
  /\ Heater.pwm_delay (snd s') = Heater.pwm_delay h.

Ltac bump_heater_fields h rt v :=
  let K1 := fresh "K" in
  let K2 := fresh "K" in
  let K3 := fresh "K" in
  let K4 := fresh "K" in
  destruct (set_pwm_fields h rt v) as (K1 & K2 & K3 & K4);
  simpl in K1, K2, K3, K4.

Ltac bump_fields :=
  cbn [ControlBumpTest.state ControlBumpTest.last_pwm ControlBumpTest.temp_samples
       ControlBumpTest.pwm_samples ControlBumpTest.done_temperature
       ControlBumpTest.with_temp_samples ControlBumpTest.with_last_pwm
       ControlBumpTest.with_pwm_samples ControlBumpTest.with_state
       ControlBumpTest.with_done_temperature Heater.target_temp
       Heater.max_power Heater.pwm_delay Heater.pwm_calls
       Heater.with_target_temp fst snd].

Lemma bump_step_idle (self : ControlBumpTest.t F) (h : Heater.t F)
    (read_time temp : F) :
  ControlBumpTest.state self = 0%Z ->
  let s' := ControlBumpTest.temperature_callback self h read_time temp in
  ControlBumpTest.state (fst s')
  = (if (20 <=? length (ControlBumpTest.temp_samples self) + 1)%nat then 1 else 0)%Z
  /\ Heater.target_temp (snd s') = Heater.target_temp h
  /\ ControlBumpTest.done_temperature (fst s') = ControlBumpTest.done_temperature self
  /\ bump_called self h read_time (lit 0) s'.
Proof.
  intros Hst. unfold ControlBumpTest.temperature_callback, ControlBumpTest.set_pwm.
  cbv zeta. bump_fields. rewrite Hst. change (0 =? 0)%Z with true. cbv iota.
  bump_heater_fields h read_time (lit 0). unfold bump_called, noted.
  destruct (negb (lit 0 =? ControlBumpTest.last_pwm self)); bump_fields;
    rewrite length_app; change (length [(read_time, temp)]) with 1%nat;
    destruct (20 <=? _)%nat; bump_fields; rewrite ?Hst; auto 10.
Qed.

Lemma bump_step_heat (self : ControlBumpTest.t F) (h : Heater.t F)
    (read_time temp : F) :
  ControlBumpTest.state self = 1%Z ->
  (temp <? Heater.target_temp h) = true ->
  let s' := ControlBumpTest.temperature_callback self h read_time temp in
  ControlBumpTest.state (fst s') = 1%Z
  /\ Heater.target_temp (snd s') = Heater.target_temp h
  /\ ControlBumpTest.done_temperature (fst s') = ControlBumpTest.done_temperature self
  /\ bump_called self h read_time (Heater.max_power h) s'.
Proof.
  intros Hst Hlt. unfold ControlBumpTest.temperature_callback, ControlBumpTest.set_pwm.
  cbv zeta. bump_fields. rewrite Hst.
  change (1 =? 0)%Z with false. change (1 =? 1)%Z with true. cbv iota. rewrite Hlt.
  bump_heater_fields h read_time (Heater.max_power h). unfold bump_called, noted.
  destruct (negb (Heater.max_power h =? ControlBumpTest.last_pwm self)); bump_fields;
    auto 10.
Qed.

Lemma bump_step_cut (self : ControlBumpTest.t F) (h : Heater.t F)
    (read_time temp : F) :
  ControlBumpTest.state self = 1%Z ->
  (temp <? Heater.target_temp h) = false ->
  let s' := ControlBumpTest.temperature_callback self h read_time temp in
  ControlBumpTest.state (fst s') = 2%Z
  /\ bump_called self h read_time (lit 0) s'.
Proof.
  intros Hst Hlt. unfold ControlBumpTest.temperature_callback, ControlBumpTest.set_pwm.
  cbv zeta. bump_fields. rewrite Hst.
  change (1 =? 0)%Z with false. change (1 =? 1)%Z with true. cbv iota. rewrite Hlt.
  bump_heater_fields h read_time (lit 0). unfold bump_called, noted.
  destruct (negb (lit 0 =? ControlBumpTest.last_pwm self)); bump_fields;
    rewrite ?Hst; auto 10.
Qed.

Lemma bump_step_cool (self : ControlBumpTest.t F) (h : Heater.t F)
    (read_time temp : F) :
  ControlBumpTest.state self = 2%Z ->
  let s' := ControlBumpTest.temperature_callback self h read_time temp in
  (ControlBumpTest.state (fst s') = 2%Z \/ ControlBumpTest.state (fst s') = 3%Z)
  /\ Heater.target_temp (snd s') = Heater.target_temp h
  /\ ControlBumpTest.done_temperature (fst s') = ControlBumpTest.done_temperature self
  /\ bump_called self h read_time (lit 0) s'.
Proof.
  intros Hst. unfold ControlBumpTest.temperature_callback, ControlBumpTest.set_pwm.
  cbv zeta. bump_fields. rewrite Hst.
  change (2 =? 0)%Z with false. change (2 =? 1)%Z with false.
  change (2 =? 2)%Z with true. cbv iota.
  bump_heater_fields h read_time (lit 0). unfold bump_called, noted.
  destruct (negb (lit 0 =? ControlBumpTest.last_pwm self)); bump_fields;
    destruct (temp <=? _); bump_fields; rewrite ?Hst; auto 10.
Qed.

Lemma bump_step_done (self : ControlBumpTest.t F) (h : Heater.t F)
    (read_time temp : F) :
  (3 <= ControlBumpTest.state self)%Z ->
  ControlBumpTest.temperature_callback self h read_time temp
  = (ControlBumpTest.with_temp_samples
       (ControlBumpTest.temp_samples self ++ [(read_time, temp)]) self, h).
Proof.
  intros Hst. unfold ControlBumpTest.temperature_callback.
  cbv zeta. bump_fields.
  destruct (Z.eqb_spec (ControlBumpTest.state self) 0); [lia |].
  destruct (Z.eqb_spec (ControlBumpTest.state self) 1); [lia |].
  destruct (Z.eqb_spec (ControlBumpTest.state self) 2); [lia |].
  reflexivity.
Qed.
End BumpPhases.

Section BumpSession.
Context {F : Type} {num : PyNum F} {ord : PyNumOrder F} {libm : PyMath F}.
Local Open Scope py_scope.

Lemma feed_cons (s : ControlBumpTest.t F * Heater.t F) (x : F * F)
    (samples : list (F * F)) :
  feed s (x :: samples)
  = feed (ControlBumpTest.temperature_callback (fst s) (snd s) (fst x) (snd x)) samples.
Proof. reflexivity. Qed.

Lemma feed_app (s : ControlBumpTest.t F * Heater.t F) (l1 l2 : list (F * F)) :
  feed s (l1 ++ l2) = feed (feed s l1) l2.
Proof. unfold feed. apply fold_left_app. Qed.

(** A call with 0 after a call with 0 notes nothing. *)
Lemma noted_zero (self self' : ControlBumpTest.t F) (h : Heater.t F) (read_time : F) :
  (lit 0 =? lit 0) = true ->
  ControlBumpTest.last_pwm self = lit 0 ->
  noted self h read_time (lit 0) self' ->
  ControlBumpTest.last_pwm self' = lit 0
  /\ ControlBumpTest.pwm_samples self' = ControlBumpTest.pwm_samples self.
Proof.
  intros Hz Hl [H1 H2]. rewrite Hl, Hz in H1, H2. simpl in H1, H2. auto.
Qed.

(** The heater is off and nothing was noted yet. *)
Definition quiet (self : ControlBumpTest.t F) : Prop :=
  (lit 0 =? lit 0) = true ->
  ControlBumpTest.last_pwm self = lit 0 /\ ControlBumpTest.pwm_samples self = [].

Definition zero_calls (old : list (F * F)) (h : Heater.t F) : Prop :=
  exists calls, Heater.pwm_calls h = calls ++ old
                /\ Forall (fun c => snd c = lit 0) calls.

Lemma zero_calls_cons (old : list (F * F)) (h h' : Heater.t F) (read_time : F) :
  zero_calls old h ->
  Heater.pwm_calls h' = (read_time, lit 0) :: Heater.pwm_calls h ->
  zero_calls old h'.
Proof.
  intros (calls & Hc & Hall) Hh. exists ((read_time, lit 0) :: calls). split.
  - rewrite Hh, Hc. reflexivity.
  - constructor; [reflexivity | exact Hall].
Qed.

(** Idle: fewer than 20 samples recorded. *)
Lemma idle_feed (samples : list (F * F)) :
  forall s : ControlBumpTest.t F * Heater.t F,
    ControlBumpTest.state (fst s) = 0%Z ->
    (length (ControlBumpTest.temp_samples (fst s)) + length samples < 20)%nat ->
    let s' := feed s samples in
    ControlBumpTest.state (fst s') = 0%Z
    /\ Heater.target_temp (snd s') = Heater.target_temp (snd s)
    /\ Heater.max_power (snd s') = Heater.max_power (snd s)
    /\ Heater.pwm_delay (snd s') = Heater.pwm_delay (snd s)
    /\ Heater.pwm_calls (snd s')
       = map (fun x => (fst x, lit 0)) (rev samples) ++ Heater.pwm_calls (snd s)
    /\ (quiet (fst s) -> quiet (fst s')).
Proof.
  induction samples as [|x samples IH]; intros s Hst Hlen.
  - simpl. auto 10.
  - rewrite feed_cons. simpl in Hlen.
    destruct (bump_step_idle (fst s) (snd s) (fst x) (snd x) Hst)
      as (H1 & H2 & _ & Hn & Hc & Hm & Hd).
    set (s1 := ControlBumpTest.temperature_callback (fst s) (snd s) (fst x) (snd x))
      in *.
    destruct (Nat.leb_spec 20 (length (ControlBumpTest.temp_samples (fst s)) + 1));
      [lia |].
    assert (Hts : length (ControlBumpTest.temp_samples (fst s1))
                  = (length (ControlBumpTest.temp_samples (fst s)) + 1)%nat).
    { destruct (bump_callback_state (fst s) (snd s) (fst x) (snd x)) as [_ E].
      fold s1 in E. simpl in E. rewrite E, length_app. reflexivity. }
    destruct (IH s1 H1 ltac:(lia)) as (I1 & I2 & I3 & I4 & I5 & I6).
    cbv zeta. do 4 (split; [congruence |]). split.
    + rewrite I5, Hc. simpl. rewrite map_app. simpl. rewrite <- app_assoc. reflexivity.
    + intros Hq. apply I6. intros Hz. destruct (Hq Hz) as [Q1 Q2].
      destruct (noted_zero _ _ _ _ Hz Q1 Hn) as [N1 N2]. split; congruence.
Qed.

(** The 20th sample ends Idle. *)
Lemma idle_end (s : ControlBumpTest.t F * Heater.t F) (samples : list (F * F)) :
  ControlBumpTest.state (fst s) = 0%Z ->
  (length (ControlBumpTest.temp_samples (fst s)) + length samples = 20)%nat ->
  samples <> [] ->
  let s' := feed s samples in
  ControlBumpTest.state (fst s') = 1%Z
  /\ Heater.target_temp (snd s') = Heater.target_temp (snd s)
  /\ Heater.max_power (snd s') = Heater.max_power (snd s)
  /\ Heater.pwm_delay (snd s') = Heater.pwm_delay (snd s)
  /\ Heater.pwm_calls (snd s')
     = map (fun x => (fst x, lit 0)) (rev samples) ++ Heater.pwm_calls (snd s)
  /\ (quiet (fst s) -> quiet (fst s')).
Proof.
  intros Hst Hlen Hne.
  destruct (exists_last Hne) as (l & x & ->).
  rewrite length_app in Hlen. simpl in Hlen.
  destruct (idle_feed l s Hst ltac:(lia)) as (I1 & I2 & I3 & I4 & I5 & I6).
  cbv zeta. rewrite feed_snoc.
  destruct (bump_step_idle (fst (feed s l)) (snd (feed s l)) (fst x) (snd x) I1)
    as (H1 & H2 & _ & Hn & Hc & Hm & Hd).
  rewrite (feed_temp_samples l s), length_app in H1.
  destruct (Nat.leb_spec 20
              (length (ControlBumpTest.temp_samples (fst s)) + length l + 1));
    [| lia].
  do 4 (split; [congruence |]). split.
  - rewrite Hc, I5, rev_app_distr. reflexivity.
  - intros Hq Hz. destruct (I6 Hq Hz) as [Q1 Q2].
    destruct (noted_zero _ _ _ _ Hz Q1 Hn) as [N1 N2]. split; congruence.
Qed.

(** X13.  The bump test keeps the heater off for its first 20 samples, whatever
    they are: the state is 0 (Idle) after fewer than 20 samples and 1
    (RampUp) after exactly 20; each of these callbacks calls [set_pwm] with
    0 and leaves the target alone.  Power is first asked for by the 21st
    callback. *)
Theorem bump_idle_phase (h : Heater.t F) (samples : list (F * F)) :
  let s := feed (ControlBumpTest.init, h) samples in
  ((length samples < 20)%nat -> ControlBumpTest.state (fst s) = 0%Z)
  /\ ((length samples = 20)%nat -> ControlBumpTest.state (fst s) = 1%Z)
  /\ ((length samples <= 20)%nat ->
      Heater.target_temp (snd s) = Heater.target_temp h
      /\ Heater.pwm_calls (snd s)
         = map (fun x => (fst x, lit 0)) (rev samples) ++ Heater.pwm_calls h).
Proof.
  cbv zeta.
  assert (Hlt : (length samples < 20)%nat ->
                ControlBumpTest.state (fst (feed (ControlBumpTest.init, h) samples)) = 0%Z
                /\ Heater.target_temp (snd (feed (ControlBumpTest.init, h) samples))
                   = Heater.target_temp h
                /\ Heater.pwm_calls (snd (feed (ControlBumpTest.init, h) samples))
                   = map (fun x => (fst x, lit 0)) (rev samples) ++ Heater.pwm_calls h).
  { intros Hl.
    destruct (idle_feed samples (ControlBumpTest.init, h) eq_refl Hl)
      as (I1 & I2 & _ & _ & I5 & _). auto. }
  assert (Heq : (length samples = 20)%nat ->
                ControlBumpTest.state (fst (feed (ControlBumpTest.init, h) samples)) = 1%Z
                /\ Heater.target_temp (snd (feed (ControlBumpTest.init, h) samples))
                   = Heater.target_temp h
                /\ Heater.pwm_calls (snd (feed (ControlBumpTest.init, h) samples))
                   = map (fun x => (fst x, lit 0)) (rev samples) ++ Heater.pwm_calls h).
  { intros Hl.
    destruct (idle_end (ControlBumpTest.init, h) samples eq_refl Hl)
      as (I1 & I2 & _ & _ & I5 & _); [| auto].
    intros ->. discriminate. }
  split; [intros Hl; apply Hlt, Hl |]. split; [intros Hl; apply Heq, Hl |].
  intros Hle. destruct (Nat.eq_dec (length samples) 20) as [E|E].
  - apply Heq, E.
  - apply Hlt. lia.
Qed.

(** From Cooling on. *)
Lemma cooling_feed (samples : list (F * F)) :
  forall s : ControlBumpTest.t F * Heater.t F,
    (2 <= ControlBumpTest.state (fst s))%Z ->
    let s' := feed s samples in
    (2 <= ControlBumpTest.state (fst s'))%Z
    /\ Heater.target_temp (snd s') = Heater.target_temp (snd s)
    /\ ControlBumpTest.done_temperature (fst s')
       = ControlBumpTest.done_temperature (fst s)
    /\ zero_calls (Heater.pwm_calls (snd s)) (snd s')
    /\ ((lit 0 =? lit 0) = true -> ControlBumpTest.last_pwm (fst s) = lit 0 ->
        ControlBumpTest.last_pwm (fst s') = lit 0
        /\ ControlBumpTest.pwm_samples (fst s') = ControlBumpTest.pwm_samples (fst s)).
Proof.
  induction samples as [|x samples IH]; intros s Hst.
  - simpl. do 3 (split; [auto; lia |]). split; [| auto].
    exists []. split; [reflexivity | constructor].
  - rewrite feed_cons.
    set (s1 := ControlBumpTest.temperature_callback (fst s) (snd s) (fst x) (snd x)).
    assert (H1 : (2 <= ControlBumpTest.state (fst s1))%Z
                 /\ Heater.target_temp (snd s1) = Heater.target_temp (snd s)
                 /\ ControlBumpTest.done_temperature (fst s1)
                    = ControlBumpTest.done_temperature (fst s)
                 /\ zero_calls (Heater.pwm_calls (snd s)) (snd s1)
                 /\ ((lit 0 =? lit 0) = true ->
                     ControlBumpTest.last_pwm (fst s) = lit 0 ->
                     ControlBumpTest.last_pwm (fst s1) = lit 0
                     /\ ControlBumpTest.pwm_samples (fst s1)
                        = ControlBumpTest.pwm_samples (fst s))).
    { destruct (Z.eq_dec (ControlBumpTest.state (fst s)) 2%Z) as [E|E].
      - destruct (bump_step_cool (fst s) (snd s) (fst x) (snd x) E)
          as (K1 & K2 & K3 & Kn & Kc & _). fold s1 in K1, K2, K3, Kn, Kc.
        split; [destruct K1 as [-> | ->]; lia |].
        do 2 (split; [assumption |]). split.
        + exists [(fst x, lit 0)]. split; [exact Kc |].
          constructor; [reflexivity | constructor].
        + intros Hz Hl. apply (noted_zero _ _ _ _ Hz Hl Kn).
      - subst s1.
        rewrite (bump_step_done (fst s) (snd s) (fst x) (snd x) ltac:(lia)).
        simpl. do 3 (split; [auto; lia |]). split; [| auto].
        exists []. split; [reflexivity | constructor]. }
    destruct H1 as (K1 & K2 & K3 & (c1 & Kc & Kall) & K5).
    destruct (IH s1 K1) as (I1 & I2 & I3 & (c2 & Ic & Iall) & I5).
    cbv zeta. split; [assumption |]. do 2 (split; [congruence |]). split.
    + exists (c2 ++ c1). split.
      * rewrite Ic, Kc, app_assoc. reflexivity.
      * apply Forall_app. auto.
    + intros Hz Hl. destruct (K5 Hz Hl) as [L1 L2]. destruct (I5 Hz L1) as [M1 M2].
      split; congruence.
Qed.

(** X14.  Once RampUp is over (state 2 or 3) the bump test never heats again:
    every later call of [set_pwm] passes 0, and the target and
    done_temperature stay as RampUp's end left them. *)
Theorem bump_off_after_rampup (s : ControlBumpTest.t F * Heater.t F)
    (samples : list (F * F)) :
  (2 <= ControlBumpTest.state (fst s))%Z ->
  let s' := feed s samples in
  Heater.target_temp (snd s') = Heater.target_temp (snd s)
  /\ ControlBumpTest.done_temperature (fst s')
     = ControlBumpTest.done_temperature (fst s)
  /\ exists calls : list (F * F),
       Heater.pwm_calls (snd s') = calls ++ Heater.pwm_calls (snd s)
       /\ Forall (fun c => snd c = lit 0) calls.
Proof.
  intros Hst. destruct (cooling_feed samples s Hst) as (_ & H2 & H3 & H4 & _).
  cbv zeta. auto.
Qed.
End BumpSession.

Section BumpSamples.
Context {F : Type} {num : PyNum F} {ord : PyNumOrder F} {libm : PyMath F}.
Local Open Scope py_scope.

(** A session in which no callback asked for power. *)
Definition unheated (target : F) (old : list (F * F))
    (s : ControlBumpTest.t F * Heater.t F) : Prop :=
  (0 <= ControlBumpTest.state (fst s))%Z
  /\ ((ControlBumpTest.state (fst s) <= 1)%Z -> Heater.target_temp (snd s) = target)
  /\ ControlBumpTest.last_pwm (fst s) = lit 0
  /\ ControlBumpTest.pwm_samples (fst s) = []
  /\ zero_calls old (snd s).

Lemma unheated_step (target : F) (old : list (F * F))
    (s : ControlBumpTest.t F * Heater.t F) (read_time temp : F) :
  (lit 0 =? lit 0) = true ->
  (temp <? target) = false ->
  unheated target old s ->
  unheated target old
    (ControlBumpTest.temperature_callback (fst s) (snd s) read_time temp).
Proof.
  intros Hz Hge (H0 & Ht & Hl & Hp & Hc). unfold unheated.
  destruct (Z.eq_dec (ControlBumpTest.state (fst s)) 0%Z) as [E0|E0];
    [| destruct (Z.eq_dec (ControlBumpTest.state (fst s)) 1%Z) as [E1|E1];
       [| destruct (Z.eq_dec (ControlBumpTest.state (fst s)) 2%Z) as [E2|E2]]].
  - destruct (bump_step_idle (fst s) (snd s) read_time temp E0)
      as (K1 & K2 & _ & Kn & Kc & _).
    destruct (noted_zero _ _ _ _ Hz Hl Kn) as [N1 N2].
    split; [rewrite K1; destruct (20 <=? _)%nat; lia |].
    split; [intros _; rewrite K2; apply Ht; lia |].
    split; [exact N1 |]. split; [congruence |].
    apply (zero_calls_cons old (snd s) _ read_time Hc Kc).
  - assert (Hlt : (temp <? Heater.target_temp (snd s)) = false)
      by (rewrite Ht by lia; exact Hge).
    destruct (bump_step_cut (fst s) (snd s) read_time temp E1 Hlt)
      as (K1 & Kn & Kc & _).
    destruct (noted_zero _ _ _ _ Hz Hl Kn) as [N1 N2].
    split; [rewrite K1; lia |]. split; [rewrite K1; lia |].
    split; [exact N1 |]. split; [congruence |].
    apply (zero_calls_cons old (snd s) _ read_time Hc Kc).
  - destruct (bump_step_cool (fst s) (snd s) read_time temp E2)
      as (K1 & _ & _ & Kn & Kc & _).
    destruct (noted_zero _ _ _ _ Hz Hl Kn) as [N1 N2].
    split; [destruct K1 as [-> | ->]; lia |].
    split; [destruct K1 as [-> | ->]; lia |].
    split; [exact N1 |]. split; [congruence |].
    apply (zero_calls_cons old (snd s) _ read_time Hc Kc).
  - rewrite (bump_step_done (fst s) (snd s) read_time temp ltac:(lia)). simpl.
    split; [exact H0 |]. split; [lia |]. auto.
Qed.

Lemma unheated_feed (target : F) (old : list (F * F)) (samples : list (F * F)) :
  (lit 0 =? lit 0) = true ->
  Forall (fun x => (snd x <? target) = false) samples ->
  forall s, unheated target old s -> unheated target old (feed s samples).
Proof.
  intros Hz Hall. induction Hall as [|x samples Hx _ IH]; intros s Hs.
  - exact Hs.
  - rewrite feed_cons. apply IH, unheated_step; assumption.
Qed.

(** X15.  A session whose temperatures are never below the target (the heater is
    already as hot as asked) never asks for power: every call of [set_pwm]
    passes 0, pwm_samples stays empty, and [calc_fopdt] on it raises
    IndexError, at its first line, leaving the object as it is. *)
Theorem bump_never_heated (h : Heater.t F) (samples : list (F * F)) :
  (lit 0 =? lit 0) = true ->
  Forall (fun x => (snd x <? Heater.target_temp h) = false) samples ->
  let s := feed (ControlBumpTest.init, h) samples in
  ControlBumpTest.pwm_samples (fst s) = []
  /\ (exists calls : list (F * F),
        Heater.pwm_calls (snd s) = calls ++ Heater.pwm_calls h
        /\ Forall (fun c => snd c = lit 0) calls)
  /\ forall coordinate_descent,
       ControlBumpTest.calc_fopdt coordinate_descent (fst s)
       = Raised IndexError (fst s).
Proof.
  intros Hz Hall.
  destruct (unheated_feed (Heater.target_temp h) (Heater.pwm_calls h) samples Hz Hall
              (ControlBumpTest.init, h)) as (_ & _ & _ & Hp & Hc).
  - split; [simpl; lia |]. split; [reflexivity |]. split; [reflexivity |].
    split; [reflexivity |]. exists []. split; [reflexivity | constructor].
  - cbv zeta. split; [exact Hp |]. split; [exact Hc |].
    intros cd. unfold ControlBumpTest.calc_fopdt, bind, get, try. rewrite Hp.
    reflexivity.
Qed.

(** RampUp below the target, after the first call with max_power. *)
Lemma heat_feed (target mp : F) (samples : list (F * F)) :
  (mp =? mp) = true ->
  Forall (fun x => (snd x <? target) = true) samples ->
  forall s : ControlBumpTest.t F * Heater.t F,
    ControlBumpTest.state (fst s) = 1%Z ->
    Heater.target_temp (snd s) = target ->
    Heater.max_power (snd s) = mp ->
    ControlBumpTest.last_pwm (fst s) = mp ->
    let s' := feed s samples in
    ControlBumpTest.state (fst s') = 1%Z
    /\ Heater.target_temp (snd s') = target
    /\ Heater.max_power (snd s') = mp
    /\ Heater.pwm_delay (snd s') = Heater.pwm_delay (snd s)
    /\ ControlBumpTest.last_pwm (fst s') = mp
    /\ ControlBumpTest.pwm_samples (fst s') = ControlBumpTest.pwm_samples (fst s).
Proof.
  intros Hmp Hall. induction Hall as [|x samples Hx _ IH]; intros s Hst Ht Hm Hl.
  - simpl. auto 10.
  - rewrite feed_cons.
    destruct (bump_step_heat (fst s) (snd s) (fst x) (snd x) Hst
                ltac:(rewrite Ht; exact Hx))
      as (K1 & K2 & _ & [Kn1 Kn2] & _ & Km & Kd).
    rewrite Hm, Hl, Hmp in Kn1, Kn2. simpl in Kn1, Kn2.
    set (s1 := ControlBumpTest.temperature_callback (fst s) (snd s) (fst x) (snd x))
      in *.
    assert (Ht1 : Heater.target_temp (snd s1) = target) by congruence.
    assert (Hm1 : Heater.max_power (snd s1) = mp) by congruence.
    destruct (IH s1 K1 Ht1 Hm1 Kn1) as (I1 & I2 & I3 & I4 & I5 & I6).
    cbv zeta. repeat split; congruence.
Qed.

(** X16.  A regular session: 20 Idle samples, RampUp samples below the target
    (at least one), the sample that ends RampUp, then any samples.  Its
    pwm_samples are exactly two: max_power at the time of the first RampUp
    sample + pwm_delay, and 0 at the time of the sample that ended RampUp +
    pwm_delay.  These are the entries [model_smoothed_fopdt] reads as the
    switch-on and switch-off.  max_power is above 0 and a number. *)
Theorem bump_pwm_samples (h : Heater.t F) (idle ramp rest : list (F * F))
    (first cut : F * F) :
  (lit 0 =? lit 0) = true ->
  (lit 0 <? Heater.max_power h) = true ->
  (Heater.max_power h =? Heater.max_power h) = true ->
  length idle = 20%nat ->
  Forall (fun x => (snd x <? Heater.target_temp h) = true) (first :: ramp) ->
  (snd cut <? Heater.target_temp h) = false ->
  let s := feed (ControlBumpTest.init, h) (idle ++ first :: ramp ++ cut :: rest) in
  ControlBumpTest.pwm_samples (fst s)
  = [(fst first + Heater.pwm_delay h, Heater.max_power h);
     (fst cut + Heater.pwm_delay h, lit 0)].
Proof using Type*.
  intros Hz Hpos Hmp Hlen Hramp Hcut. cbv zeta.
  inversion Hramp as [|x l Hfirst Hramp']; subst.
  destruct (flt_not_feq _ _ Hpos) as [Hne1 Hne2].
  (* Idle *)
  rewrite feed_app.
  destruct (idle_end (ControlBumpTest.init, h) idle eq_refl Hlen)
    as (I1 & I2 & I3 & I4 & _ & I6); [intros ->; discriminate |].
  destruct (I6 ltac:(intros _; split; reflexivity) Hz) as [Q1 Q2].
  set (s1 := feed (ControlBumpTest.init, h) idle) in *. simpl in I2, I3, I4.
  (* the first call with max_power *)
  rewrite feed_cons.
  destruct (bump_step_heat (fst s1) (snd s1) (fst first) (snd first) I1
              ltac:(rewrite I2; exact Hfirst))
    as (K1 & K2 & _ & [Kn1 Kn2] & _ & Km & Kd).
  rewrite I3, Q1, Hne2 in Kn1, Kn2. simpl in Kn1, Kn2. rewrite Q2, I4 in Kn2.
  set (s2 := ControlBumpTest.temperature_callback (fst s1) (snd s1) (fst first)
               (snd first)) in *.
  (* the rest of RampUp *)
  rewrite feed_app.
  assert (Ht2 : Heater.target_temp (snd s2) = Heater.target_temp h) by congruence.
  assert (Hm2 : Heater.max_power (snd s2) = Heater.max_power h) by congruence.
  destruct (heat_feed (Heater.target_temp h) (Heater.max_power h) ramp Hmp Hramp' s2
              K1 Ht2 Hm2 Kn1)
    as (R1 & R2 & R3 & R4 & R5 & R6).
  set (s3 := feed s2 ramp) in *.
  (* the end of RampUp *)
  rewrite feed_cons.
  destruct (bump_step_cut (fst s3) (snd s3) (fst cut) (snd cut) R1
              ltac:(rewrite R2; exact Hcut))
    as (C1 & [Cn1 Cn2] & _).
  rewrite R5, Hne1 in Cn1, Cn2. simpl in Cn1, Cn2.
  set (s4 := ControlBumpTest.temperature_callback (fst s3) (snd s3) (fst cut)
               (snd cut)) in *.
  (* Cooling and after *)
  assert (Hst4 : (2 <= ControlBumpTest.state (fst s4))%Z) by (rewrite C1; lia).
  destruct (cooling_feed rest s4 Hst4) as (_ & _ & _ & _ & L).
  destruct (L Hz Cn1) as [_ ->].
  rewrite Cn2, R6, Kn2, R4, Kd, I4. reflexivity.
Qed.

(** X17.  [model_smoothed_fopdt] needs both entries of pwm_samples: with fewer
    than two it raises IndexError, whatever the parameters.  When it
    returns, it gives one predicted temperature for each recorded sample, so
    that [least_squares_error] pairs every sample with a prediction. *)
Theorem model_smoothed_fopdt_shape (self : ControlBumpTest.t F)
    (gain time_constant delay : F) :
  ((length (ControlBumpTest.pwm_samples self) < 2)%nat ->
   ControlBumpTest.model_smoothed_fopdt self gain time_constant delay
   = Raise IndexError)
  /\ forall out : list F,
       ControlBumpTest.model_smoothed_fopdt self gain time_constant delay = Ok out ->
       (2 <= length (ControlBumpTest.pwm_samples self))%nat
       /\ length out = length (ControlBumpTest.temp_samples self).
Proof.
  assert (Hloop : forall samples on off g amb itc idl peak st lt out,
             ControlBumpTest.model_loop on off g amb itc idl peak samples st lt = Ok out ->
             length out = length samples).
  { induction samples as [|[time measured] samples IH]; intros on off g amb itc idl
      peak st lt out; simpl.
    - intros E. inversion E. reflexivity.
    - unfold rbind.
      destruct (if off <? time then _ else _) as [rel|]; [| discriminate].
      destruct (math_exp _) as [e|]; [| discriminate].
      destruct (ControlBumpTest.model_loop _ _ _ _ _ _ _ samples _ _) as [out'|] eqn:E;
        [| discriminate].
      intros E'. inversion E'. simpl. f_equal. apply (IH _ _ _ _ _ _ _ _ _ _ E). }
  unfold ControlBumpTest.model_smoothed_fopdt, py_index, rbind.
  destruct (ControlBumpTest.pwm_samples self) as [|on [|off l]]; simpl.
  - split; [reflexivity | discriminate].
  - split; [reflexivity | discriminate].
  - split; [lia |]. intros out.
    destruct (py_div (lit 1) time_constant) as [itc|]; [| discriminate].
    destruct (py_div (lit 1) delay) as [idl|]; [| discriminate].
    destruct (math_exp _) as [e|]; [| discriminate].
    intros E. split; [lia |]. apply (Hloop _ _ _ _ _ _ _ _ _ _ _ E).
Qed.
End BumpSamples.

(** ** Starting a calibration *)

Section Calibrate.
Context {F : Type} {num : PyNum F} {libm : PyMath F}.
Local Open Scope py_scope.

(** X18.  The start of HEATER_CALIBRATE.  With a target that [set_temp] accepts,
    the heater gets a fresh bump test and the target, and the algorithm it
    had is handed back for later.  With a target that [set_temp] refuses,
    heater_error is raised and the algorithm it had is put back; but its
    target is then 0, whatever it was before the command. *)
Theorem start_calibrate_outcome (o : HeaterObj.t F) (print_time target : F) :
  HeaterObj.start_calibrate o print_time target
  = if refused (Heater.min_temp (HeaterObj.heater o))
         (Heater.max_temp (HeaterObj.heater o)) target
    then Raised heater_error
           {| HeaterObj.heater := Heater.with_target_temp (lit 0) (HeaterObj.heater o);
              HeaterObj.control := HeaterObj.control o |}
    else Return (HeaterObj.control o)
           {| HeaterObj.heater := Heater.with_target_temp target (HeaterObj.heater o);
              HeaterObj.control := CBumpTest ControlBumpTest.init |}.
Proof.
  unfold HeaterObj.start_calibrate, HeaterObj.set_control, HeaterObj.set_temp,
    Heater.set_temp, refused. simpl.
  destruct (truthy target && _); reflexivity.
Qed.
End Calibrate.

(** ** The registry of heaters *)

Section Registry.
Variables Config Sensor Factory HeaterT World : Type.
Variable get_name : Config -> string.
Variable config_get : Config -> string -> PrinterHeaters.P Factory HeaterT World string.
Variable try_load_module :
  Config -> string -> PrinterHeaters.P Factory HeaterT World unit.
Variable call_factory :
  Factory -> Config -> PrinterHeaters.P Factory HeaterT World Sensor.
Variable new_heater :
  Config -> Sensor -> PrinterHeaters.P Factory HeaterT World HeaterT.

(** The name a heater is kept under. *)
Definition registered_name (heater_name : string) : string :=
  if String.eqb heater_name "extruder" then "extruder0" else heater_name.

Lemma registered_name_idem (heater_name : string) :
  registered_name (registered_name heater_name) = registered_name heater_name.
Proof.
  unfold registered_name.
  destruct (String.eqb heater_name "extruder") eqn:E; [reflexivity |].
  rewrite E. reflexivity.
Qed.

Lemma pbind_inr {A B : Type} (m : PrinterHeaters.P Factory HeaterT World A)
    (k : A -> PrinterHeaters.P Factory HeaterT World B) s s' (b : B) :
  PrinterHeaters.pbind _ _ _ m k s = (s', inr b) ->
  exists a s1, m s = (s1, inr a) /\ k a s1 = (s', inr b).
Proof.
  unfold PrinterHeaters.pbind. destruct (m s) as [s1 [e|a]]; [discriminate |].
  intros Hk. exists a, s1. auto.
Qed.

(** X19.  A heater that [setup_heater] returns can be looked up: under the name of
    its config section, and, when that name is extruder or extruder0, under
    both of these.  And the name was free when [setup_heater] was called. *)
Theorem setup_heater_registers (config : Config)
    (s s' : PrinterHeaters.t Factory HeaterT * World) (heater : HeaterT) :
  PrinterHeaters.setup_heater get_name config_get try_load_module call_factory
    new_heater config s
  = (s', inr heater) ->
  PrinterHeaters.lookup_heater (fst s') (get_name config) = inr heater
  /\ PrinterHeaters.lookup_heater (fst s') (registered_name (get_name config))
     = inr heater
  /\ (registered_name (get_name config) = "extruder0" ->
      PrinterHeaters.lookup_heater (fst s') "extruder" = inr heater)
  /\ PrinterHeaters.heaters (fst s) !! registered_name (get_name config) = None.
Proof.
  unfold PrinterHeaters.setup_heater. fold (registered_name (get_name config)).
  set (name := registered_name (get_name config)).
  intros H. apply pbind_inr in H. destruct H as (self & s0 & Hself & H).
  inversion Hself; subst self s0; clear Hself.
  destruct (decide (is_Some (PrinterHeaters.heaters (fst s) !! name))) as [Hin|Hnew];
    [discriminate |].
  do 4 (apply pbind_inr in H; destruct H as (? & ? & _ & H)).
  destruct (PrinterHeaters.sensors _ !! _) as [factory|]; [| discriminate].
  do 2 (apply pbind_inr in H; destruct H as (? & ? & _ & H)).
  inversion H; subst; clear H.
  assert (Hlook : forall (r : PrinterHeaters.t Factory HeaterT) n,
             registered_name n = name ->
             PrinterHeaters.lookup_heater
               {| PrinterHeaters.sensors := PrinterHeaters.sensors r;
                  PrinterHeaters.heaters :=
                    <[name := heater]> (PrinterHeaters.heaters r) |}
               n = inr heater).
  { intros r n Hn. unfold PrinterHeaters.lookup_heater. fold (registered_name n).
    rewrite Hn. simpl. rewrite lookup_insert_eq. reflexivity. }
  simpl. split; [apply Hlook; reflexivity |].
  split; [apply Hlook, registered_name_idem |].
  split; [intros Hn0; apply Hlook; rewrite Hn0; reflexivity |].
  destruct (PrinterHeaters.heaters (fst s) !! name) eqn:E; [| reflexivity].
  exfalso. apply Hnew. eauto.
Qed.

(** X20.  A second heater of a name is refused before anything is done: with the
    name taken, [setup_heater] raises config.error (Heater ... already
    registered) and leaves the registry and the rest of the printer as they
    were; no module is loaded and no sensor or heater made. *)
Theorem setup_heater_duplicate (config : Config)
    (s : PrinterHeaters.t Factory HeaterT * World) (heater : HeaterT) :
  PrinterHeaters.lookup_heater (fst s) (get_name config) = inr heater ->
  PrinterHeaters.setup_heater get_name config_get try_load_module call_factory
    new_heater config s
  = (s, inl (PrinterHeaters.config_error
               ("Heater " ++ registered_name (get_name config)
                ++ " already registered"))).
Proof.
  unfold PrinterHeaters.lookup_heater, PrinterHeaters.setup_heater.
  fold (registered_name (get_name config)).
  set (name := registered_name (get_name config)).
  destruct (PrinterHeaters.heaters (fst s) !! name) as [h0|] eqn:E; [| discriminate].
  intros _. unfold PrinterHeaters.pbind, PrinterHeaters.self_.
  destruct (decide (is_Some (PrinterHeaters.heaters (fst s) !! name))) as [Hin|Hnew].
  - reflexivity.
  - exfalso. apply Hnew. rewrite E. eauto.
Qed.
End Registry.

(** * The properties at work on binary64 *)

Section Witnesses.
Local Open Scope py_scope.

(** The three algorithms of heater.py, each on a run of samples after
    [set_temp]: the values passed to [set_pwm] lie in [0, max_power]. *)
Lemma commanded_power_within_bounds_witness :
  (lit 0 <=? Heater.max_power demo_heater) = true
  /\ (forall o : HeaterObj.t float,
        In o [demo_bangbang; demo_pid; demo_fopdt] ->
        exists calls : list (float * float),
          Heater.pwm_calls
            (HeaterObj.heater
               (final_state
                  (HeaterObj.run o
                     (demo_events 200 [25; 26; 27; 150; 199; 199.5; 200; 203; 197]%Q))))
          = calls ++ Heater.pwm_calls (HeaterObj.heater o)
          /\ Forall
               (fun c => (lit 0 <=? snd c) = true
                         /\ (snd c <=? Heater.max_power (HeaterObj.heater o)) = true)
               calls).
Proof.
  split; [reflexivity |].
  intros o [<-|[<-|[<-|[]]]];
    apply (commanded_power_within_bounds _ _); reflexivity.
Defined.

(** The target is 0 and the heater still runs at 0.5: the next call writes 0
    to the driver, whatever value it is given. *)
Lemma set_pwm_target_off_witness :
  let h := demo_heater_target_zero in
  let r := fst (Heater.set_pwm h (lit 3) (lit 0.8)) in
  let h' := snd (Heater.set_pwm h (lit 3) (lit 0.8)) in
  (Heater.target_temp h <=? lit 0) = true
  /\ r = (lit 3 + Heater.pwm_delay h, lit 0)
  /\ Heater.mcu_pwm h' = (lit 3 + Heater.pwm_delay h, lit 0) :: Heater.mcu_pwm h
  /\ Heater.last_pwm_value h' = lit 0
  /\ Heater.next_pwm_time h' = lit 3 + Heater.pwm_delay h + lit 0.75 * lit 5.0.
Proof.
  intros h r h'.
  assert (Ht : (Heater.target_temp h <=? lit 0) = true) by reflexivity.
  split; [exact Ht |].
  destruct (set_pwm_target_off h (lit 3) (lit 0.8) Ht) as (_ & Hw & _).
  apply Hw. reflexivity.
Defined.

(** C2 as the specification words it fails.  The heater runs at power 0.03
    when its target is set to 0.  The next call replaces its argument 0.8 by
    0, which is within 0.05 of the cached 0.03, and the time is before
    next_pwm_time: the call is suppressed.  Nothing is forwarded to the
    driver, whose last command stays 0.03, and last_pwm_value is 0.03 after
    the call, not 0. *)
Lemma set_pwm_target_off_counterexample :
  let h := final_state (Heater.set_temp demo_heater (lit 0) (lit 200)) in
  let h := snd (Heater.set_pwm h (lit 1) (lit 0.5)) in
  let h := snd (Heater.set_pwm h (lit 2) (lit 0.03)) in
  let h := final_state (Heater.set_temp h (lit 2) (lit 0)) in
  let r := fst (Heater.set_pwm h (lit 3) (lit 0.8)) in
  let h' := snd (Heater.set_pwm h (lit 3) (lit 0.8)) in
  (Heater.target_temp h <=? lit 0) = true
  /\ Heater.mcu_pwm h' = [(lit 2.3, lit 0.03); (lit 1.3, lit 0.5)]
  /\ r = (lit 0, lit 0.03)
  /\ Heater.last_pwm_value h' = lit 0.03
  /\ (Heater.last_pwm_value h' =? lit 0) = false
  /\ ~ Heater.last_pwm_value h' = lit 0.
Proof.
  vm_compute. repeat split.
  intros E.
  assert (H : PrimFloat.eqb 0.03 0 = false) by reflexivity.
  rewrite E in H. vm_compute in H. discriminate H.
Qed.

Example set_pwm_target_off_writes_zero :
  Heater.mcu_pwm (snd (Heater.set_pwm demo_heater_target_zero (lit 3) (lit 0.8)))
  = [(lit 3.3, lit 0); (lit 1.3, lit 0.5)].
Proof. vm_compute. reflexivity. Qed.

(** The same with the heater at power 0.03: the 0 is within 0.05 of it and
    the time before next_pwm_time, so the call is suppressed; nothing is
    written, and the cache keeps 0.03 until a later call. *)
Example set_pwm_target_off_suppressed :
  let h := final_state (Heater.set_temp demo_heater (lit 0) (lit 200)) in
  let h := snd (Heater.set_pwm h (lit 1) (lit 0.5)) in
  let h := snd (Heater.set_pwm h (lit 2) (lit 0.03)) in
  let h := final_state (Heater.set_temp h (lit 2) (lit 0)) in
  let h' := snd (Heater.set_pwm h (lit 3) (lit 0.8)) in
  Heater.mcu_pwm h' = [(lit 2.3, lit 0.03); (lit 1.3, lit 0.5)]
  /\ Heater.last_pwm_value h' = lit 0.03
  /\ Heater.mcu_pwm (snd (Heater.set_pwm h' (lit 7) (lit 0.8)))
     = [(lit 7.3, lit 0); (lit 2.3, lit 0.03); (lit 1.3, lit 0.5)].
Proof. vm_compute. repeat split. Qed.

(** C4 as the specification words it fails.  An update has been sent (two
    have), read_time 20 is not before next_pwm_time, and the new value 0.03
    is within 0.05 of the last one, 0: the specification's test is false and
    so it has the driver written, yet the call is a no-op. *)
Lemma set_pwm_debounce_counterexample :
  let h := demo_heater_switched_off in
  let h' := snd (Heater.set_pwm h (lit 20) (lit 0.03)) in
  Heater.mcu_pwm h = [(lit 10.3, lit 0); (lit 1.3, lit 0.5)]
  /\ (lit 20 <? Heater.next_pwm_time h) = false
  /\ debounce_as_specified h (lit 20) (lit 0.03) = false
  /\ Heater.mcu_pwm h' = Heater.mcu_pwm h
  /\ fst (Heater.set_pwm h (lit 20) (lit 0.03)) = (lit 0, Heater.last_pwm_value h)
  /\ ~ (Heater.mcu_pwm h' = Heater.mcu_pwm h
        <-> debounce_as_specified h (lit 20) (lit 0.03) = true).
Proof.
  vm_compute. repeat split; try reflexivity.
  intros [Hno _]. specialize (Hno eq_refl). discriminate Hno.
Qed.

(** The debounce example of the specification: after a baseline of 0.50,
    the value 0.53 in the same window writes nothing. *)
Example set_pwm_debounce_small_change :
  let h := final_state (Heater.set_temp demo_heater (lit 0) (lit 200)) in
  let h1 := snd (Heater.set_pwm h (lit 1) (lit 0.50)) in
  let h2 := snd (Heater.set_pwm h1 (lit 1) (lit 0.53)) in
  Heater.mcu_pwm h2 = [(lit 1.3, lit 0.50)].
Proof. vm_compute. reflexivity. Qed.

(** The boundary example of the specification, min_temp 0 and max_temp 300. *)
Example set_temp_boundary :
  Heater.set_temp demo_heater (lit 0) (lit 0)
  = Return tt (Heater.with_target_temp (lit 0) demo_heater)
  /\ Heater.set_temp demo_heater (lit 0) (lit 301) = Raised heater_error demo_heater
  /\ Heater.set_temp demo_heater (lit 0) (lit 300)
     = Return tt (Heater.with_target_temp (lit 300) demo_heater).
Proof. vm_compute. repeat split. Qed.

(** C3 as the specification words it fails.  The first sample of the session
    reads 20 degrees, the sample at the entry into RampUp 30 (and so does the
    first one handled in RampUp); RampUp ends at the sample of 200 degrees.
    done_temperature is 20 + (200 - 20) * 0.35 = 83, not
    30 + (200 - 30) * 0.35 = 89.5. *)
Lemma bump_start_temp_counterexample :
  let samples := demo_idle_samples ++ [(lit 21, lit 30); (lit 22, lit 100)] in
  let s1 := feed (ControlBumpTest.init, demo_bump_heater) samples in
  let s2 := ControlBumpTest.temperature_callback (fst s1) (snd s1) (lit 23) (lit 200) in
  rampup_entry_temp (ControlBumpTest.init, demo_bump_heater) samples = Some (lit 30)
  /\ Heater.target_temp demo_bump_heater = lit 200
  /\ ControlBumpTest.state (fst s1) = 1%Z
  /\ ControlBumpTest.state (fst s2) = 2%Z
  /\ ControlBumpTest.done_temperature (fst s2) = lit 83
  /\ (ControlBumpTest.done_temperature (fst s2)
      =? lit 30 + (lit 200 - lit 30) * lit 0.35) = false.
Proof. vm_compute. repeat split. Qed.

Lemma bump_done_temperature_witness :
  let samples := demo_idle_samples ++ [(lit 21, lit 30); (lit 22, lit 100)] in
  let s1 := feed (ControlBumpTest.init, demo_bump_heater) samples in
  let s2 := ControlBumpTest.temperature_callback (fst s1) (snd s1) (lit 23) (lit 200) in
  ControlBumpTest.state (fst s1) = 1%Z
  /\ (Heater.target_temp demo_bump_heater <=? lit 200) = true
  /\ ControlBumpTest.done_temperature (fst s2)
     = lit 20 + (Heater.target_temp demo_bump_heater - lit 20) * lit 0.35
  /\ Heater.target_temp (snd s2) = ControlBumpTest.done_temperature (fst s2)
  /\ ControlBumpTest.state (fst s2) = 2%Z
  /\ Heater.pwm_calls (snd s2) = (lit 23, lit 0) :: Heater.pwm_calls (snd s1).
Proof.
  split; [reflexivity |]. split; [reflexivity |].
  apply (bump_done_temperature demo_bump_heater
           (demo_idle_samples ++ [(lit 21, lit 30); (lit 22, lit 100)])
           (lit 23) (lit 200)); reflexivity.
Defined.

(** A PID step far below the target. *)
Lemma pid_integral_antiwindup_witness :
  let self := demo_pid_control in
  let h := Heater.with_target_temp (lit 200) demo_heater in
  (lit 0 <? ControlPID.min_deriv_time self) = true
  /\ (lit 0 <=? ControlPID.temp_integ_max self) = true
  /\ exists self' h',
       ControlPID.temperature_callback self h (lit 1) (lit 25) = Return tt (self', h')
       /\ let temp_err := Heater.target_temp h - lit 25 in
          let temp_integ :=
            py_max (lit 0)
              (py_min (ControlPID.temp_integ_max self)
                 (ControlPID.prev_temp_integ self
                  + temp_err * (lit 1 - ControlPID.prev_temp_time self))) in
          let co :=
            ControlPID.Kp self * temp_err + ControlPID.Ki self * temp_integ
            - ControlPID.Kd self * ControlPID.prev_temp_deriv self' in
          let bounded_co := py_max (lit 0) (py_min (Heater.max_power h) co) in
          within (lit 0) (ControlPID.temp_integ_max self) temp_integ
          /\ Heater.pwm_calls h' = (lit 1, bounded_co) :: Heater.pwm_calls h
          /\ ((co =? bounded_co) = true -> ControlPID.prev_temp_integ self' = temp_integ)
          /\ ((co =? bounded_co) = false ->
              ControlPID.prev_temp_integ self' = ControlPID.prev_temp_integ self).
Proof.
  split; [reflexivity |]. split; [reflexivity |].
  apply (pid_integral_antiwindup demo_pid_control
           (Heater.with_target_temp (lit 200) demo_heater) (lit 1) (lit 25));
    reflexivity.
Defined.

(** The anti-windup example of the specification.  Far below the target the
    output saturates at max_power, sample after sample, and the stored
    integral stays at 0; at the fifth sample the output leaves saturation
    and the integral is stored. *)
Example pid_antiwindup_demo :
  let after temps :=
    let o := final_state (HeaterObj.run demo_pid (demo_events 200 temps)) in
    match HeaterObj.control o with
    | CPID c =>
        Some (ControlPID.prev_temp_integ c,
              map snd (firstn 1 (Heater.pwm_calls (HeaterObj.heater o))))
    | _ => None
    end in
  after [25]%Q = Some (lit 0, [lit 1])
  /\ after [25; 40]%Q = Some (lit 0, [lit 1])
  /\ after [25; 40; 60]%Q = Some (lit 0, [lit 1])
  /\ after [25; 40; 60; 80]%Q = Some (lit 0, [lit 1])
  /\ after [25; 40; 60; 80; 100]%Q = Some (lit 100, [0.8867647058823529%float]).
Proof. vm_compute. repeat split. Qed.

(** On binary64 the derivative the callback stores and the low-pass form of
    the specification are rounded differently: with min_deriv_time 2, the
    previous derivative 0.1 and a sample 0.3 s later and 0.3 degrees higher,
    the callback stores 0.23499999999999999, and
    prev + (temp_diff / time_diff - prev) * (time_diff / min_deriv_time)
    rounds to 0.23500000000000001. *)
Example pid_derivative_rounding_demo :
  let self : ControlPID.t float :=
    {| ControlPID.Kp := ControlPID.Kp demo_pid_control;
       ControlPID.Ki := ControlPID.Ki demo_pid_control;
       ControlPID.Kd := ControlPID.Kd demo_pid_control;
       ControlPID.min_deriv_time := lit 2;
       ControlPID.temp_integ_max := ControlPID.temp_integ_max demo_pid_control;
       ControlPID.prev_temp := lit 0; ControlPID.prev_temp_time := lit 0;
       ControlPID.prev_temp_deriv := lit 0.1; ControlPID.prev_temp_integ := lit 0 |} in
  let stored :=
    ControlPID.prev_temp_deriv
      (fst (final_state
              (ControlPID.temperature_callback self demo_heater (lit 0.3) (lit 0.3)))) in
  stored = 0.23499999999999999%float
  /\ lit 0.1 + (fquot (lit 0.3) (lit 0.3) - lit 0.1) * fquot (lit 0.3) (lit 2)
     = 0.23500000000000001%float
  /\ (stored <? 0.23500000000000001%float) = true.
Proof. vm_compute. repeat split. Qed.

(** The constructor on the options of the example. *)
Example pid_init_demo :
  ControlPID.init demo_heater (lit 22.2) (lit 1.08) (lit 114) (lit 2) None
  = Ok demo_pid_control.
Proof. vm_compute. reflexivity. Qed.

Example fopdt_init_demo :
  ControlFOPDT.init (lit 50) (lit 60) (lit 5) (lit 0) = Ok demo_fopdt_control.
Proof. vm_compute. reflexivity. Qed.

(** What the fit of the example returns: the seeds, since the minimiser of
    the example keeps them (gain 2 * 61, time_constant 26 - 23, delay 10). *)
Example calc_fopdt_demo :
  match ControlBumpTest.calc_fopdt demo_minimiser demo_bump_done with
  | Return r self' =>
      r = (lit 122, lit 3, lit 10)
      /\ ControlBumpTest.ambient_temp self' = fquot (lit 530) (lit 21)
  | Raised _ _ => False
  end.
Proof. vm_compute. split; reflexivity. Qed.

(** The hysteresis example of the specification, target 200 and max_delta 2,
    on the temperatures 195, 197, 199, 201, 203, 205, 199, 197: the power
    stays at max_power up to the first sample of at least 202 (the 203), is
    0 from there on through the band (the 199), and max_power again at the
    first sample of at most 198 (the 197).  The calls are listed from the
    last to the first. *)
Example bangbang_hysteresis_demo :
  map snd
    (Heater.pwm_calls
       (HeaterObj.heater
          (final_state
             (HeaterObj.run demo_bangbang
                (demo_events 200 [195; 197; 199; 201; 203; 205; 199; 197]%Q)))))
  = [lit 1; lit 0; lit 0; lit 0; lit 1; lit 1; lit 1; lit 1].
Proof. vm_compute. reflexivity. Qed.

(** The states of the whole bump test of the example. *)
Example bump_states_demo :
  states (ControlBumpTest.init, demo_bump_heater)
    (demo_samples (repeat 25 20 ++ [30; 100; 201; 150; 90; 83; 60])%Q)
  = (repeat 0 19 ++ [1; 1; 1; 2; 2; 2; 3; 3])%Z.
Proof. vm_compute. reflexivity. Qed.
End Witnesses.

Section WitnessesDerivative.
Local Open Scope py_scope.

(** A PID algorithm with min_deriv_time 2 whose previous sample was 0
    degrees at time 0, with the derivative 0.1. *)
Definition demo_pid_derivative : ControlPID.t float :=
  {| ControlPID.Kp := ControlPID.Kp demo_pid_control;
     ControlPID.Ki := ControlPID.Ki demo_pid_control;
     ControlPID.Kd := ControlPID.Kd demo_pid_control;
     ControlPID.min_deriv_time := lit 2;
     ControlPID.temp_integ_max := ControlPID.temp_integ_max demo_pid_control;
     ControlPID.prev_temp := lit 0; ControlPID.prev_temp_time := lit 0;
     ControlPID.prev_temp_deriv := lit 0.1; ControlPID.prev_temp_integ := lit 0 |}.

(** A sample 0.3 s later and 0.3 degrees higher. *)
Lemma pid_derivative_filter_witness :
  (lit 0 <? ControlPID.min_deriv_time demo_pid_derivative) = true
  /\ exists self' h',
       ControlPID.temperature_callback demo_pid_derivative demo_heater (lit 0.3) (lit 0.3)
       = Return tt (self', h')
       /\ ControlPID.prev_temp_deriv self'
          = fquot (lit 0.1 * (lit 2 - (lit 0.3 - lit 0)) + (lit 0.3 - lit 0)) (lit 2).
Proof.
  assert (Hm : (lit 0 <? ControlPID.min_deriv_time demo_pid_derivative) = true)
    by reflexivity.
  split; [exact Hm |].
  destruct (pid_derivative_filter demo_pid_derivative demo_heater (lit 0.3) (lit 0.3) Hm)
    as (self' & h' & Hcb & Hshort & _).
  exists self', h'. split; [exact Hcb |]. apply Hshort. reflexivity.
Defined.

(** C9 as the specification words it fails, twice.  For the sample 0.3 s
    later and 0.3 degrees higher the callback stores
    0.23499999999999999, and the previous derivative low-pass-filtered
    toward temp_diff / time_diff with weight time_diff / min_deriv_time is
    0.23500000000000001.  For a sample 0.3 degrees higher at the time of
    the previous one, time_diff is 0 and shorter than min_deriv_time: the
    callback returns and stores 0.25, but the raw estimate
    temp_diff / time_diff does not exist (the division raises
    ZeroDivisionError), and with the quotient of IEEE 754 in its place the
    low-pass form is not a number. *)
Lemma pid_derivative_filter_counterexample :
  let stored (read_time temp : float) :=
    ControlPID.prev_temp_deriv
      (fst (final_state
              (ControlPID.temperature_callback demo_pid_derivative demo_heater
                 read_time temp))) in
  let specified (read_time temp : float) :=
    low_pass_as_specified (lit 0.1)
      (fquot (temp - lit 0) (read_time - lit 0)) (fquot (read_time - lit 0) (lit 2)) in
  ((lit 0.3 - lit 0 <? ControlPID.min_deriv_time demo_pid_derivative) = true
   /\ stored (lit 0.3) (lit 0.3) = 0.23499999999999999%float
   /\ specified (lit 0.3) (lit 0.3) = 0.23500000000000001%float
   /\ (stored (lit 0.3) (lit 0.3) =? specified (lit 0.3) (lit 0.3)) = false
   /\ ~ stored (lit 0.3) (lit 0.3) = specified (lit 0.3) (lit 0.3))
  /\ ((lit 0 - lit 0 <? ControlPID.min_deriv_time demo_pid_derivative) = true
      /\ (exists s,
            ControlPID.temperature_callback demo_pid_derivative demo_heater
              (lit 0) (lit 0.3)
            = Return tt s)
      /\ stored (lit 0) (lit 0.3) = lit 0.25
      /\ py_div (lit 0.3 - lit 0) (lit 0 - lit 0 : float) = Raise ZeroDivisionError
      /\ (specified (lit 0) (lit 0.3) =? specified (lit 0) (lit 0.3)) = false
      /\ ~ stored (lit 0) (lit 0.3) = specified (lit 0) (lit 0.3)).
Proof.
  intros stored specified.
  assert (H1 : (stored (lit 0.3) (lit 0.3) =? specified (lit 0.3) (lit 0.3)) = false)
    by (vm_compute; reflexivity).
  assert (H2 : (stored (lit 0) (lit 0.3) =? stored (lit 0) (lit 0.3)) = true)
    by (vm_compute; reflexivity).
  assert (H3 : (specified (lit 0) (lit 0.3) =? specified (lit 0) (lit 0.3)) = false)
    by (vm_compute; reflexivity).
  split.
  - split; [vm_compute; reflexivity |]. split; [vm_compute; reflexivity |].
    split; [vm_compute; reflexivity |]. split; [exact H1 |].
    intros E. rewrite E in H1.
    assert (H : (specified (lit 0.3) (lit 0.3) =? specified (lit 0.3) (lit 0.3)) = true)
      by (vm_compute; reflexivity).
    rewrite H in H1. discriminate H1.
  - split; [vm_compute; reflexivity |].
    split; [eexists; vm_compute; reflexivity |].
    split; [vm_compute; reflexivity |]. split; [vm_compute; reflexivity |].
    split; [exact H3 |].
    intros E. rewrite E in H2. rewrite H2 in H3. discriminate H3.
Qed.
End WitnessesDerivative.

(** * Examples of the further properties *)

Section FurtherWitnesses.
Local Open Scope py_scope.

(** The three algorithms on the run of C1's example: what the driver is
    sent. *)
Lemma driver_power_within_bounds_witness :
  (lit 0 <=? Heater.max_power demo_heater) = true
  /\ (forall o : HeaterObj.t float,
        In o [demo_bangbang; demo_pid; demo_fopdt] ->
        exists writes : list (float * float),
          Heater.mcu_pwm
            (HeaterObj.heater
               (final_state
                  (HeaterObj.run o
                     (demo_events 200 [25; 26; 27; 150; 199; 199.5; 200; 203; 197]%Q))))
          = writes ++ Heater.mcu_pwm (HeaterObj.heater o)
          /\ Forall
               (fun w => (lit 0 <=? snd w) = true
                         /\ (snd w <=? Heater.max_power (HeaterObj.heater o)) = true)
               writes).
Proof.
  split; [reflexivity |].
  intros o [<-|[<-|[<-|[]]]];
    apply (driver_power_within_bounds _ _); reflexivity.
Defined.

Lemma run_keeps_cache_consistent_witness :
  cache_consistent (HeaterObj.heater demo_pid)
  /\ cache_consistent
       (HeaterObj.heater
          (final_state
             (HeaterObj.run demo_pid (demo_events 200 [25; 26; 27; 150; 199]%Q)))).
Proof.
  split; [apply init_cache_consistent |].
  apply (run_keeps_cache_consistent demo_pid). apply init_cache_consistent.
Defined.

(** What the driver was sent last on that run, and the cache. *)
Example cache_demo :
  let h :=
    HeaterObj.heater
      (final_state
         (HeaterObj.run demo_pid (demo_events 200 [25; 26; 27; 150; 199]%Q))) in
  Heater.mcu_pwm h = [(lit 4.3, lit 0); (lit 1.3, lit 1)]
  /\ Heater.last_pwm_value h = lit 0
  /\ Heater.next_pwm_time h = lit 4.3 + lit 0.75 * lit 5.0.
Proof. vm_compute. repeat split. Qed.

(** A sample at time 10: fresh for an estimated print time of 12, stale for
    one of 20. *)
Lemma get_temp_after_sample_witness :
  let h' :=
    HeaterObj.heater
      (final_state (HeaterObj.temperature_callback demo_pid (lit 10) (lit 10) (lit 150))) in
  Heater.get_temp h' (lit 12) = (lit 150, Heater.target_temp h')
  /\ Heater.get_temp h' (lit 20) = (lit 0, Heater.target_temp h').
Proof.
  split.
  - apply (get_temp_after_sample demo_pid (lit 10) (lit 10) (lit 150) (lit 12)).
    reflexivity.
  - apply (get_temp_after_sample demo_pid (lit 10) (lit 10) (lit 150) (lit 20)).
    reflexivity.
Defined.

Lemma target_written_by_set_temp_only_witness :
  is_bump (HeaterObj.control demo_fopdt) = false
  /\ (let h' :=
        HeaterObj.heater
          (final_state
             (HeaterObj.run demo_fopdt
                (demo_events 200 [25; 26]%Q
                 ++ [SetTemp (lit 3) (lit 500); Sample (lit 4) (lit 4) (lit 27)]))) in
      Heater.target_temp h' = Heater.target_temp (HeaterObj.heater demo_fopdt)
      \/ exists print_time degrees,
           In (SetTemp print_time degrees)
             (demo_events 200 [25; 26]%Q
              ++ [SetTemp (lit 3) (lit 500); Sample (lit 4) (lit 4) (lit 27)])
           /\ Heater.target_temp h' = degrees
           /\ refused (Heater.min_temp (HeaterObj.heater demo_fopdt))
                (Heater.max_temp (HeaterObj.heater demo_fopdt)) degrees = false).
Proof.
  split; [reflexivity |].
  apply (target_written_by_set_temp_only demo_fopdt). reflexivity.
Defined.

(** The refused 500 leaves the target at the 200 set before. *)
Example target_demo :
  Heater.target_temp
    (HeaterObj.heater
       (final_state
          (HeaterObj.run demo_fopdt
             (demo_events 200 [25; 26]%Q
              ++ [SetTemp (lit 3) (lit 500); Sample (lit 4) (lit 4) (lit 27)]))))
  = lit 200.
Proof. vm_compute. reflexivity. Qed.

(** Target 200 and max_delta 2, heating: 199, 201 and 199.5 are inside the
    band. *)
Lemma bangbang_latch_witness :
  let c := ControlBangBang.with_heating true (ControlBangBang.init (lit 2)) in
  let h := Heater.with_target_temp (lit 200) demo_heater in
  let samples := demo_samples [199; 201; 199.5]%Q in
  Forall (fun x => in_band (Heater.target_temp h) (ControlBangBang.max_delta c) (snd x))
    samples
  /\ (let o' :=
        final_state
          (HeaterObj.run {| HeaterObj.heater := h; HeaterObj.control := CBangBang c |}
             (as_events samples)) in
      HeaterObj.control o' = CBangBang c
      /\ Heater.pwm_calls (HeaterObj.heater o')
         = map (fun x => (fst x, if ControlBangBang.heating c
                                 then Heater.max_power h else lit 0))
             (rev samples)
           ++ Heater.pwm_calls h).
Proof.
  intros c h samples.
  assert (Hband : Forall (fun x => in_band (Heater.target_temp h)
                                     (ControlBangBang.max_delta c) (snd x)) samples)
    by (vm_compute; repeat constructor).
  split; [exact Hband |].
  apply (bangbang_latch c samples h Hband).
Defined.

(** pid_Ki 0: the constructor raises. *)
Lemma pid_init_zero_Ki_witness :
  (Heater.PID_PARAM_BASE (F := float) =? lit 0) = false
  /\ ControlPID.init demo_heater (lit 22.2) (lit 0) (lit 114) (lit 2) None
     = Raise ZeroDivisionError.
Proof.
  split; [reflexivity |].
  rewrite (pid_init_zero_Ki demo_heater (lit 22.2) (lit 0) (lit 114) (lit 2) None)
    by reflexivity.
  reflexivity.
Defined.

Lemma pid_integral_bounded_witness :
  (lit 0 <=? ControlPID.temp_integ_max demo_pid_control) = true
  /\ (lit 0 <=? ControlPID.prev_temp_integ demo_pid_control) = true
  /\ (ControlPID.prev_temp_integ demo_pid_control
      <=? ControlPID.temp_integ_max demo_pid_control) = true
  /\ exists c' : ControlPID.t float,
       HeaterObj.control
         (final_state
            (HeaterObj.run
               {| HeaterObj.heater := demo_heater;
                  HeaterObj.control := CPID demo_pid_control |}
               (demo_events 200 [25; 40; 60; 80; 100; 190; 210]%Q)))
       = CPID c'
       /\ ControlPID.Kp c' = ControlPID.Kp demo_pid_control
       /\ ControlPID.Ki c' = ControlPID.Ki demo_pid_control
       /\ ControlPID.Kd c' = ControlPID.Kd demo_pid_control
       /\ ControlPID.min_deriv_time c' = ControlPID.min_deriv_time demo_pid_control
       /\ ControlPID.temp_integ_max c' = ControlPID.temp_integ_max demo_pid_control
       /\ (lit 0 <=? ControlPID.prev_temp_integ c') = true
       /\ (ControlPID.prev_temp_integ c'
           <=? ControlPID.temp_integ_max demo_pid_control) = true.
Proof.
  split; [reflexivity |]. split; [reflexivity |]. split; [reflexivity |].
  apply (pid_integral_bounded demo_pid_control demo_heater); reflexivity.
Defined.

(** A callback of the FOPDT heater that returns. *)
Lemma fopdt_next_pwm_is_cached_witness :
  let h := Heater.with_target_temp (lit 200) demo_heater in
  let r :=
    HeaterObj.temperature_callback
      {| HeaterObj.heater := h; HeaterObj.control := CFOPDT demo_fopdt_control |}
      (lit 1) (lit 1) (lit 25) in
  r = Return tt (final_state r)
  /\ exists c' : ControlFOPDT.t float,
       HeaterObj.control (final_state r) = CFOPDT c'
       /\ ControlFOPDT.next_pwm c' = Heater.last_pwm_value (HeaterObj.heater (final_state r)).
Proof.
  intros h r.
  assert (E : r = Return tt (final_state r)) by (vm_compute; reflexivity).
  split; [exact E |].
  apply (fopdt_next_pwm_is_cached demo_fopdt_control h (lit 1) (lit 1) (lit 25)
           (final_state r) tt E).
Defined.

(** Nineteen samples leave the bump test in Idle, the twentieth moves it to
    RampUp. *)
Lemma bump_idle_phase_witness :
  ControlBumpTest.state
    (fst (feed (ControlBumpTest.init, demo_bump_heater) (firstn 19 demo_idle_samples)))
  = 0%Z
  /\ ControlBumpTest.state
       (fst (feed (ControlBumpTest.init, demo_bump_heater) demo_idle_samples))
     = 1%Z.
Proof.
  split.
  - apply (bump_idle_phase demo_bump_heater (firstn 19 demo_idle_samples)).
    vm_compute. lia.
  - apply (bump_idle_phase demo_bump_heater demo_idle_samples). reflexivity.
Defined.

(** The bump test to the target 60 of the example, when RampUp has ended at
    61 degrees, and the samples that follow. *)
Lemma bump_off_after_rampup_witness :
  let h :=
    HeaterObj.heater
      (final_state (HeaterObj.start_calibrate demo_bangbang (lit 0) (lit 60))) in
  let s :=
    feed (ControlBumpTest.init, h) (demo_samples (repeat 25 20 ++ [30; 45; 61])%Q) in
  let samples := [(lit 24, lit 50); (lit 25, lit 40); (lit 26, lit 37); (lit 27, lit 36)] in
  (2 <= ControlBumpTest.state (fst s))%Z
  /\ (let s' := feed s samples in
      Heater.target_temp (snd s') = Heater.target_temp (snd s)
      /\ ControlBumpTest.done_temperature (fst s')
         = ControlBumpTest.done_temperature (fst s)
      /\ exists calls : list (float * float),
           Heater.pwm_calls (snd s') = calls ++ Heater.pwm_calls (snd s)
           /\ Forall (fun c => snd c = lit 0) calls).
Proof.
  intros h s samples.
  assert (Hst : (2 <= ControlBumpTest.state (fst s))%Z) by (vm_compute; discriminate).
  split; [exact Hst |].
  apply (bump_off_after_rampup s samples Hst).
Defined.

(** A bump test to the target 20 on a heater at 25 degrees. *)
Lemma bump_never_heated_witness :
  let h :=
    HeaterObj.heater
      (final_state (HeaterObj.start_calibrate demo_bangbang (lit 0) (lit 20))) in
  let samples := demo_samples (repeat 25 22)%Q in
  ((lit 0 : float) =? lit 0) = true
  /\ Forall (fun x => (snd x <? Heater.target_temp h) = false) samples
  /\ (let s := feed (ControlBumpTest.init, h) samples in
      ControlBumpTest.pwm_samples (fst s) = []
      /\ (exists calls : list (float * float),
            Heater.pwm_calls (snd s) = calls ++ Heater.pwm_calls h
            /\ Forall (fun c => snd c = lit 0) calls)
      /\ forall coordinate_descent,
           ControlBumpTest.calc_fopdt coordinate_descent (fst s)
           = Raised IndexError (fst s)).
Proof.
  intros h samples.
  assert (Hall : Forall (fun x => (snd x <? Heater.target_temp h) = false) samples)
    by (vm_compute; repeat constructor).
  split; [reflexivity |]. split; [exact Hall |].
  apply (bump_never_heated h samples); [reflexivity | exact Hall].
Defined.

(** The bump test to the target 60 of the example: switched on at 21.3,
    switched off at 23.3. *)
Lemma bump_pwm_samples_witness :
  let h :=
    HeaterObj.heater
      (final_state (HeaterObj.start_calibrate demo_bangbang (lit 0) (lit 60))) in
  let idle := demo_samples (repeat 25 20)%Q in
  let first : float * float := (lit 21, lit 30) in
  let ramp : list (float * float) := [(lit 22, lit 45)] in
  let cut : float * float := (lit 23, lit 61) in
  let rest : list (float * float) :=
    [(lit 24, lit 50); (lit 25, lit 40); (lit 26, lit 37)] in
  ((lit 0 : float) =? lit 0) = true
  /\ (lit 0 <? Heater.max_power h) = true
  /\ (Heater.max_power h =? Heater.max_power h) = true
  /\ length idle = 20%nat
  /\ Forall (fun x => (snd x <? Heater.target_temp h) = true) (first :: ramp)
  /\ (snd cut <? Heater.target_temp h) = false
  /\ ControlBumpTest.pwm_samples
       (fst (feed (ControlBumpTest.init, h) (idle ++ first :: ramp ++ cut :: rest)))
     = [(fst first + Heater.pwm_delay h, Heater.max_power h);
        (fst cut + Heater.pwm_delay h, lit 0)].
Proof.
  intros h idle first ramp cut rest.
  assert (Hramp : Forall (fun x => (snd x <? Heater.target_temp h) = true)
                    (first :: ramp))
    by (vm_compute; repeat constructor).
  split; [reflexivity |]. split; [reflexivity |]. split; [reflexivity |].
  split; [reflexivity |]. split; [exact Hramp |]. split; [reflexivity |].
  apply (bump_pwm_samples h idle ramp rest first cut);
    [reflexivity | reflexivity | reflexivity | reflexivity | exact Hramp | reflexivity].
Defined.

(** The whole bump test of the example has its two pwm samples and gets 26
    predictions for its 26 samples; one stopped in RampUp has a single pwm
    sample and gets IndexError. *)
Lemma model_smoothed_fopdt_shape_witness :
  (exists out : list float,
     ControlBumpTest.model_smoothed_fopdt demo_bump_done (lit 122) (lit 3) (lit 10)
     = Ok out
     /\ length out = 26%nat)
  /\ (let self :=
        fst (feed (ControlBumpTest.init,
                   HeaterObj.heater
                     (final_state
                        (HeaterObj.start_calibrate demo_bangbang (lit 0) (lit 60))))
               (demo_samples (repeat 25 20 ++ [30; 45])%Q)) in
      ControlBumpTest.model_smoothed_fopdt self (lit 122) (lit 3) (lit 10)
      = Raise IndexError).
Proof.
  split.
  - destruct (ControlBumpTest.model_smoothed_fopdt demo_bump_done (lit 122) (lit 3)
                (lit 10)) as [out|e] eqn:E.
    + exists out. split; [reflexivity |].
      destruct (model_smoothed_fopdt_shape demo_bump_done (lit 122) (lit 3) (lit 10))
        as [_ H].
      destruct (H out E) as [_ ->]. reflexivity.
    + vm_compute in E. discriminate E.
  - apply model_smoothed_fopdt_shape. vm_compute. lia.
Defined.

(** The heater extruder is set up in an empty registry, and found under
    both of its names. *)
Lemma setup_heater_registers_witness :
  let r := demo_setup_heater ("extruder", "NTC 100K") (PrinterHeaters.init, tt) in
  r = (fst r, inr "extruder")
  /\ PrinterHeaters.lookup_heater (fst (fst r)) "extruder" = inr "extruder"
  /\ PrinterHeaters.lookup_heater (fst (fst r)) "extruder0" = inr "extruder".
Proof.
  intros r.
  assert (E : r = (fst r, inr "extruder")) by (vm_compute; reflexivity).
  split; [exact E |].
  destruct (setup_heater_registers _ _ _ _ _ demo_get_name demo_config_get
              demo_try_load_module demo_call_factory demo_new_heater
              ("extruder", "NTC 100K") (PrinterHeaters.init, tt) (fst r) "extruder" E)
    as (H1 & H2 & _ & _).
  split; [exact H1 | exact H2].
Defined.

(** A second section of the name extruder0 is refused. *)
Lemma setup_heater_duplicate_witness :
  let s := fst (demo_setup_heater ("extruder", "NTC 100K") (PrinterHeaters.init, tt)) in
  PrinterHeaters.lookup_heater (fst s) (demo_get_name ("extruder0", "NTC 100K"))
  = inr "extruder"
  /\ demo_setup_heater ("extruder0", "NTC 100K") s
     = (s, inl (PrinterHeaters.config_error "Heater extruder0 already registered")).
Proof.
  intros s.
  assert (E : PrinterHeaters.lookup_heater (fst s)
                (demo_get_name ("extruder0", "NTC 100K")) = inr "extruder")
    by (vm_compute; reflexivity).
  split; [exact E |].
  apply (setup_heater_duplicate _ _ _ _ _ demo_get_name demo_config_get
           demo_try_load_module demo_call_factory demo_new_heater
           ("extruder0", "NTC 100K") s "extruder" E).
Defined.

(** An unknown sensor type, and an unknown heater. *)
Example registry_errors_demo :
  snd (demo_setup_heater ("heater_bed", "PT1000") (PrinterHeaters.init, tt))
  = inl (PrinterHeaters.printer_config_error "Unknown temperature sensor 'PT1000'")
  /\ PrinterHeaters.lookup_heater
       (fst (fst (demo_setup_heater ("extruder", "NTC 100K") (PrinterHeaters.init, tt))))
       "heater_bed"
     = inl (PrinterHeaters.printer_config_error "Unknown heater 'heater_bed'").
Proof. vm_compute. split; reflexivity. Qed.

(** Target 200 and max_delta 2, a sample of 100 degrees: busy, and heating
    at max_power. *)
Lemma bangbang_busy_heats_witness :
  let c : ControlBangBang.t float := ControlBangBang.init (lit 2) in
  let h := Heater.with_target_temp (lit 200) demo_heater in
  let s' :=
    ControlBangBang.temperature_callback c (Heater.with_sample (lit 1) (lit 100) h)
      (lit 1) (lit 100) in
  (Heater.target_temp h - ControlBangBang.max_delta c
   <=? Heater.target_temp h + ControlBangBang.max_delta c) = true
  /\ ControlBangBang.check_busy (fst s') (snd s') (lit 1) = true
  /\ ControlBangBang.heating (fst s') = true
  /\ hd_error (Heater.pwm_calls (snd s')) = Some (lit 1, Heater.max_power h).
Proof.
  intros c h s'.
  assert (Hband : (Heater.target_temp h - ControlBangBang.max_delta c
                   <=? Heater.target_temp h + ControlBangBang.max_delta c) = true)
    by reflexivity.
  assert (Hb : ControlBangBang.check_busy (fst s') (snd s') (lit 1) = true)
    by reflexivity.
  split; [exact Hband |]. split; [exact Hb |].
  apply (bangbang_busy_heats c h (lit 1) (lit 100) (lit 1) Hband Hb).
Defined.
End FurtherWitnesses.
